(** * Nested-data persistence layer of quanalys: [syncdata/h5py_utils.py]

    A shallow embedding of the HDF5 helper module (value normalizer,
    sentinel lock, container writer and reader, structure summarizer) and
    the properties of its specification.

    Modelling conventions.
    - A Python [str] is a Rocq [string] holding its UTF-8 encoding; a
      [bytes] object is a [string] of raw bytes, so [bytes.decode()] is a
      validity check followed by the identity.
    - A Python [dict] is an association list in insertion order whose
      keys are pairwise distinct ([dict_set] keeps that invariant).
    - Python and numpy floats are binary64 values ([PrimFloat.float]).
    - Exceptions are values of [exn]; a computation that may raise returns
      a [result].  Stateful code threads its state explicitly and returns
      the state reached together with the outcome, so that the state left
      behind by a raising call is part of the model.
    - numpy's sequence-to-array conversion and h5py's dataset conversion
      belong to external libraries; they are the Section variables
      [np_array] and [h5_convert].  HDF5 link names are single names (the
      path resolution h5py applies to names containing a slash is outside
      the model), paths follow [posixpath], the file system is a finite
      map from path to file content, and the modification time returned
      by the writer is not modelled.
    - Directories are not tracked.  The directory of a file that is
      created is taken to exist; the properties of calls that make no
      directory themselves say where it is known to exist
      ([directory_known]).
    - What h5py leaves under the key of a value it refuses is not
      modelled, and nothing is stated of that key.
    - The dicts that the reader makes are also modelled as objects,
      numbered in the order of their creation ([open_h5_object]), to state
      which of them are new. *)

From Stdlib Require Import ZArith String Ascii List Lia Floats DecimalString Permutation.
From stdpp Require Import gmap strings.

Local Open Scope Z_scope.
#[local] Set Warnings "-inexact-float,-register-all".

(** ** Exceptions and results *)

Inductive exn : Type :=
| FileLockedError
| FileNotFoundError
| FileExistsError
| OSError
| KeyError
| ValueError
| TypeError
| OverflowError
| UnicodeDecodeError.

Inductive result (A : Type) : Type :=
| Ok (a : A)
| Raise (e : exn).

Arguments Ok {A} a.
Arguments Raise {A} e.

Global Instance result_ret : MRet result := fun _ a => Ok a.
Global Instance result_bind : MBind result := fun _ _ k r =>
  match r with
  | Ok a => k a
  | Raise e => Raise e
  end.
Global Instance result_fmap : FMap result := fun _ _ f r =>
  match r with
  | Ok a => Ok (f a)
  | Raise e => Raise e
  end.

(** ** Text *)

Module Text.

Definition code (a : ascii) : Z := Z.of_N (N_of_ascii a).
Definition chr (z : Z) : ascii := ascii_of_N (Z.to_N z).

Fixpoint codes (s : string) : list Z :=
  match s with
  | EmptyString => []
  | String a s' => code a :: codes s'
  end.

Definition len (s : string) : Z := Z.of_nat (String.length s).

(** Decimal rendering of an integer, as [str(int)] prints it. *)
Definition show_Z (z : Z) : string := NilZero.string_of_int (Z.to_int z).

Fixpoint zeros (n : nat) : string :=
  match n with
  | O => ""
  | S n' => String "0" (zeros n')
  end.

(** [str(n).zfill(w)] for a non-negative [n]. *)
Definition zfill (w : nat) (z : Z) : string :=
  let s := show_Z z in zeros (w - String.length s) +:+ s.

(** [s.rfind(c)]: index of the last occurrence of [c], or -1. *)
Fixpoint rfind_from (c : ascii) (s : string) (i last : Z) : Z :=
  match s with
  | EmptyString => last
  | String a s' => rfind_from c s' (i + 1) (if Ascii.eqb a c then i else last)
  end.
Definition rfind (c : ascii) (s : string) : Z := rfind_from c s 0 (-1).

(** The slices [s[:n]], [s[n:]] and [s[i:j]] for indices within range. *)
Definition take (n : Z) (s : string) : string :=
  String.substring 0 (Z.to_nat n) s.
Definition drop (n : Z) (s : string) : string :=
  String.substring (Z.to_nat n) (String.length s - Z.to_nat n) s.
Definition slice (i j : Z) (s : string) : string :=
  String.substring (Z.to_nat i) (Z.to_nat (j - i)) s.

Fixpoint all_char (c : ascii) (s : string) : bool :=
  match s with
  | EmptyString => true
  | String a s' => Ascii.eqb a c && all_char c s'
  end.

(** [s.rstrip(c)] for a single character [c]. *)
Fixpoint rstrip (c : ascii) (s : string) : string :=
  match s with
  | EmptyString => ""
  | String a s' =>
      match rstrip c s' with
      | EmptyString => if Ascii.eqb a c then "" else String a ""
      | r => String a r
      end
  end.

(** [s.startswith(p)]. *)
Fixpoint startswith (p s : string) : bool :=
  match p with
  | EmptyString => true
  | String a p' =>
      match s with
      | EmptyString => false
      | String b s' => Ascii.eqb a b && startswith p' s'
      end
  end.

(** [s.replace(old, new)]: every non-overlapping occurrence of [old],
    scanning from the left.  [skip] counts the characters of a matched
    occurrence that are still to be passed over. *)
Fixpoint replace_go (old new : string) (skip : nat) (s : string) : string :=
  match s with
  | EmptyString => ""
  | String a s' =>
      match skip with
      | S n => replace_go old new n s'
      | O =>
          if startswith old s
          then new +:+ replace_go old new (String.length old - 1) s'
          else String a (replace_go old new 0 s')
      end
  end.
(** With an empty [old], [new] is put before every character and at
    the end. *)
Fixpoint intersperse (new s : string) : string :=
  match s with
  | EmptyString => new
  | String a s' => new +:+ String a (intersperse new s')
  end.
Definition replace (old new s : string) : string :=
  match old with
  | EmptyString => intersperse new s
  | _ => replace_go old new 0 s
  end.

(** UTF-8 decoding to code points, strict as [bytes.decode()] is:
    overlong forms, surrogates and values above U+10FFFF are rejected. *)
Definition cont (b : Z) : bool := (128 <=? b) && (b <=? 191).

Fixpoint utf8_points (bs : list Z) : option (list Z) :=
  match bs with
  | [] => Some []
  | b0 :: r0 =>
      if b0 <? 128 then option_map (cons b0) (utf8_points r0)
      else match r0 with
      | [] => None
      | b1 :: r1 =>
          if (194 <=? b0) && (b0 <=? 223) then
            if cont b1
            then option_map (cons ((b0 - 192) * 64 + (b1 - 128))) (utf8_points r1)
            else None
          else match r1 with
          | [] => None
          | b2 :: r2 =>
              if (224 <=? b0) && (b0 <=? 239) then
                if cont b1 && cont b2
                   && (negb (b0 =? 224) || (160 <=? b1))
                   && (negb (b0 =? 237) || (b1 <=? 159))
                then option_map
                       (cons ((b0 - 224) * 4096 + (b1 - 128) * 64 + (b2 - 128)))
                       (utf8_points r2)
                else None
              else match r2 with
              | [] => None
              | b3 :: r3 =>
                  if (240 <=? b0) && (b0 <=? 244) then
                    if cont b1 && cont b2 && cont b3
                       && (negb (b0 =? 240) || (144 <=? b1))
                       && (negb (b0 =? 244) || (b1 <=? 143))
                    then option_map
                           (cons ((b0 - 240) * 262144 + (b1 - 128) * 4096
                                  + (b2 - 128) * 64 + (b3 - 128)))
                           (utf8_points r3)
                    else None
                  else None
              end
          end
      end
  end.

Definition utf8_valid (s : string) : bool :=
  match utf8_points (codes s) with
  | Some _ => true
  | None => false
  end.

(** [bytes.decode()] with the default codec. *)
Definition decode (b : string) : result string :=
  if utf8_valid b then Ok b else Raise UnicodeDecodeError.

(** Code points of a [str]; a string that is not UTF-8 (not the image
    of a [str]) is read byte by byte. *)
Definition points (s : string) : list Z :=
  match utf8_points (codes s) with
  | Some ps => ps
  | None => codes s
  end.

(** [len(s)] of a [str]: its number of code points. *)
Definition str_len (s : string) : Z := Z.of_nat (List.length (points s)).

End Text.

(** ** Number formatting

    What Python's [format] produces for the three format specifications
    the summarizer uses: [.0f] on an integer, and [.3f] and [.3e] on a
    float.  Decimal conversion is exact on the binary value and rounds
    half to even. *)

Module Fmt.

(** Nearest integer to [num / den] for [den > 0], ties to even. *)
Definition round_half_even (num den : Z) : Z :=
  let q := num / den in
  let r := num mod den in
  if (den <? 2 * r) || ((2 * r =? den) && Z.odd q) then q + 1 else q.

(** The value of [float(z)]: [z] rounded to 53 significant bits;
    [OverflowError] when the result leaves the binary64 range. *)
Definition int_to_float (z : Z) : result Z :=
  let a := Z.abs z in
  let sh := Z.log2 a - 52 in
  let v := if sh <=? 0 then a else round_half_even a (2 ^ sh) * 2 ^ sh in
  if 2 ^ 1024 <=? v then Raise OverflowError else Ok (Z.sgn z * v).

(** [format(z, '.0f')] for an [int] (or [bool], or numpy integer) [z]:
    the integer is converted to a float, which is printed without
    decimals. *)
Definition int_0f (z : Z) : result string :=
  v ← int_to_float z; Ok (Text.show_Z v).

Definition sign_str (s : bool) : string := if s then "-" else "".

(** Three decimals of the non-negative rational [num / den]. *)
Definition fixed3 (num den : Z) : string :=
  let q := round_half_even (num * 1000) den in
  Text.show_Z (q / 1000) +:+ "." +:+ Text.zfill 3 (q mod 1000).

(** Mantissa with three decimals and decimal exponent of the positive
    rational [num / den] (at least [1e-400]). *)
Definition sci3 (num den : Z) : string :=
  let t := num * 10 ^ 400 / den in
  let k := Text.len (Text.show_Z t) - 401 in
  let q := if k <=? 3 then round_half_even (num * 10 ^ (3 - k)) den
           else round_half_even num (den * 10 ^ (k - 3)) in
  let q' := if q =? 10000 then 1000 else q in
  let k' := if q =? 10000 then k + 1 else k in
  Text.show_Z (q' / 1000) +:+ "." +:+ Text.zfill 3 (q' mod 1000)
    +:+ "e" +:+ (if k' <? 0 then "-" else "+") +:+ Text.zfill 2 (Z.abs k').

(** [format(f, '.3f')]. *)
Definition float_3f (f : float) : string :=
  match Prim2SF f with
  | S754_nan => "nan"
  | S754_infinity s => sign_str s +:+ "inf"
  | S754_zero s => sign_str s +:+ "0.000"
  | S754_finite s m e =>
      sign_str s +:+
      (if 0 <=? e then fixed3 (Z.pos m * 2 ^ e) 1 else fixed3 (Z.pos m) (2 ^ (- e)))
  end.

(** [format(f, '.3e')]. *)
Definition float_3e (f : float) : string :=
  match Prim2SF f with
  | S754_nan => "nan"
  | S754_infinity s => sign_str s +:+ "inf"
  | S754_zero s => sign_str s +:+ "0.000e+00"
  | S754_finite s m e =>
      sign_str s +:+
      (if 0 <=? e then sci3 (Z.pos m * 2 ^ e) 1 else sci3 (Z.pos m) (2 ^ (- e)))
  end.

(** [str(t)] for a tuple of non-negative integers, as [np.shape] returns. *)
Fixpoint comma_sep (l : list nat) : string :=
  match l with
  | [] => ""
  | [n] => Text.show_Z (Z.of_nat n)
  | n :: l' => Text.show_Z (Z.of_nat n) +:+ ", " +:+ comma_sep l'
  end.
Definition shape_str (l : list nat) : string :=
  match l with
  | [n] => "(" +:+ Text.show_Z (Z.of_nat n) +:+ ",)"
  | _ => "(" +:+ comma_sep l +:+ ")"
  end.

End Fmt.

(** ** Python values

    [VNpInt] and [VNpFloat] are numpy's [int_] and [float_] scalars.
    [VArray] is an [ndarray] given by its shape and its items in row-major
    order.  [VSet] lists a set in its iteration order.  [VObj] is an
    instance of any other class: the name of the class and its three
    optional attributes [__should_not_be_converted__] (its value),
    [_asdict] and [asarray] (what calling them returns). *)

Inductive pyval : Type :=
| VNone
| VBool (b : bool)
| VInt (z : Z)
| VFloat (f : float)
| VStr (s : string)
| VBytes (s : string)
| VNpInt (z : Z)
| VNpFloat (f : float)
| VList (l : list pyval)
| VTuple (l : list pyval)
| VSet (l : list pyval)
| VArray (shape : list nat) (items : list pyval)
| VDict (d : list (string * pyval))
| VObj (tyname : string) (marker asdict asarray : option pyval).

(** [type(v).__name__]. *)
Definition type_name (v : pyval) : string :=
  match v with
  | VNone => "NoneType"
  | VBool _ => "bool"
  | VInt _ => "int"
  | VFloat _ => "float"
  | VStr _ => "str"
  | VBytes _ => "bytes"
  | VNpInt _ => "int64"
  | VNpFloat _ => "float64"
  | VList _ => "list"
  | VTuple _ => "tuple"
  | VSet _ => "set"
  | VArray _ _ => "ndarray"
  | VDict _ => "dict"
  | VObj n _ _ _ => n
  end.

(** ** Dictionaries *)

Section Dict.
Context {A : Type}.

Fixpoint dict_get (k : string) (d : list (string * A)) : option A :=
  match d with
  | [] => None
  | (k', v) :: d' => if String.eqb k k' then Some v else dict_get k d'
  end.

(** [d[k] = v]: an existing key keeps its position. *)
Fixpoint dict_set (k : string) (v : A) (d : list (string * A)) : list (string * A) :=
  match d with
  | [] => [(k, v)]
  | (k', v') :: d' =>
      if String.eqb k k' then (k, v) :: d' else (k', v') :: dict_set k v d'
  end.

Definition dict_keys (d : list (string * A)) : list string := map fst d.

Definition dict_mem (k : string) (d : list (string * A)) : bool :=
  match dict_get k d with
  | Some _ => true
  | None => false
  end.

(** [del d[k]]. *)
Fixpoint dict_del (k : string) (d : list (string * A)) : list (string * A) :=
  match d with
  | [] => []
  | (k', v) :: d' => if String.eqb k k' then dict_del k d' else (k', v) :: dict_del k d'
  end.

(** The keys of a dictionary are pairwise distinct. *)
Definition dict_ok (d : list (string * A)) : Prop := NoDup (dict_keys d).

(** [sorted(keys)] and [sorted(d.items())] for distinct keys. *)
Fixpoint insert_sorted (x : string * A) (l : list (string * A)) : list (string * A) :=
  match l with
  | [] => [x]
  | y :: l' => if String.leb (fst x) (fst y) then x :: l else y :: insert_sorted x l'
  end.
Fixpoint sort_items (l : list (string * A)) : list (string * A) :=
  match l with
  | [] => []
  | x :: l' => insert_sorted x (sort_items l')
  end.
End Dict.

(** ** Structure summaries *)

Inductive summary : Type :=
| SStr (s : string)
| SDict (d : list (string * summary)).

(** [len] of a description: characters of a string, entries of a mapping. *)
Definition summary_len (s : summary) : Z :=
  match s with
  | SStr t => Text.str_len t
  | SDict d => Z.of_nat (length d)
  end.

(** ** JSON rendering: [json.dumps(data, sort_keys=True, indent=4)] *)

Module Json.

Definition hex_digit (z : Z) : ascii :=
  if z <? 10 then Text.chr (48 + z) else Text.chr (87 + z).

Definition hex4 (z : Z) : string :=
  String (hex_digit (z / 4096 mod 16))
    (String (hex_digit (z / 256 mod 16))
       (String (hex_digit (z / 16 mod 16))
          (String (hex_digit (z mod 16)) ""))).

Definition backslash : string := String (Text.chr 92) "".
Definition quote : string := String (Text.chr 34) "".
Definition newline : string := String (Text.chr 10) "".

(** One code point under [ensure_ascii=True]. *)
Definition escape (c : Z) : string :=
  if c =? 34 then backslash +:+ quote
  else if c =? 92 then backslash +:+ backslash
  else if c =? 10 then backslash +:+ "n"
  else if c =? 13 then backslash +:+ "r"
  else if c =? 9 then backslash +:+ "t"
  else if c =? 8 then backslash +:+ "b"
  else if c =? 12 then backslash +:+ "f"
  else if (32 <=? c) && (c <=? 126) then String (Text.chr c) ""
  else if c <? 65536 then backslash +:+ "u" +:+ hex4 c
  else
    let v := c - 65536 in
    backslash +:+ "u" +:+ hex4 (55296 + v / 1024)
      +:+ backslash +:+ "u" +:+ hex4 (56320 + v mod 1024).

Fixpoint concat (l : list string) : string :=
  match l with
  | [] => ""
  | s :: l' => s +:+ concat l'
  end.

Definition encode_str (s : string) : string :=
  quote +:+ concat (map escape (Text.points s)) +:+ quote.

Fixpoint spaces (n : nat) : string :=
  match n with
  | O => ""
  | S n' => String " " (spaces n')
  end.

Definition newline_indent (level : nat) : string :=
  newline +:+ spaces (4 * level).

Fixpoint join (sep : string) (l : list string) : string :=
  match l with
  | [] => ""
  | [s] => s
  | s :: l' => s +:+ sep +:+ join sep l'
  end.

(** A value at nesting depth [level].  The children are rendered first
    and the rendered items are then put in key order. *)
Fixpoint encode (v : summary) (level : nat) : string :=
  match v with
  | SStr s => encode_str s
  | SDict [] => "{}"
  | SDict d =>
      let items := sort_items (map (fun kv => (fst kv, encode (snd kv) (S level))) d) in
      "{" +:+ newline_indent (S level)
        +:+ join ("," +:+ newline_indent (S level))
              (map (fun kv => encode_str (fst kv) +:+ ": " +:+ snd kv) items)
        +:+ newline_indent level +:+ "}"
  end.

End Json.

Definition dict_to_json_format_str (data : list (string * summary)) : string :=
  Json.encode (SDict data) 0.

(** ** Loops over the items of a mapping *)

Section Loops.
Context {A B : Type}.

(** [for k, v in items: if keep(k): data[k] = body(v)], stopping at the
    first exception. *)
Fixpoint fill_items (keep : string -> bool) (body : A -> result B)
    (items : list (string * A)) (data : list (string * B))
  : result (list (string * B)) :=
  match items with
  | [] => Ok data
  | (k, v) :: rest =>
      if keep k
      then x ← body v; fill_items keep body rest (dict_set k x data)
      else fill_items keep body rest data
  end.

(** [for k, v in d.items(): d[k] = body(v)]: the values are replaced in
    place, the keys keep their order. *)
Fixpoint update_values (body : A -> result B) (items : list (string * A))
  : result (list (string * B)) :=
  match items with
  | [] => Ok []
  | (k, v) :: rest =>
      x ← body v; rest' ← update_values body rest; Ok ((k, x) :: rest')
  end.

(** [for k, v in items: body(state, v, k)] on a mutable [state]; the
    state reached is returned also when an iteration raises. *)
Fixpoint for_items {S : Type} (body : S -> A -> string -> S * result unit)
    (items : list (string * A)) (state : S) : S * result unit :=
  match items with
  | [] => (state, Ok tt)
  | (k, v) :: rest =>
      match body state v k with
      | (state', Ok _) => for_items body rest state'
      | (state', Raise e) => (state', Raise e)
      end
  end.

(** The loop of [fill_items] for a body that makes objects: the number of
    the objects made so far is passed along. *)
Fixpoint fill_objects (keep : string -> bool) (body : A -> nat -> nat * result B)
    (items : list (string * A)) (data : list (string * B)) (next : nat)
  : nat * result (list (string * B)) :=
  match items with
  | [] => (next, Ok data)
  | (k, v) :: rest =>
      if keep k
      then match body v next with
           | (next', Ok x) => fill_objects keep body rest (dict_set k x data) next'
           | (next', Raise e) => (next', Raise e)
           end
      else fill_objects keep body rest data next
  end.
End Loops.

(** ** Duck-typed capabilities *)

(** [hasattr(data, '__should_not_be_converted__')] and the attribute
    [is True]. *)
Definition should_not_be_converted (data : pyval) : bool :=
  match data with
  | VObj _ (Some (VBool true)) _ _ => true
  | _ => false
  end.

(** [if hasattr(data, '_asdict'): data = data._asdict()]. *)
Definition via_asdict (data : pyval) : pyval :=
  match data with
  | VObj _ _ (Some d) _ => d
  | _ => data
  end.

(** [if hasattr(data, 'asarray'): data = data.asarray()]. *)
Definition via_asarray (data : pyval) : pyval :=
  match data with
  | VObj _ _ _ (Some a) => a
  | _ => data
  end.

(** ** The container and the file system *)

(** A node of the container.  The links of a group are kept in name
    order, the order in which h5py iterates over them.  A dataset holds
    the value that [dataset[()]] returns and whether it was created with
    gzip compression. *)
Inductive node : Type :=
| Group (links : list (string * node))
| Dataset (value : pyval) (gzip : bool).

Inductive fcontent : Type :=
| Sentinel
| H5File (root : list (string * node)).

(** [posixpath.dirname]. *)
Definition dirname (p : string) : string :=
  let i := Text.rfind "/" p + 1 in
  let head := Text.take i p in
  if negb (String.eqb head "") && negb (Text.all_char "/" head)
  then Text.rstrip "/" head
  else head.

(** [posixpath.splitext]: the extension starts at the last dot of the
    last component, leading dots of that component apart. *)
Definition splitext (p : string) : string * string :=
  let sepIndex := Text.rfind "/" p in
  let dotIndex := Text.rfind "." p in
  if (sepIndex <? dotIndex)
     && negb (Text.all_char "." (Text.slice (sepIndex + 1) dotIndex p))
  then (Text.take dotIndex p, Text.drop dotIndex p)
  else (p, "").

Section FileSystem.
Implicit Type fs : gmap string fcontent.

(** [os.path.exists]. *)
Definition path_exists (p : string) fs : bool :=
  match fs !! p with
  | Some _ => true
  | None => false
  end.

(** [os.makedirs(name, exist_ok=True)]: the empty name is rejected, and
    so is the name of an existing file. *)
Definition makedirs (name : string) fs : result unit :=
  if String.eqb name "" then Raise FileNotFoundError
  else if path_exists name fs then Raise FileExistsError
  else Ok tt.

(** *** class LockFile *)

Definition lock_filename (filename : string) : string :=
  fst (splitext filename) +:+ ".lock".

(** [__enter__].  The sentinel is created by [open(lock, 'w')], which
    needs the directory of [lock]: directories are not part of the file
    system modelled here, and the directory is taken to exist, as it does
    after [os.makedirs] and wherever a file lies in it. *)
Definition LockFile_enter (lock : string) fs : gmap string fcontent * result unit :=
  if path_exists lock fs then (fs, Raise FileLockedError)
  else (<[lock := Sentinel]> fs, Ok tt).

Definition LockFile_exit (lock : string) fs : gmap string fcontent :=
  if path_exists lock fs then delete lock fs else fs.

(** [with LockFile(filename): body].  [__exit__] runs on every exit of
    the body and lets its exception through; it does not run when
    [__enter__] raises. *)
Definition with_LockFile {A : Type} (filename : string)
    (body : gmap string fcontent -> gmap string fcontent * result A) fs
  : gmap string fcontent * result A :=
  let lock := lock_filename filename in
  match LockFile_enter lock fs with
  | (fs1, Raise e) => (fs1, Raise e)
  | (fs1, Ok _) =>
      let '(fs2, r) := body fs1 in (LockFile_exit lock fs2, r)
  end.

(** [with h5py.File(filename, 'a') as file: body]: an existing container
    is opened, a missing one is created, and an empty file, as a sentinel
    is, is made a container.  What the body wrote is in the file also
    when it raises. *)
Definition with_File_a {A : Type} (filename : string)
    (body : list (string * node) -> list (string * node) * result A) fs
  : gmap string fcontent * result A :=
  match fs !! filename with
  | Some (H5File root) =>
      let '(root', r) := body root in (<[filename := H5File root']> fs, r)
  | Some Sentinel | None =>
      let '(root', r) := body [] in (<[filename := H5File root']> fs, r)
  end.

(** [with h5py.File(filename, 'r') as file: body]. *)
Definition with_File_r {A : Type} (filename : string)
    (body : list (string * node) -> result A) fs : result A :=
  match fs !! filename with
  | Some (H5File root) => body root
  | Some Sentinel => Raise OSError
  | None => Raise FileNotFoundError
  end.
End FileSystem.

(** *** Operations of a group *)

(** [group.pop(key)]. *)
Definition h5_pop (key : string) (group : list (string * node))
  : result (list (string * node)) :=
  if dict_mem key group then Ok (dict_del key group) else Raise KeyError.

(** A new link, placed in name order; the name must be free. *)
Definition h5_link (key : string) (n : node) (group : list (string * node))
  : result (list (string * node)) :=
  if dict_mem key group then Raise ValueError else Ok (insert_sorted (key, n) group).

(** ** The module [h5py_utils] *)

Inductive key_arg : Type :=
| KeyStr (s : string)
| KeySet (l : list string).

(** The keys that a [key] argument names, in the words of the
    specification: a single string names that key, a set of strings
    names its members, and without the argument every key is named. *)
Definition selected (key : option key_arg) (k : string) : Prop :=
  match key with
  | None => True
  | Some (KeyStr s) => k = s
  | Some (KeySet l) => k ∈ l
  end.

(** What the reader returns, as objects.  Every [dict] the reader makes
    is an object of its own; to tell the objects apart they are numbered
    in the order in which they are made. *)
Inductive object : Type :=
| ODict (number : nat) (items : list (string * object))
| OLeaf (v : pyval).

(** The value of an object: what it holds, the numbers forgotten. *)
Fixpoint value_of (o : object) : pyval :=
  match o with
  | ODict _ items => VDict (map (fun kv => (fst kv, value_of (snd kv))) items)
  | OLeaf v => v
  end.

(** The numbers of the dicts of an object, its own first. *)
Fixpoint dict_numbers (o : object) : list nat :=
  match o with
  | ODict i items => i :: flat_map (fun kv => dict_numbers (snd kv)) items
  | OLeaf _ => []
  end.

Section Model.
(** [np.array(l)] for a Python sequence [l]: the shape and the items of
    the array, or the exception numpy raises. *)
Variable np_array : list pyval -> result (list nat * list pyval).

(** [create_dataset(key, data=data)] (with [compression="gzip"] when the
    flag is set): the value that reading the new dataset with [[()]]
    returns, or the exception h5py raises for this [data].  What h5py
    leaves under the key when it raises (nothing, or a dataset it created
    and could not fill) is not modelled: [create_dataset] below leaves the
    group as it was, and no property is stated of the key of a refused
    value. *)
Variable h5_convert : pyval -> bool -> result pyval.

(** *** transform_to_possible_formats *)

Fixpoint transform_to_possible_formats (data : pyval) : result pyval :=
  if should_not_be_converted data then Ok data
  else
    match via_asarray (via_asdict data) with
    | VDict d => VDict <$> update_values transform_to_possible_formats d
    | VTuple l | VSet l | VList l =>
        a ← np_array l; Ok (VArray (fst a) (snd a))
    | data' => Ok data'
    end.

(** *** transform_on_open *)

Definition transform_on_open (value : pyval) : result pyval :=
  match value with
  | VBytes b => VStr <$> Text.decode b
  | _ => Ok value
  end.

(** *** save_sub_dict *)

Definition create_group (key : string) (group : list (string * node))
  : result (list (string * node)) :=
  h5_link key (Group []) group.

Definition create_dataset (key : string) (data : pyval) (gzip : bool)
    (group : list (string * node)) : list (string * node) * result unit :=
  match h5_convert data gzip with
  | Raise e => (group, Raise e)
  | Ok v =>
      match h5_link key (Dataset v gzip) group with
      | Raise e => (group, Raise e)
      | Ok group' => (group', Ok tt)
      end
  end.

Fixpoint save_sub_dict (group : list (string * node)) (data : pyval) (key : string)
  : list (string * node) * result unit :=
  match via_asarray (via_asdict data) with
  | VDict d =>
      match create_group key group with
      | Raise e => (group, Raise e)
      | Ok group' =>
          let '(g, r) := for_items save_sub_dict d [] in
          (dict_set key (Group g) group', r)
      end
  | VNone => (group, Ok tt)
  | (VArray _ _ | VList _) as data' => create_dataset key data' true group
  | data' => create_dataset key data' false group
  end.

(** *** save_dict *)

Definition save_dict (filename : string) (data : list (string * pyval))
    (fs : gmap string fcontent) : gmap string fcontent * result unit :=
  match makedirs (dirname filename) fs with
  | Raise e => (fs, Raise e)
  | Ok _ =>
      with_LockFile filename
        (with_File_a filename
           (for_items
              (fun file value key =>
                 let file' := if dict_mem key file then dict_del key file else file in
                 match value with
                 | VNone => (file', Ok tt)
                 | _ => save_sub_dict file' value key
                 end)
              data))
        fs
  end.

(** *** del_dict *)

Definition del_dict (filename key : string) (fs : gmap string fcontent)
  : gmap string fcontent * result unit :=
  with_LockFile filename
    (with_File_a filename
       (fun file =>
          match h5_pop key file with
          | Ok file' => (file', Ok tt)
          | Raise e => (file, Raise e)
          end))
    fs.

(** *** keys_h5

    The set [set(file.keys())], given by the list of its members; their
    order means nothing. *)
Definition keys_h5 (filename : string) (fs : gmap string fcontent)
  : result (list string) :=
  with_File_r filename (fun file => Ok (dict_keys file)) fs.

(** *** open_h5_group and open_h5 *)

(** [group_key in key], after [key] was made a set. *)
Definition key_selects (key : option key_arg) (group_key : string) : bool :=
  match key with
  | None => true
  | Some (KeyStr s) => String.eqb group_key s
  | Some (KeySet l) => existsb (String.eqb group_key) l
  end.

(** The value read for one child: a sub-group is opened without a
    filter. *)
Fixpoint open_h5_value (value : node) : result pyval :=
  match value with
  | Group links =>
      VDict <$> fill_items (key_selects None) open_h5_value links []
  | Dataset v _ => transform_on_open v
  end.

Definition open_h5_group (group : list (string * node)) (key : option key_arg)
  : result (list (string * pyval)) :=
  fill_items (key_selects key) open_h5_value group [].

Definition open_h5 (fullpath : string) (key : option key_arg)
    (fs : gmap string fcontent) : result (list (string * pyval)) :=
  with_File_r fullpath (fun file => open_h5_group file key) fs.

(** The same functions with the objects they make.  A call of
    [open_h5_group] makes one dict ([data = {}]) and fills it; [next] is
    the number of the objects that exist when the call begins, so that
    the dict made gets the number [next], and the number reached is
    returned with the result. *)
Fixpoint open_h5_object (value : node) (next : nat) : nat * result object :=
  match value with
  | Group links =>
      let '(next', data) :=
        fill_objects (key_selects None) open_h5_object links [] (S next) in
      (next', ODict next <$> data)
  | Dataset v _ => (next, OLeaf <$> transform_on_open v)
  end.

Definition open_h5_group_object (group : list (string * node)) (key : option key_arg)
    (next : nat) : nat * result object :=
  let '(next', data) :=
    fill_objects (key_selects key) open_h5_object group [] (S next) in
  (next', ODict next <$> data).

Definition open_h5_as_object (fullpath : string) (key : option key_arg)
    (fs : gmap string fcontent) (next : nat) : nat * result object :=
  match fs !! fullpath with
  | Some (H5File root) => open_h5_group_object root key next
  | Some Sentinel => (next, Raise OSError)
  | None => (next, Raise FileNotFoundError)
  end.

(** *** get_dict_structure *)

(** [np.shape(v)] for an array or a list. *)
Definition np_shape (v : pyval) : result (list nat) :=
  match v with
  | VArray sh _ => Ok sh
  | VList l => fst <$> np_array l
  | _ => Ok []
  end.

Definition annotated (str_value : string) (v : pyval) : summary :=
  SStr (str_value +:+ " (type : " +:+ type_name v +:+ ")").

(** The description of one value [v], the body of the loop. *)
Fixpoint describe (v : pyval) (level : Z) : result summary :=
  match v with
  | VDict d =>
      if level =? 0 then Ok (SStr "variable of type dict")
      else
        internal_structure ←
          (match d with
           | [] => Ok (SStr "empty dict")
           | _ => SDict <$> fill_items (fun _ => true)
                              (fun x => describe x (level - 1)) d []
           end);
        Ok (if 5 <? summary_len internal_structure
            then SStr "variable of type dict"
            else internal_structure)
  | VArray _ _ | VList _ =>
      sh ← np_shape v;
      Ok (SStr ("shape: " +:+ Fmt.shape_str sh +:+ " (type: " +:+ type_name v +:+ ")"))
  | VBool b => s ← Fmt.int_0f (if b then 1 else 0); Ok (annotated s v)
  | VInt z | VNpInt z => s ← Fmt.int_0f z; Ok (annotated s v)
  | VFloat f | VNpFloat f =>
      let str_value :=
        if PrimFloat.leb 0.1 f && PrimFloat.leb f 100
        then Fmt.float_3f f else Fmt.float_3e f in
      Ok (annotated str_value v)
  | _ => Ok (SStr ("variable of type " +:+ type_name v))
  end.

Definition get_dict_structure (data : list (string * pyval)) (level : Z)
  : result (list (string * summary)) :=
  fill_items (fun _ => true) (fun v => describe v level) data [].

Definition default_level : Z := 3.

(** *** output_dict_structure *)

Definition annotate (dict_str : string) (item : string * string) : string :=
  let '(key, value) := item in
  Text.replace (Json.quote +:+ key +:+ Json.quote +:+ ":")
               (Json.quote +:+ key +:+ Json.quote +:+ value +:+ ":") dict_str.

Definition output_dict_structure (data : list (string * pyval))
    (additional_info : option (list (string * string))) : result string :=
  structure ← get_dict_structure data default_level;
  let dict_str := dict_to_json_format_str structure in
  Ok (match additional_info with
      | Some info => fold_left annotate info dict_str
      | None => dict_str
      end).
End Model.

(** ** A reference instance of the library parameters

    Enough of numpy and h5py to run the model: flat sequences of integers
    or of floats become one-dimensional arrays; integers (within the range
    of [int64]) and floats are stored as numpy scalars, text and bytes as
    variable-length strings, which h5py returns as [bytes].  What the
    instance does not cover it rejects. *)

Module Ref.

Definition as_int (v : pyval) : option pyval :=
  match v with
  | VInt z | VNpInt z => Some (VNpInt z)
  | _ => None
  end.

Definition as_float (v : pyval) : option pyval :=
  match v with
  | VFloat f | VNpFloat f => Some (VNpFloat f)
  | _ => None
  end.

Fixpoint all_some {A : Type} (l : list (option A)) : option (list A) :=
  match l with
  | [] => Some []
  | Some a :: l' => option_map (cons a) (all_some l')
  | None :: _ => None
  end.

Definition np_array (l : list pyval) : result (list nat * list pyval) :=
  match all_some (map as_int l) with
  | Some items => Ok ([length l], items)
  | None =>
      match all_some (map as_float l) with
      | Some items => Ok ([length l], items)
      | None => Raise ValueError
      end
  end.

Definition h5_convert (data : pyval) (gzip : bool) : result pyval :=
  match data with
  | VInt z | VNpInt z =>
      if gzip || (z <? - 2 ^ 63) || (2 ^ 63 <=? z) then Raise TypeError
      else Ok (VNpInt z)
  | VFloat f | VNpFloat f => if gzip then Raise TypeError else Ok (VNpFloat f)
  | VStr s | VBytes s => if gzip then Raise TypeError else Ok (VBytes s)
  | VList l | VTuple l =>
      match np_array l with
      | Ok a => Ok (VArray (fst a) (snd a))
      | Raise _ => Raise TypeError
      end
  | VArray sh items => Ok (VArray sh items)
  | _ => Raise TypeError
  end.

End Ref.

(** ** Well-formed and describable values *)

(** Every mapping reachable through mappings and capabilities has
    pairwise distinct keys, as a Python [dict] has. *)
Fixpoint wf_val (v : pyval) : Prop :=
  match v with
  | VDict d =>
      NoDup (dict_keys d) /\ fold_right (fun kv P => wf_val (snd kv) /\ P) True d
  | VObj _ _ a b =>
      match a with Some x => wf_val x | None => True end
      /\ match b with Some x => wf_val x | None => True end
  | _ => True
  end.

Fixpoint size (v : pyval) : nat :=
  match v with
  | VDict d => S (fold_right (fun kv n => (size (snd kv) + n)%nat) O d)
  | VObj _ _ a b =>
      S (match a with Some x => size x | None => O end
         + match b with Some x => size x | None => O end)
  | _ => 1%nat
  end.

Section Describable.
Variable np_array : list pyval -> result (list nat * list pyval).

(** No value met by the summarizer makes a formatting step raise:
    integers convert to a float, lists have a shape. *)
Fixpoint describable (v : pyval) : bool :=
  match v with
  | VDict d => forallb (fun kv => describable (snd kv)) d
  | VList l => match np_array l with Ok _ => true | Raise _ => false end
  | VInt z | VNpInt z =>
      match Fmt.int_to_float z with Ok _ => true | Raise _ => false end
  | _ => true
  end.
End Describable.

(** ** Descriptions and renderings named by the properties *)

Definition collapsed : summary := SStr "variable of type dict".

(** The float rule in the words of the specification: three decimals when
    the magnitude lies in [0.1, 100], scientific notation otherwise. *)
Definition float_rule_by_magnitude (v : float) : string :=
  if PrimFloat.leb 0.1 (PrimFloat.abs v) && PrimFloat.leb (PrimFloat.abs v) 100
  then Fmt.float_3f v else Fmt.float_3e v.

(** The float rule of the code: the test is on the value itself. *)
Definition float_rule (v : float) : string :=
  if PrimFloat.leb 0.1 v && PrimFloat.leb v 100 then Fmt.float_3f v else Fmt.float_3e v.

(** [spliced old new s t]: [t] is [s] read from the left, every occurrence
    of [old] met being replaced by [new] and the reading resumed after it,
    every other character being kept. *)
Inductive spliced (old new : string) : string -> string -> Prop :=
| spliced_end : spliced old new "" ""
| spliced_here rest t :
    spliced old new rest t -> spliced old new (old +:+ rest) (new +:+ t)
| spliced_keep a s t :
    Text.startswith old (String a s) = false ->
    spliced old new s t -> spliced old new (String a s) (String a t).

(** The annotation of one key: the annotation text goes between the
    closing quote of the key and the colon that follows it. *)
Definition key_annotated (key value : string) : string -> string -> Prop :=
  spliced (Json.quote +:+ key +:+ Json.quote +:+ ":")
          (Json.quote +:+ key +:+ Json.quote +:+ value +:+ ":").

(** The annotations of a mapping, applied one after the other. *)
Inductive all_annotated : list (string * string) -> string -> string -> Prop :=
| all_annotated_nil s : all_annotated [] s s
| all_annotated_cons key value info s mid t :
    key_annotated key value s mid -> all_annotated info mid t ->
    all_annotated ((key, value) :: info) s t.

(** The annotation in the words of the specification: the text goes
    after the colon of the key. *)
Definition annotate_after_colon (dict_str : string) (item : string * string) : string :=
  let '(key, value) := item in
  Text.replace (Json.quote +:+ key +:+ Json.quote +:+ ":")
               (Json.quote +:+ key +:+ Json.quote +:+ ":" +:+ value) dict_str.

(** The rendering in the words of the specification. *)
Definition output_dict_structure_after_colon
    (np_array : list pyval -> result (list nat * list pyval))
    (data : list (string * pyval)) (info : list (string * string)) : result string :=
  structure ← get_dict_structure np_array data default_level;
  Ok (fold_left annotate_after_colon info (dict_to_json_format_str structure)).

(** ** Nodes, stored values and round trips *)

(** Every group of a container has pairwise distinct link names. *)
Fixpoint wf_node (n : node) : Prop :=
  match n with
  | Group links =>
      NoDup (dict_keys links) /\ fold_right (fun kv P => wf_node (snd kv) /\ P) True links
  | Dataset _ _ => True
  end.

Fixpoint node_size (n : node) : nat :=
  match n with
  | Group links => S (fold_right (fun kv m => (node_size (snd kv) + m)%nat) O links)
  | Dataset _ _ => 1%nat
  end.

(** Every byte-string leaf holds valid UTF-8. *)
Fixpoint readable (n : node) : bool :=
  match n with
  | Group links => forallb (fun kv => readable (snd kv)) links
  | Dataset (VBytes b) _ => Text.utf8_valid b
  | Dataset _ _ => true
  end.

(** The value of a node: a group is the mapping of the values of all its
    children, a byte-string leaf is its text, any other leaf is the value
    it holds. *)
Fixpoint decoded (n : node) : pyval :=
  match n with
  | Group links => VDict (map (fun kv => (fst kv, decoded (snd kv))) links)
  | Dataset (VBytes b) _ => VStr b
  | Dataset v _ => v
  end.

(** A link is added for a value that was stored. *)
Definition add_link (group : list (string * node)) (kn : string * option node)
  : list (string * node) :=
  match snd kn with
  | Some n => insert_sorted (fst kn, n) group
  | None => group
  end.

(** Equality of mappings as Python has it: the same keys with equal
    values, whatever the order of insertion. *)
Inductive py_eq : pyval -> pyval -> Prop :=
| py_eq_refl v : py_eq v v
| py_eq_dict d1 d2 :
    (forall k, option_Forall2 py_eq (dict_get k d1) (dict_get k d2)) ->
    py_eq (VDict d1) (VDict d2).

Section Stored.
Variable h5_convert : pyval -> bool -> result pyval.

(** The node the writer creates for a value ([None] when it creates
    nothing): the capabilities [_asdict] and [asarray] are resolved, a
    mapping becomes a group holding the nodes of its values, [None] is
    skipped, a list or an array becomes a compressed leaf and any other
    value a plain leaf. *)
Fixpoint stored (data : pyval) : result (option node) :=
  match via_asarray (via_asdict data) with
  | VDict d =>
      children ← update_values stored d;
      Ok (Some (Group (fold_left add_link children [])))
  | VNone => Ok None
  | (VArray _ _ | VList _) as data' =>
      v ← h5_convert data' true; Ok (Some (Dataset v true))
  | data' => v ← h5_convert data' false; Ok (Some (Dataset v false))
  end.

(** The writer in the words of the specification: the value is
    normalized first, and a value that declares itself opaque is kept as
    it is and stored as a leaf. *)
Definition stored_normalized (data : pyval) : result (option node) :=
  if should_not_be_converted data
  then v ← h5_convert data false; Ok (Some (Dataset v false))
  else stored data.

(** A nested mapping up to the coercions of a round trip: a list, a tuple
    or an array reads back as the array h5py made of it, a scalar as the
    numpy scalar or the text it was stored as, a byte string as its text.
    [None], sets and instances of other classes are not supported
    shapes. *)
Fixpoint coerced (data : pyval) : result pyval :=
  match data with
  | VDict d => VDict <$> update_values coerced d
  | VNone | VSet _ | VObj _ _ _ _ => Raise TypeError
  | VArray _ _ | VList _ => v ← h5_convert data true; transform_on_open v
  | _ => v ← h5_convert data false; transform_on_open v
  end.
End Stored.

(** The root group that [h5py.File(filename, 'a')] gives access to. *)
Definition container (filename : string) (fs : gmap string fcontent)
  : option (list (string * node)) :=
  match fs !! filename with
  | Some (H5File root) => Some root
  | Some Sentinel | None => Some []
  end.

(** The body of the loop of [save_dict]. *)
Abbreviation write_item h5_convert :=
  (fun (file : list (string * node)) (value : pyval) (key : string) =>
     let file' := if dict_mem key file then dict_del key file else file in
     match value with
     | VNone => (file', Ok tt)
     | _ => save_sub_dict h5_convert file' value key
     end).

(** What a value that round-trips is stored as, and what reading it gives. *)
Definition reads_back (h5_convert : pyval -> bool -> result pyval) (v : pyval) : Prop :=
  forall w, wf_val v -> coerced h5_convert v = Ok w ->
    exists n, stored h5_convert v = Ok (Some n) /\ wf_node n
      /\ exists r, open_h5_value n = Ok r /\ py_eq r w.

(** ** Sample values *)

(** A nested mapping of supported shapes and what it reads back as. *)
Definition sample_data : list (string * pyval) :=
  [("x", VList [VInt 1; VInt 2; VInt 3]);
   ("s", VBytes "abc");
   ("sub", VDict [("n", VInt 7); ("f", VFloat 0.5)])].

Definition sample_back : list (string * pyval) :=
  [("x", VArray [3%nat] [VNpInt 1; VNpInt 2; VNpInt 3]);
   ("s", VStr "abc");
   ("sub", VDict [("n", VNpInt 7); ("f", VNpFloat 0.5)])].

Definition sample_path : string := "tmp/data.h5".

(** The container that writing [sample_data] creates. *)
Definition sample_root : list (string * node) :=
  [("s", Dataset (VBytes "abc") false);
   ("sub", Group [("f", Dataset (VNpFloat 0.5) false); ("n", Dataset (VNpInt 7) false)]);
   ("x", Dataset (VArray [3%nat] [VNpInt 1; VNpInt 2; VNpInt 3]) true)].

Definition sample_fs : gmap string fcontent := {[ sample_path := H5File sample_root ]}.

(** An instance of a class that declares itself opaque and can be
    decomposed to a mapping. *)
Definition opaque_point : pyval :=
  VObj "Point" (Some (VBool true)) (Some (VDict [("x", VInt 1)])) None.

(** An instance of a class without capabilities, which h5py rejects. *)
Definition plain_object : pyval := VObj "Thing" None None None.

Definition six_keys : list (string * pyval) :=
  [("a", VInt 1); ("b", VInt 2); ("c", VInt 3); ("d", VInt 4); ("e", VInt 5); ("f", VInt 6)].

Definition summary_data : list (string * pyval) :=
  [("k1", VDict six_keys); ("k2", VDict []); ("k3", VFloat 1.2345);
   ("k4", VBool true); ("k5", VDict [("u", VInt 7)]); ("k6", VFloat (-5))].

(** ** Definitions for the further properties *)

(** Directories are not files of the file system modelled here.  A
    directory is known to exist when it is the working directory (the
    empty name) or when a file lies in it. *)
Definition directory_known (d : string) (fs : gmap string fcontent) : Prop :=
  d = "" \/ exists f, is_Some (fs !! f) /\ dirname f = d.

(** A file system where the directory of [sample_path] holds another
    container and [sample_path] does not exist. *)
Definition sibling_fs : gmap string fcontent := {[ "tmp/other.h5" := H5File [] ]}.

(** One turn of the loop of [save_dict] on the root group: the node of
    the key is removed, and the node stored for the value is linked. *)
Definition replace_link (g : list (string * node)) (kn : string * option node)
  : list (string * node) :=
  add_link (dict_del (fst kn) g) kn.

(** No leaf reachable through mappings is a [bytes] object. *)
Fixpoint no_bytes (v : pyval) : Prop :=
  match v with
  | VBytes _ => False
  | VDict d => fold_right (fun kv P => no_bytes (snd kv) /\ P) True d
  | _ => True
  end.

(** No dataset holds a mapping: what h5py returns for a dataset is an
    array, a scalar or a string. *)
Fixpoint leaves_hold_no_mapping (n : node) : bool :=
  match n with
  | Group links => forallb (fun kv => leaves_hold_no_mapping (snd kv)) links
  | Dataset (VDict _) _ => false
  | Dataset _ _ => true
  end.

(** A normalized value: no list, tuple or set is left, at the top or at
    any key of a mapping. *)
Fixpoint normal (v : pyval) : Prop :=
  match v with
  | VList _ | VTuple _ | VSet _ => False
  | VDict d => fold_right (fun kv P => normal (snd kv) /\ P) True d
  | _ => True
  end.

(** Every instance of another class reachable through mappings is
    opaque or has neither [_asdict] nor [asarray]. *)
Fixpoint settled (v : pyval) : bool :=
  match v with
  | VDict d => forallb (fun kv => settled (snd kv)) d
  | VObj _ _ None None => true
  | VObj _ _ _ _ => should_not_be_converted v
  | _ => true
  end.

(** A container whose leaf "bad" holds bytes that are not UTF-8. *)
Definition broken_root : list (string * node) :=
  [("bad", Dataset (VBytes (String (Text.chr 255) "")) false);
   ("good", Dataset (VNpInt 1) false)].

Definition broken_fs : gmap string fcontent := {[ sample_path := H5File broken_root ]}.

(** Nesting depth of a description: 0 for a string. *)
Fixpoint summary_depth (s : summary) : Z :=
  match s with
  | SStr _ => 0
  | SDict d => 1 + fold_right (fun kv m => Z.max (summary_depth (snd kv)) m) 0 d
  end.

(** Every mapping inside a description has between one and five
    entries. *)
Fixpoint compact (s : summary) : Prop :=
  match s with
  | SStr _ => True
  | SDict d =>
      (0 < length d <= 5)%nat /\ fold_right (fun kv P => compact (snd kv) /\ P) True d
  end.

(** [old] occurs in [s]. *)
Definition occurs (old s : string) : Prop :=
  exists pre post, s = pre +:+ old +:+ post.

(** [occurs], as a test. *)
Fixpoint occursb (old s : string) : bool :=
  Text.startswith old s
  || match s with
     | EmptyString => false
     | String _ s' => occursb old s'
     end.

(** Names in increasing order. *)
Fixpoint name_sorted (ks : list string) : Prop :=
  match ks with
  | [] => True
  | k :: ks' => Forall (fun k' => String.leb k k' = true) ks' /\ name_sorted ks'
  end.

(** Every group of a container lists its links in name order. *)
Fixpoint ordered (n : node) : Prop :=
  match n with
  | Group links =>
      name_sorted (dict_keys links)
      /\ fold_right (fun kv P => ordered (snd kv) /\ P) True links
  | Dataset _ _ => True
  end.

(** Every mapping inside a description has pairwise distinct keys. *)
Fixpoint wf_summary (s : summary) : Prop :=
  match s with
  | SStr _ => True
  | SDict d =>
      NoDup (dict_keys d) /\ fold_right (fun kv P => wf_summary (snd kv) /\ P) True d
  end.

Fixpoint summary_size (s : summary) : nat :=
  match s with
  | SStr _ => 1%nat
  | SDict d => S (fold_right (fun kv m => (summary_size (snd kv) + m)%nat) O d)
  end.

(** Equality of descriptions as Python compares mappings: the same keys
    with equal values, in any order. *)
Inductive summary_eq : summary -> summary -> Prop :=
| summary_eq_str s : summary_eq (SStr s) (SStr s)
| summary_eq_dict d1 d2 :
    (forall k, option_Forall2 summary_eq (dict_get k d1) (dict_get k d2)) ->
    summary_eq (SDict d1) (SDict d2).

(** A container node in good order: distinct link names, listed in name
    order, in every group. *)
Definition tidy (n : node) : Prop := wf_node n /\ ordered n.

(** ** The viewer: [hdf5_viewer.py] *)

(** [s.lstrip(c)] for a single character [c]. *)
Fixpoint lstrip (c : ascii) (s : string) : string :=
  match s with
  | EmptyString => ""
  | String a s' => if Ascii.eqb a c then lstrip c s' else s
  end.

(** [s.split(c)] for a single character [c]. *)
Fixpoint split_on (c : ascii) (s : string) : list string :=
  match s with
  | EmptyString => [""]
  | String a s' =>
      if Ascii.eqb a c then "" :: split_on c s'
      else match split_on c s' with
           | h :: t => String a h :: t
           | [] => [String a ""]
           end
  end.

(** [c in s]. *)
Fixpoint contains_char (c : ascii) (s : string) : bool :=
  match s with
  | EmptyString => false
  | String a s' => Ascii.eqb a c || contains_char c s'
  end.

(** A list comprehension whose element expression may raise. *)
Fixpoint map_result {A B : Type} (f : A -> result B) (l : list A) : result (list B) :=
  match l with
  | [] => Ok []
  | a :: l' => b ← f a; r ← map_result f l'; Ok (b :: r)
  end.

(** *** depth_first_search

    [obj] is a group (it has [keys]) or a dataset.  The list [all_items]
    is created when the argument is [None]; the items found are appended
    to it and it is returned. *)
Fixpoint depth_first_search (key : string) (obj : node)
    (all_items : option (list (string * node))) : list (string * node) :=
  let all_items := match all_items with Some l => l | None => [] end in
  match obj with
  | Group links =>
      fold_left
        (fun items kv =>
           depth_first_search (key +:+ "/" +:+ fst kv) (snd kv) (Some items))
        links all_items
  | Dataset _ _ => all_items ++ [(lstrip "/" key, obj)]
  end.

Section Viewer.
(** [os.path.split] of the platform the viewer runs on. *)
Variable os_path_split : string -> string * string.

(** *** EditorWindow.filename *)
Definition EditorWindow_filename (file_path : option string) : result string :=
  match file_path with
  | None => Raise ValueError
  | Some p => Ok (snd (os_path_split p))
  end.

Definition analysis_cell_prefix : string := "aqm.analysis_cell(".

(** *** EditorWindow.replace_analysis_cell_statement *)
Definition replace_analysis_cell_statement (file_path : option string) (value : string)
  : result string :=
  lines ← map_result
            (fun line =>
               if negb (Text.startswith analysis_cell_prefix line) then Ok line
               else
                 filename ← EditorWindow_filename file_path;
                 Ok (analysis_cell_prefix +:+ Json.quote +:+ filename +:+ Json.quote +:+ ")"))
            (split_on (Text.chr 10) value);
  Ok (Json.join Json.newline lines).
End Viewer.

(** The datasets below a node, each with the names of the links that
    lead to it. *)
Fixpoint leaves (n : node) : list (list string * node) :=
  match n with
  | Group links =>
      flat_map (fun kv => map (fun pl => (fst kv :: fst pl, snd pl)) (leaves (snd kv))) links
  | Dataset _ _ => [([], n)]
  end.

(** The names of a path, each preceded by a slash. *)
Definition slash_path (ks : list string) : string :=
  Json.concat (map (fun k => "/" +:+ k) ks).

(** A link name that is not empty and does not begin with a slash. *)
Definition plain_name (k : string) : bool :=
  match k with
  | EmptyString => false
  | String a _ => negb (Ascii.eqb a "/")
  end.

(** * Properties *)

(** ** Samples of the formatting and path functions *)

Example float_3f_samples :
  Fmt.float_3f 1.2345%float = "1.234" /\ Fmt.float_3f 100%float = "100.000"
  /\ Fmt.float_3f 0.1%float = "0.100" /\ Fmt.float_3f 99.9996%float = "100.000".
Proof. vm_compute. repeat split; reflexivity. Qed.

Example float_3e_samples :
  Fmt.float_3e 0.05%float = "5.000e-02" /\ Fmt.float_3e (-5)%float = "-5.000e+00"
  /\ Fmt.float_3e 1e-320%float = "1.000e-320" /\ Fmt.float_3e 9.9996%float = "1.000e+01"
  /\ Fmt.float_3e 1e100%float = "1.000e+100" /\ Fmt.float_3e (-0)%float = "-0.000e+00".
Proof. vm_compute. repeat split; reflexivity. Qed.

Example int_0f_samples :
  Fmt.int_0f 7 = Ok "7" /\ Fmt.int_0f (2 ^ 53 + 1) = Ok "9007199254740992"
  /\ Fmt.int_0f (-12) = Ok "-12" /\ Fmt.int_0f (10 ^ 400) = Raise OverflowError.
Proof. vm_compute. repeat split; reflexivity. Qed.

Example splitext_samples :
  splitext "a/b.c/d" = ("a/b.c/d", "") /\ splitext ".bashrc" = (".bashrc", "")
  /\ splitext "a/..b" = ("a/..b", "") /\ splitext "x.tar.gz" = ("x.tar", ".gz")
  /\ splitext "tmp/data.h5" = ("tmp/data", ".h5").
Proof. vm_compute. repeat split; reflexivity. Qed.

Example dirname_samples :
  dirname "tmp/data.h5" = "tmp" /\ dirname "data.h5" = "" /\ dirname "/data.h5" = "/"
  /\ dirname "a//b" = "a" /\ dirname "a/b/" = "a/b".
Proof. vm_compute. repeat split; reflexivity. Qed.

(** ** Dictionaries and loops *)

Section DictFacts.
Context {A : Type}.
Implicit Types (d : list (string * A)) (k : string).

Lemma eqb_refl_true k : String.eqb k k = true.
Proof. apply String.eqb_refl. Qed.

Lemma eqb_false_ne k k' : k <> k' -> String.eqb k k' = false.
Proof. intros H. apply String.eqb_neq. exact H. Qed.

Lemma dict_get_None k d : dict_get k d = None <-> k ∉ dict_keys d.
Proof.
  induction d as [|[k' v] d IH]; simpl.
  - split; [intros _; apply not_elem_of_nil | done].
  - destruct (String.eqb k k') eqn:E.
    + apply String.eqb_eq in E. subst. split; [done|].
      intros H. exfalso. apply H. left.
    + apply String.eqb_neq in E. rewrite IH. rewrite not_elem_of_cons. tauto.
Qed.

Lemma dict_get_Some_elem k v d : dict_get k d = Some v -> (k, v) ∈ d.
Proof.
  induction d as [|[k' v'] d IH]; simpl; [done|].
  destruct (String.eqb k k') eqn:E.
  - apply String.eqb_eq in E. intros [= ->]. subst. left.
  - intros H. right. auto.
Qed.

Lemma dict_get_elem k v d : NoDup (dict_keys d) -> (k, v) ∈ d -> dict_get k d = Some v.
Proof.
  induction d as [|[k' v'] d IH]; simpl; intros Hnd Hin.
  - by apply elem_of_nil in Hin.
  - apply NoDup_cons in Hnd as [Hk Hnd].
    apply elem_of_cons in Hin as [[= -> ->]|Hin].
    + by rewrite eqb_refl_true.
    + destruct (String.eqb k k') eqn:E; [|auto].
      apply String.eqb_eq in E. subst. exfalso. apply Hk.
      change k' with (fst (k', v)). apply list_elem_of_fmap_2. exact Hin.
Qed.

Lemma dict_mem_false k d : dict_mem k d = false <-> k ∉ dict_keys d.
Proof.
  unfold dict_mem. rewrite <- dict_get_None. destruct (dict_get k d); split; congruence.
Qed.

Lemma dict_set_fresh k v d : k ∉ dict_keys d -> dict_set k v d = d ++ [(k, v)].
Proof.
  induction d as [|[k' v'] d IH]; simpl; intros H; [done|].
  apply not_elem_of_cons in H as [Hne H].
  rewrite (eqb_false_ne _ _ Hne). by rewrite IH.
Qed.

Lemma dict_del_fresh k d : k ∉ dict_keys d -> dict_del k d = d.
Proof.
  induction d as [|[k' v'] d IH]; simpl; intros H; [done|].
  apply not_elem_of_cons in H as [Hne H].
  rewrite (eqb_false_ne _ _ Hne). by rewrite IH.
Qed.

Lemma dict_get_del k k' d :
  dict_get k' (dict_del k d) = if String.eqb k' k then None else dict_get k' d.
Proof.
  induction d as [|[k0 v0] d IH]; simpl.
  - by destruct (String.eqb k' k).
  - destruct (String.eqb k k0) eqn:E0.
    + apply String.eqb_eq in E0. subst k0. rewrite IH.
      destruct (String.eqb k' k); done.
    + simpl. rewrite IH. destruct (String.eqb k' k0) eqn:E1; [|done].
      apply String.eqb_eq in E1. subst k0.
      destruct (String.eqb k' k) eqn:E2; [|done].
      apply String.eqb_eq in E2. subst k'. by rewrite eqb_refl_true in E0.
Qed.

Lemma dict_keys_del k d : dict_keys (dict_del k d) = filter (fun x => x <> k) (dict_keys d).
Proof.
  induction d as [|[k0 v0] d IH]; simpl; [done|].
  destruct (String.eqb k k0) eqn:E0.
  - apply String.eqb_eq in E0. subst k0.
    rewrite filter_cons_False by (simpl; tauto). exact IH.
  - apply String.eqb_neq in E0.
    rewrite filter_cons_True by (simpl; congruence). simpl. by rewrite IH.
Qed.
End DictFacts.

Section LoopFacts.
Context {A B : Type}.
Implicit Types (body : A -> result B) (items : list (string * A)).

Lemma fill_items_filter keep body items data :
  fill_items keep body items data
  = fill_items (fun _ => true) body (List.filter (fun kv => keep (fst kv)) items) data.
Proof.
  revert data. induction items as [|[k v] items IH]; intros data; simpl; [done|].
  destruct (keep k); simpl; [|apply IH].
  destruct (body v); simpl; [apply IH|done].
Qed.

Lemma fill_items_fresh body items data :
  NoDup (dict_keys data ++ dict_keys items) ->
  fill_items (fun _ => true) body items data
  = (rest ← update_values body items; Ok (data ++ rest)).
Proof.
  revert data. induction items as [|[k v] items IH]; intros data Hnd; simpl.
  - by rewrite app_nil_r.
  - destruct (body v) as [x|e]; simpl; [|done].
    assert (Hk : k ∉ dict_keys data).
    { apply NoDup_app in Hnd as (_ & Hd & _). intros Hin. apply (Hd _ Hin). left. }
    rewrite (dict_set_fresh _ _ _ Hk). rewrite IH.
    + destruct (update_values body items); simpl; [|done].
      by rewrite <- app_assoc.
    + unfold dict_keys in *. rewrite map_app. simpl. rewrite <- app_assoc. exact Hnd.
Qed.

Lemma update_values_Forall2 body items s :
  update_values body items = Ok s <->
  Forall2 (fun kv kx => fst kv = fst kx /\ body (snd kv) = Ok (snd kx)) items s.
Proof.
  revert s. induction items as [|[k v] items IH]; intros s; simpl.
  - split.
    + intros [= <-]. constructor.
    + intros H. inversion H. done.
  - split.
    + destruct (body v) as [x|e] eqn:Ev; simpl; [|done].
      destruct (update_values body items) as [r|e] eqn:Er; simpl; [|done].
      intros [= <-]. constructor; [done|]. by apply IH.
    + intros H. inversion H as [|? [k' x] ? r [Hk Hb] Hr]; subst. simpl in *. subst k'.
      rewrite Hb. simpl. apply IH in Hr. rewrite Hr. done.
Qed.

Lemma update_values_keys body items s :
  update_values body items = Ok s -> dict_keys s = dict_keys items.
Proof.
  rewrite update_values_Forall2. induction 1 as [|[k v] [k' x] ? ? [Hk _] _ IH]; simpl; [done|].
  simpl in Hk. by rewrite Hk, IH.
Qed.

Lemma update_values_get body items s k :
  update_values body items = Ok s ->
  match dict_get k items with
  | Some v => exists x, body v = Ok x /\ dict_get k s = Some x
  | None => dict_get k s = None
  end.
Proof.
  rewrite update_values_Forall2. induction 1 as [|[k0 v] [k' x] ? ? [Hk Hb] _ IH]; simpl; [done|].
  simpl in Hk, Hb. subst k'. destruct (String.eqb k k0); [eauto|exact IH].
Qed.

Lemma update_values_total body items :
  Forall (fun kv => exists x, body (snd kv) = Ok x) items ->
  exists s, update_values body items = Ok s.
Proof.
  induction 1 as [|[k v] items [x Hx] _ [s IH]]; simpl; [eauto|].
  simpl in Hx. rewrite Hx, IH. simpl. eauto.
Qed.
End LoopFacts.

(** ** Induction on values *)

Lemma size_elem d kv : kv ∈ d -> (size (snd kv) < size (VDict d))%nat.
Proof.
  simpl. induction d as [|kv' d IH]; intros H.
  - by apply elem_of_nil in H.
  - apply elem_of_cons in H as [->|H]; simpl; [lia|]. specialize (IH H). lia.
Qed.

Lemma size_via v : (size (via_asarray (via_asdict v)) <= size v)%nat.
Proof.
  destruct v as [| | | | | | | | | | | | |n m [a|] b]; simpl; try lia.
  - destruct a as [| | | | | | | | | | | | |n' m' a' [b'|]]; simpl; lia.
  - destruct b; simpl; lia.
Qed.

(** Induction along the recursion of the writer and of the normalizer:
    through the capabilities of a value, then into the values of the
    mapping obtained. *)
Lemma pyval_resolve_ind (P : pyval -> Prop) :
  (forall v,
      (forall d, via_asarray (via_asdict v) = VDict d -> Forall (fun kv => P (snd kv)) d) ->
      P v) ->
  forall v, P v.
Proof.
  intros step v. remember (size v) as n eqn:En.
  revert v En. induction n as [n IH] using lt_wf_ind. intros v ->.
  apply step. intros d Hd. apply Forall_forall. intros kv Hin.
  eapply IH; [|reflexivity].
  pose proof (size_elem d kv Hin). pose proof (size_via v). rewrite Hd in *. lia.
Qed.

(** Induction along the recursion of the summarizer. *)
Lemma pyval_dict_ind (P : pyval -> Prop) :
  (forall v, (forall d, v = VDict d -> Forall (fun kv => P (snd kv)) d) -> P v) ->
  forall v, P v.
Proof.
  intros step v. remember (size v) as n eqn:En.
  revert v En. induction n as [n IH] using lt_wf_ind. intros v ->.
  apply step. intros d ->. apply Forall_forall. intros kv Hin.
  eapply IH; [|reflexivity]. by apply size_elem.
Qed.

(** ** The structure summarizer *)

Section Summarizer.
Variable np_array : list pyval -> result (list nat * list pyval).

Abbreviation describe := (describe np_array).
Abbreviation get_dict_structure := (get_dict_structure np_array).
Abbreviation describable := (describable np_array).

Lemma describe_dict d level :
  describe (VDict d) level =
  if level =? 0 then Ok collapsed
  else
    internal_structure ←
      (match d with
       | [] => Ok (SStr "empty dict")
       | _ => SDict <$> get_dict_structure d (level - 1)
       end);
    Ok (if 5 <? summary_len internal_structure then collapsed else internal_structure).
Proof. reflexivity. Qed.

Lemma get_dict_structure_values data level :
  dict_ok data ->
  get_dict_structure data level = update_values (fun v => describe v level) data.
Proof.
  intros Hok. unfold get_dict_structure. rewrite fill_items_fresh by exact Hok.
  destruct (update_values _ data); reflexivity.
Qed.

Lemma describable_elem d kv :
  describable (VDict d) = true -> kv ∈ d -> describable (snd kv) = true.
Proof.
  simpl. rewrite forallb_forall. intros H Hin. apply H. by apply list_elem_of_In.
Qed.

Lemma wf_val_elem d kv : wf_val (VDict d) -> kv ∈ d -> wf_val (snd kv).
Proof.
  intros [_ H]. induction d as [|kv' d IH]; intros Hin.
  - by apply elem_of_nil in Hin.
  - destruct H as [H1 H2]. apply elem_of_cons in Hin as [->|Hin]; auto.
Qed.

Lemma wf_val_keys d : wf_val (VDict d) -> dict_ok d.
Proof. by intros [H _]. Qed.

(** The summarizer returns on every well-formed describable value. *)
Lemma describe_total v :
  forall level, wf_val v -> describable v = true -> exists s, describe v level = Ok s.
Proof.
  induction v as [v IH] using pyval_dict_ind. intros level Hwf Hd.
  destruct v; try (simpl; eauto; fail).
  - destruct b; simpl; eauto.
  - simpl in *. unfold Fmt.int_0f. destruct (Fmt.int_to_float z); [simpl; eauto|done].
  - simpl in *. unfold Fmt.int_0f. destruct (Fmt.int_to_float z); [simpl; eauto|done].
  - simpl in *. destruct (np_array l); [simpl; eauto|done].
  - rewrite describe_dict. destruct (level =? 0); [eauto|].
    destruct d as [|kv d]; [simpl; eauto|].
    rewrite get_dict_structure_values by (by apply wf_val_keys).
    destruct (update_values_total (fun x => describe x (level - 1)) (kv :: d)) as [s Hs].
    + specialize (IH _ eq_refl). apply Forall_forall. intros kv' Hin.
      rewrite Forall_forall in IH. apply (IH kv' Hin).
      * by apply (wf_val_elem (kv :: d)).
      * by apply (describable_elem (kv :: d)).
    + rewrite Hs. simpl. eauto.
Qed.

Lemma get_dict_structure_total data level :
  wf_val (VDict data) -> describable (VDict data) = true ->
  exists s, get_dict_structure data level = Ok s.
Proof.
  intros Hwf Hd. rewrite get_dict_structure_values by (by apply wf_val_keys).
  apply update_values_total, Forall_forall. intros kv Hin.
  apply describe_total; [by apply (wf_val_elem data)|by apply (describable_elem data)].
Qed.

(** What the summary holds at a key is the description of the value at
    that key. *)
Lemma get_dict_structure_at data level s k v :
  dict_ok data -> get_dict_structure data level = Ok s ->
  dict_get k data = Some v ->
  exists x, describe v level = Ok x /\ dict_get k s = Some x.
Proof.
  intros Hok Hs Hk. rewrite get_dict_structure_values in Hs by done.
  pose proof (update_values_get _ _ _ k Hs) as H. by rewrite Hk in H.
Qed.

Lemma get_dict_structure_keys data level s :
  dict_ok data -> get_dict_structure data level = Ok s -> dict_keys s = dict_keys data.
Proof.
  intros Hok Hs. rewrite get_dict_structure_values in Hs by done.
  by apply update_values_keys in Hs.
Qed.

Lemma dict_keys_length {A : Type} (d : list (string * A)) : length (dict_keys d) = length d.
Proof. unfold dict_keys. apply length_map. Qed.

(** A nested mapping with more than five keys collapses. *)
Lemma describe_large sub level x :
  dict_ok sub -> (5 < length sub)%nat -> describe (VDict sub) level = Ok x -> x = collapsed.
Proof.
  intros Hok Hlen. rewrite describe_dict. destruct (level =? 0); [by intros [= <-]|].
  destruct sub as [|kv sub]; [simpl in Hlen; lia|].
  destruct (get_dict_structure (kv :: sub) (level - 1)) as [s|e] eqn:Es; simpl; [|done].
  apply get_dict_structure_keys in Es; [|done].
  assert (Hl : length s = length (kv :: sub)) by (by rewrite <- !dict_keys_length, Es).
  assert (H5 : (5 <? Z.of_nat (length s)) = true) by (apply Z.ltb_lt; lia).
  rewrite H5. by intros [= <-].
Qed.

(** C5: structure collapse.  The summary of a mapping has exactly the
    keys of the mapping, whatever their number (six included): the entry
    level never collapses.  At the default depth a value that is a
    mapping with more than five keys (six included) is described as
    "variable of type dict", and at depth 0 every mapping value is,
    whatever its size. *)
Theorem summarize_collapse (data : list (string * pyval)) :
  wf_val (VDict data) -> describable (VDict data) = true ->
  (exists s, get_dict_structure data default_level = Ok s
     /\ dict_keys s = dict_keys data
     /\ forall k sub, dict_get k data = Some (VDict sub) -> (5 < length sub)%nat ->
          dict_get k s = Some (SStr "variable of type dict"))
  /\ (exists s0, get_dict_structure data 0 = Ok s0
     /\ dict_keys s0 = dict_keys data
     /\ forall k sub, dict_get k data = Some (VDict sub) ->
          dict_get k s0 = Some (SStr "variable of type dict")).
Proof.
  intros Hwf Hd. pose proof (wf_val_keys _ Hwf) as Hok. split.
  - destruct (get_dict_structure_total data default_level Hwf Hd) as [s Hs].
    exists s. split; [done|]. split; [by eapply get_dict_structure_keys|].
    intros k sub Hk Hlen.
    destruct (get_dict_structure_at _ _ _ _ _ Hok Hs Hk) as (x & Hx & ->).
    f_equal. eapply describe_large; [|exact Hlen|exact Hx].
    apply wf_val_keys. apply (wf_val_elem data (k, VDict sub) Hwf).
    by apply dict_get_Some_elem.
  - destruct (get_dict_structure_total data 0 Hwf Hd) as [s Hs].
    exists s. split; [done|]. split; [by eapply get_dict_structure_keys|].
    intros k sub Hk.
    destruct (get_dict_structure_at _ _ _ _ _ Hok Hs Hk) as (x & Hx & ->).
    rewrite describe_dict in Hx. change (Ok collapsed = Ok x) in Hx. injection Hx as <-. reflexivity.
Qed.

(** C6, as the code has it: an empty mapping met at a depth above 0 is
    first given the description "empty dict", whose ten characters then
    exceed the collapse threshold, so the key is described as "variable
    of type dict" and never as "empty dict". *)
Theorem summarize_empty_dict (data : list (string * pyval)) (k : string) (level : Z) :
  wf_val (VDict data) -> describable (VDict data) = true ->
  dict_get k data = Some (VDict []) ->
  exists s, get_dict_structure data level = Ok s
    /\ dict_get k s = Some (SStr "variable of type dict")
    /\ dict_get k s <> Some (SStr "empty dict").
Proof.
  intros Hwf Hd Hk. pose proof (wf_val_keys _ Hwf) as Hok.
  destruct (get_dict_structure_total data level Hwf Hd) as [s Hs].
  exists s. split; [done|].
  destruct (get_dict_structure_at _ _ _ _ _ Hok Hs Hk) as (x & Hx & ->).
  rewrite describe_dict in Hx. destruct (level =? 0); simpl in Hx.
  - injection Hx as <-. split; [done|]. discriminate.
  - vm_compute in Hx. injection Hx as <-. split; [done|]. discriminate.
Qed.

(** C10: a Python boolean goes through the integer branch: it is
    formatted with zero decimals and annotated with the type name
    [bool], so [True] is described as "1 (type : bool)". *)
Theorem summarize_bool (data : list (string * pyval)) (k : string) (b : bool) (level : Z) :
  wf_val (VDict data) -> describable (VDict data) = true ->
  dict_get k data = Some (VBool b) ->
  exists s, get_dict_structure data level = Ok s
    /\ exists str_value, Fmt.int_0f (if b then 1 else 0) = Ok str_value
    /\ dict_get k s = Some (SStr (str_value +:+ " (type : bool)"))
    /\ (b = true -> dict_get k s = Some (SStr "1 (type : bool)"))
    /\ dict_get k s <> Some (SStr "variable of type bool").
Proof.
  intros Hwf Hd Hk. pose proof (wf_val_keys _ Hwf) as Hok.
  destruct (get_dict_structure_total data level Hwf Hd) as [s Hs].
  exists s. split; [done|].
  destruct (get_dict_structure_at _ _ _ _ _ Hok Hs Hk) as (x & Hx & ->).
  destruct b; vm_compute in Hx; injection Hx as <-.
  - exists "1". repeat split; try done.
  - exists "0". repeat split; try done.
Qed.
End Summarizer.

(** ** Float descriptions *)

Section FloatSummary.
Variable np_array : list pyval -> result (list nat * list pyval).

(** C7, amended: a float is formatted with three decimals when the value
    itself (not its magnitude) lies in [0.1, 100], and otherwise in
    scientific notation with three decimals in the mantissa; the type name
    is appended.  So 0.05 is described as "5.000e-02 (type : float)" and
    1.2345, whose binary value lies below 1.2345, as
    "1.234 (type : float)". *)
Theorem summarize_float (data : list (string * pyval)) (k : string) (v : pyval)
    (f : float) (level : Z) :
  wf_val (VDict data) -> describable np_array (VDict data) = true ->
  dict_get k data = Some v -> v = VFloat f \/ v = VNpFloat f ->
  (exists s, get_dict_structure np_array data level = Ok s
     /\ dict_get k s
        = Some (SStr (float_rule f +:+ " (type : " +:+ type_name v +:+ ")")))
  /\ describe np_array (VFloat 0.05) level = Ok (SStr "5.000e-02 (type : float)")
  /\ describe np_array (VFloat 1.2345) level = Ok (SStr "1.234 (type : float)").
Proof.
  intros Hwf Hd Hk Hv. pose proof (wf_val_keys _ Hwf) as Hok. split; [|split; reflexivity].
  destruct (get_dict_structure_total np_array data level Hwf Hd) as [s Hs].
  exists s. split; [done|].
  destruct (get_dict_structure_at _ _ _ _ _ _ Hok Hs Hk) as (x & Hx & ->).
  destruct Hv as [-> | ->]; simpl in Hx; injection Hx as <-; reflexivity.
Qed.
End FloatSummary.

(** ** Rendering *)

Lemma app_cons a p s : String a p +:+ s = String a (p +:+ s).
Proof. reflexivity. Qed.

Lemma startswith_app old s :
  Text.startswith old s = true -> exists rest, s = old +:+ rest.
Proof.
  revert s. induction old as [|a old IH]; intros s; simpl.
  - intros _. by exists s.
  - destruct s as [|b s]; [done|]. intros H. apply andb_prop in H as [Hab H].
    apply Ascii.eqb_eq in Hab. subst b. destruct (IH _ H) as [rest ->]. by exists rest.
Qed.

Lemma replace_go_skip old new p s :
  Text.replace_go old new (String.length p) (p +:+ s) = Text.replace_go old new 0 s.
Proof.
  induction p as [|a p IH]; [reflexivity|]. rewrite app_cons. simpl. exact IH.
Qed.

Lemma length_app_string p s :
  String.length (p +:+ s) = (String.length p + String.length s)%nat.
Proof. induction p as [|a p IH]; [reflexivity|]. rewrite app_cons. simpl. by rewrite IH. Qed.

Lemma replace_go_spliced old new s :
  old <> "" -> spliced old new s (Text.replace_go old new 0 s).
Proof.
  intros Hold. remember (String.length s) as n eqn:En. revert s En.
  induction n as [n IH] using lt_wf_ind. intros s ->.
  destruct s as [|a s]; [constructor|].
  cbn [Text.replace_go]. destruct (Text.startswith old (String a s)) eqn:Es.
  - destruct (startswith_app _ _ Es) as [rest Hrest].
    destruct old as [|b old]; [done|]. rewrite app_cons in Hrest.
    injection Hrest as -> ->.
    match goal with
    | |- context [Text.replace_go _ _ ?n _] =>
        replace n with (String.length old) by (cbn [String.length]; lia)
    end.
    rewrite replace_go_skip. rewrite <- app_cons. constructor.
    eapply IH; [|reflexivity]. cbn [String.length]. rewrite length_app_string. lia.
  - constructor; [done|]. eapply IH; [|reflexivity]. simpl. lia.
Qed.

Lemma replace_spliced old new s :
  old <> "" -> spliced old new s (Text.replace old new s).
Proof.
  intros Hold. destruct old; [done|]. by apply replace_go_spliced.
Qed.

Lemma fold_annotate_all info s : all_annotated info s (fold_left annotate info s).
Proof.
  revert s. induction info as [|[key value] info IH]; intros s; simpl.
  - constructor.
  - econstructor; [|apply IH]. apply replace_spliced. done.
Qed.

Section Render.
Variable np_array : list pyval -> result (list nat * list pyval).

(** C9, amended: the rendering is the key-sorted, indented JSON text of
    the summary in which, for each annotation in turn, the annotation text
    is inserted immediately before the colon that follows the quoted key
    (between the closing quote and the colon), at every place where the
    quoted key is followed by a colon; the rest of the text is kept. *)
Theorem render_annotations (data : list (string * pyval))
    (additional_info : option (list (string * string))) :
  wf_val (VDict data) -> describable np_array (VDict data) = true ->
  exists structure out,
    get_dict_structure np_array data default_level = Ok structure
    /\ output_dict_structure np_array data additional_info = Ok out
    /\ match additional_info with
       | Some info => all_annotated info (dict_to_json_format_str structure) out
       | None => out = dict_to_json_format_str structure
       end.
Proof.
  intros Hwf Hd.
  destruct (get_dict_structure_total np_array data default_level Hwf Hd) as [s Hs].
  unfold output_dict_structure. rewrite Hs. simpl.
  eexists _, _. split; [reflexivity|]. split; [reflexivity|].
  destruct additional_info as [info|]; [apply fold_annotate_all|reflexivity].
Qed.
End Render.

(** ** What the writer stores and what the reader returns *)

Example coerced_sample :
  coerced Ref.h5_convert
    (VDict [("x", VList [VInt 1; VInt 2; VInt 3]); ("t", VTuple [VInt 4]);
            ("s", VBytes "abc"); ("sub", VDict [("n", VInt 7)])])
  = Ok (VDict [("x", VArray [3%nat] [VNpInt 1; VNpInt 2; VNpInt 3]);
               ("t", VArray [1%nat] [VNpInt 4]);
               ("s", VStr "abc"); ("sub", VDict [("n", VNpInt 7)])]).
Proof. reflexivity. Qed.

(** ** Links kept in name order *)

Section SortedFacts.
Context {A : Type}.
Implicit Types (g : list (string * A)) (k : string).

Lemma insert_sorted_perm (x : string * A) g : insert_sorted x g ≡ₚ x :: g.
Proof.
  induction g as [|y g IH]; simpl; [done|].
  destruct (String.leb (fst x) (fst y)); [done|].
  rewrite IH. apply Permutation_swap.
Qed.

Lemma dict_keys_perm g g' : g ≡ₚ g' -> dict_keys g ≡ₚ dict_keys g'.
Proof. intros H. unfold dict_keys. by apply Permutation_map. Qed.

Lemma dict_keys_insert_sorted k (n : A) g :
  dict_keys (insert_sorted (k, n) g) ≡ₚ k :: dict_keys g.
Proof. apply (dict_keys_perm _ ((k, n) :: g)), insert_sorted_perm. Qed.

Lemma dict_get_insert_sorted k k' (n : A) g :
  k ∉ dict_keys g ->
  dict_get k' (insert_sorted (k, n) g) = if String.eqb k' k then Some n else dict_get k' g.
Proof.
  induction g as [|[k0 n0] g IH]; simpl; intros Hk; [done|].
  apply not_elem_of_cons in Hk as [Hne Hk].
  destruct (String.leb k k0); simpl; [done|].
  rewrite (IH Hk). destruct (String.eqb k' k0) eqn:E0; [|done].
  apply String.eqb_eq in E0. subst k0.
  destruct (String.eqb k' k) eqn:E; [|done].
  apply String.eqb_eq in E. by subst.
Qed.

Lemma dict_set_insert_sorted k (n n' : A) g :
  k ∉ dict_keys g -> dict_set k n' (insert_sorted (k, n) g) = insert_sorted (k, n') g.
Proof.
  induction g as [|[k0 n0] g IH]; simpl; intros Hk.
  - by rewrite eqb_refl_true.
  - apply not_elem_of_cons in Hk as [Hne Hk].
    destruct (String.leb k k0); simpl.
    + by rewrite eqb_refl_true.
    + rewrite (eqb_false_ne _ _ Hne). by rewrite (IH Hk).
Qed.

Lemma dict_get_perm k g g' :
  NoDup (dict_keys g) -> g ≡ₚ g' -> dict_get k g = dict_get k g'.
Proof.
  intros Hnd Hp.
  assert (Hnd' : NoDup (dict_keys g')) by (by rewrite <- (dict_keys_perm _ _ Hp)).
  destruct (dict_get k g) as [v|] eqn:E.
  - symmetry. apply dict_get_elem; [done|]. rewrite <- Hp. by apply dict_get_Some_elem.
  - symmetry. apply dict_get_None. rewrite <- (dict_keys_perm _ _ Hp). by apply dict_get_None.
Qed.
End SortedFacts.

Lemma add_link_perm group k n : add_link group (k, Some n) ≡ₚ (k, n) :: group.
Proof. apply insert_sorted_perm. Qed.

Lemma add_link_keys group k on x :
  x ∈ dict_keys (add_link group (k, on)) -> x = k \/ x ∈ dict_keys group.
Proof.
  destruct on as [n|]; unfold add_link; simpl; [|by right].
  rewrite dict_keys_insert_sorted. by rewrite elem_of_cons.
Qed.

Lemma add_link_NoDup group k on :
  k ∉ dict_keys group -> NoDup (dict_keys group) -> NoDup (dict_keys (add_link group (k, on))).
Proof.
  intros Hk Hnd. destruct on as [n|]; unfold add_link; simpl; [|done].
  rewrite dict_keys_insert_sorted. by apply NoDup_cons.
Qed.

Lemma NoDup_keys_step {A B : Type} (g g' : list (string * A)) k (rest : list (string * B)) :
  NoDup (dict_keys g ++ k :: dict_keys rest) ->
  NoDup (dict_keys g') ->
  (forall x, x ∈ dict_keys g' -> x = k \/ x ∈ dict_keys g) ->
  NoDup (dict_keys g' ++ dict_keys rest).
Proof.
  intros Hnd Hg' Hsub. apply NoDup_app in Hnd as (Hg & Hdis & Hrest).
  apply NoDup_cons in Hrest as [Hk Hrest].
  apply NoDup_app. split; [done|]. split; [|done].
  intros x Hx Hin. destruct (Hsub x Hx) as [->|Hxg]; [done|].
  apply (Hdis x Hxg). by right.
Qed.

Lemma NoDup_keys_head {A B : Type} (g : list (string * A)) k (rest : list (string * B)) :
  NoDup (dict_keys g ++ k :: dict_keys rest) -> (k ∉ dict_keys g) /\ NoDup (dict_keys g).
Proof.
  intros Hnd. apply NoDup_app in Hnd as (Hg & Hdis & _). split; [|done].
  intros Hin. apply (Hdis k Hin). left.
Qed.

(** ** The writer *)

Section Writer.
Variable h5_convert : pyval -> bool -> result pyval.

Abbreviation save_sub_dict := (save_sub_dict h5_convert).
Abbreviation save_dict := (save_dict h5_convert).
Abbreviation stored := (stored h5_convert).

Lemma save_sub_dict_eq group data key :
  save_sub_dict group data key =
  match via_asarray (via_asdict data) with
  | VDict d =>
      match create_group key group with
      | Raise e => (group, Raise e)
      | Ok group' =>
          let '(g, r) := for_items save_sub_dict d [] in
          (dict_set key (Group g) group', r)
      end
  | VNone => (group, Ok tt)
  | (VArray _ _ | VList _) as data' => create_dataset h5_convert key data' true group
  | data' => create_dataset h5_convert key data' false group
  end.
Proof. destruct data; reflexivity. Qed.

Lemma stored_eq data :
  stored data =
  match via_asarray (via_asdict data) with
  | VDict d =>
      children ← update_values stored d;
      Ok (Some (Group (fold_left add_link children [])))
  | VNone => Ok None
  | (VArray _ _ | VList _) as data' =>
      v ← h5_convert data' true; Ok (Some (Dataset v true))
  | data' => v ← h5_convert data' false; Ok (Some (Dataset v false))
  end.
Proof. destruct data; reflexivity. Qed.

Lemma create_dataset_ok key w gz group v :
  h5_convert w gz = Ok v -> key ∉ dict_keys group ->
  create_dataset h5_convert key w gz group = (insert_sorted (key, Dataset v gz) group, Ok tt).
Proof.
  intros Hv Hk. unfold create_dataset, h5_link. rewrite Hv.
  apply dict_mem_false in Hk. by rewrite Hk.
Qed.

Lemma wf_val_via v : wf_val v -> wf_val (via_asarray (via_asdict v)).
Proof.
  destruct v as [| | | | | | | | | | | | |n m [a|] b]; simpl; try done.
  - intros [Ha _]. destruct a as [| | | | | | | | | | | | |n' m' a' [b'|]]; simpl in *; tauto.
  - destruct b; simpl; tauto.
Qed.

(** The loop over the values of a mapping stores each value in turn. *)
Lemma for_items_stored (body : list (string * node) -> pyval -> string -> _) d :
  Forall (fun kv => forall group key on,
            stored (snd kv) = Ok on -> key ∉ dict_keys group ->
            body group (snd kv) key = (add_link group (key, on), Ok tt)) d ->
  forall g children,
    update_values stored d = Ok children ->
    NoDup (dict_keys g ++ dict_keys d) ->
    for_items body d g = (fold_left add_link children g, Ok tt).
Proof.
  induction 1 as [|[k v] d Hv _ IH]; intros g children Hch Hnd; simpl in *.
  - injection Hch as <-. done.
  - destruct (stored v) as [on|e] eqn:Eon; simpl in Hch; [|done].
    destruct (update_values stored d) as [ch|e] eqn:Ech; simpl in Hch; [|done].
    injection Hch as <-. simpl.
    destruct (NoDup_keys_head _ _ _ Hnd) as [Hk Hg].
    rewrite (Hv g k on eq_refl Hk). apply IH; [done|].
    eapply NoDup_keys_step; [exact Hnd| |].
    + by apply add_link_NoDup.
    + intros x. apply add_link_keys.
Qed.

(** The writer adds to the group the node of the value, under the key. *)
Lemma save_sub_dict_stored data :
  wf_val data ->
  forall group key on,
    stored data = Ok on -> key ∉ dict_keys group ->
    save_sub_dict group data key = (add_link group (key, on), Ok tt).
Proof.
  induction data as [data IH] using pyval_resolve_ind.
  intros Hwf group key on Hon Hk. apply wf_val_via in Hwf.
  rewrite save_sub_dict_eq. rewrite stored_eq in Hon.
  destruct (via_asarray (via_asdict data)) as [| | | | | | | | | | | | d |] eqn:Hw;
    try (destruct (h5_convert _ _) as [v|e] eqn:Ev; simpl in Hon; [|done];
         injection Hon as <-; by apply create_dataset_ok).
  - injection Hon as <-. done.
  - destruct (update_values stored d) as [children|e] eqn:Ech; simpl in Hon; [|done].
    injection Hon as <-.
    unfold create_group, h5_link. pose proof Hk as Hm. apply dict_mem_false in Hm. rewrite Hm.
    rewrite (for_items_stored save_sub_dict d) with (children := children); [| |done|].
    + unfold add_link. simpl. by rewrite dict_set_insert_sorted.
    + specialize (IH d eq_refl). rewrite Forall_forall in IH. apply Forall_forall.
      intros kv Hin. apply IH; [done|]. by apply (wf_val_elem d).
    + simpl. by destruct Hwf.
Qed.
End Writer.

(** ** Runs of the writer *)

Section Runs.
Variable h5_convert : pyval -> bool -> result pyval.

Lemma path_exists_true p (fs : gmap string fcontent) :
  path_exists p fs = true <-> is_Some (fs !! p).
Proof.
  unfold path_exists. destruct (fs !! p); split; try done; try eauto; by intros [? ?].
Qed.

Lemma path_exists_false p (fs : gmap string fcontent) :
  path_exists p fs = false <-> fs !! p = None.
Proof. unfold path_exists. destruct (fs !! p); split; done. Qed.

(** The sentinel is absent after a scope that was entered without it. *)
Lemma with_LockFile_released {A : Type} filename
    (body : gmap string fcontent -> gmap string fcontent * result A) fs :
  fs !! lock_filename filename = None ->
  (with_LockFile filename body fs).1 !! lock_filename filename = None.
Proof.
  intros Hfree. unfold with_LockFile, LockFile_enter.
  apply path_exists_false in Hfree. rewrite Hfree.
  destruct (body _) as [fs2 r]. simpl. unfold LockFile_exit.
  destruct (path_exists (lock_filename filename) fs2) eqn:E.
  - apply lookup_delete_eq.
  - by apply path_exists_false.
Qed.

(** A run that finds no sentinel and a container it can open: the loop
    runs on the root group, and what it wrote is in the file. *)
Lemma save_dict_run filename data (fs : gmap string fcontent) root :
  makedirs (dirname filename) fs = Ok tt ->
  fs !! lock_filename filename = None ->
  lock_filename filename <> filename ->
  container filename fs = Some root ->
  save_dict h5_convert filename data fs
  = (<[filename := H5File (for_items (write_item h5_convert) data root).1]> fs,
     (for_items (write_item h5_convert) data root).2).
Proof.
  intros Hdir Hfree Hne Hroot. unfold save_dict. rewrite Hdir.
  unfold with_LockFile, LockFile_enter.
  pose proof Hfree as Hp. apply path_exists_false in Hp. rewrite Hp.
  unfold with_File_a. rewrite lookup_insert_ne by done.
  unfold container in Hroot.
  assert (Hrel : forall root',
    LockFile_exit (lock_filename filename)
      (<[filename := H5File root']> (<[lock_filename filename := Sentinel]> fs))
    = <[filename := H5File root']> fs).
  { intros root'. unfold LockFile_exit.
    assert (Hex : path_exists (lock_filename filename)
              (<[filename := H5File root']> (<[lock_filename filename := Sentinel]> fs)) = true).
    { apply path_exists_true. rewrite lookup_insert_ne by done.
      rewrite lookup_insert_eq. eauto. }
    rewrite Hex. apply map_eq. intros i.
    destruct (decide (i = lock_filename filename)) as [->|Hi].
    - rewrite lookup_delete_eq. rewrite lookup_insert_ne by done. by rewrite Hfree.
    - rewrite lookup_delete_ne by done.
      destruct (decide (i = filename)) as [->|Hi'].
      + by rewrite !lookup_insert_eq.
      + rewrite !lookup_insert_ne by done. done. }
  destruct (fs !! filename) as [[|root0]|] eqn:Ef;
    injection Hroot as ->;
    destruct (for_items (write_item h5_convert) data root) as [root' r]; simpl; by rewrite Hrel.
Qed.

(** C3: lock exclusivity.  While the sentinel of the path exists a write
    fails with [FileLockedError] and leaves every file as it was; and a
    write that found no sentinel leaves none behind, whether it returned
    or raised, so that the lock can be acquired again.  (The directory of
    the path is one that [os.makedirs] accepts.) *)
Theorem lock_exclusive (fs : gmap string fcontent) (filename : string)
    (data : list (string * pyval)) :
  makedirs (dirname filename) fs = Ok tt ->
  (is_Some (fs !! lock_filename filename) ->
     save_dict h5_convert filename data fs = (fs, Raise FileLockedError))
  /\ (fs !! lock_filename filename = None ->
      forall fs' r, save_dict h5_convert filename data fs = (fs', r) ->
        fs' !! lock_filename filename = None
        /\ LockFile_enter (lock_filename filename) fs'
           = (<[lock_filename filename := Sentinel]> fs', Ok tt)).
Proof.
  intros Hdir. split.
  - intros Hheld. unfold save_dict. rewrite Hdir.
    unfold with_LockFile, LockFile_enter.
    apply path_exists_true in Hheld. by rewrite Hheld.
  - intros Hfree fs' r Hrun.
    assert (Hgone : fs' !! lock_filename filename = None).
    { unfold save_dict in Hrun. rewrite Hdir in Hrun.
      apply (f_equal fst) in Hrun. cbn [fst] in Hrun. rewrite <- Hrun.
      by apply with_LockFile_released. }
    split; [done|]. unfold LockFile_enter.
    apply path_exists_false in Hgone. by rewrite Hgone.
Qed.

(** C4: delete by [None].  Writing [{k: None}] succeeds; afterwards the
    container has no key [k] and every other key is as before; when [k]
    was not a key, the root group is unchanged. *)
Theorem delete_by_none (fs : gmap string fcontent) (filename k : string)
    (root : list (string * node)) :
  makedirs (dirname filename) fs = Ok tt ->
  fs !! lock_filename filename = None ->
  lock_filename filename <> filename ->
  container filename fs = Some root ->
  exists root',
    save_dict h5_convert filename [(k, VNone)] fs
      = (<[filename := H5File root']> fs, Ok tt)
    /\ keys_h5 filename (<[filename := H5File root']> fs) = Ok (dict_keys root')
    /\ (k ∉ dict_keys root')
    /\ (forall k', k' <> k -> dict_get k' root' = dict_get k' root)
    /\ (k ∉ dict_keys root -> root' = root).
Proof.
  intros Hdir Hfree Hne Hroot. exists (dict_del k root).
  rewrite (save_dict_run _ _ _ root) by done. simpl.
  assert (Hdel : (if dict_mem k root then dict_del k root else root) = dict_del k root).
  { destruct (dict_mem k root) eqn:E; [done|].
    apply dict_mem_false in E. by rewrite dict_del_fresh. }
  rewrite Hdel. split; [done|]. split.
  { unfold keys_h5, with_File_r. by rewrite lookup_insert_eq. }
  split.
  { apply dict_get_None. rewrite dict_get_del. by rewrite eqb_refl_true. }
  split.
  - intros k' Hk'. rewrite dict_get_del. by rewrite (eqb_false_ne _ _ Hk').
  - apply dict_del_fresh.
Qed.
End Runs.

(** ** The reader *)

Lemma node_size_elem links kv : kv ∈ links -> (node_size (snd kv) < node_size (Group links))%nat.
Proof.
  simpl. induction links as [|kv' links IH]; intros H.
  - by apply elem_of_nil in H.
  - apply elem_of_cons in H as [->|H]; simpl; [lia|]. specialize (IH H). lia.
Qed.

Lemma node_group_ind (P : node -> Prop) :
  (forall n, (forall links, n = Group links -> Forall (fun kv => P (snd kv)) links) -> P n) ->
  forall n, P n.
Proof.
  intros step n. remember (node_size n) as m eqn:Em.
  revert n Em. induction m as [m IH] using lt_wf_ind. intros n ->.
  apply step. intros links ->. apply Forall_forall. intros kv Hin.
  eapply IH; [|reflexivity]. by apply node_size_elem.
Qed.

Lemma wf_node_group links :
  wf_node (Group links) <-> NoDup (dict_keys links) /\ Forall (fun kv => wf_node (snd kv)) links.
Proof.
  simpl. split; intros [Hnd H]; (split; [done|]).
  - induction links as [|kv links IH]; [constructor|].
    apply NoDup_cons in Hnd as [_ Hnd]. destruct H as [H1 H2]. constructor; auto.
  - induction links as [|kv links IH]; [done|].
    apply NoDup_cons in Hnd as [_ Hnd]. inversion H; subst. simpl. auto.
Qed.

Lemma readable_group links :
  readable (Group links) = true <-> Forall (fun kv => readable (snd kv) = true) links.
Proof.
  simpl. rewrite forallb_forall, Forall_forall.
  split; intros H x Hx; apply H; by apply list_elem_of_In.
Qed.

Lemma update_values_map {A B : Type} (body : A -> result B) (f : A -> B) items :
  Forall (fun kv => body (snd kv) = Ok (f (snd kv))) items ->
  update_values body items = Ok (map (fun kv => (fst kv, f (snd kv))) items).
Proof.
  induction 1 as [|[k v] items Hv _ IH]; simpl; [done|].
  simpl in Hv. rewrite Hv, IH. done.
Qed.

Lemma NoDup_keys_filter {A : Type} (sel : string * A -> bool) (d : list (string * A)) :
  NoDup (dict_keys d) -> NoDup (dict_keys (List.filter sel d)).
Proof.
  induction d as [|kv d IH]; simpl; [done|]. intros Hnd.
  apply NoDup_cons in Hnd as [Hk Hnd]. destruct (sel kv); simpl; [|auto].
  apply NoDup_cons. split; [|auto]. intros Hin. apply Hk.
  unfold dict_keys in *. apply list_elem_of_In, in_map_iff in Hin as ([k' v'] & Hfst & Hin).
  apply filter_In in Hin as [Hin _]. apply list_elem_of_In, in_map_iff. by exists (k', v').
Qed.

Lemma dict_get_map_filter {A B : Type} (f : A -> B) (sel : string -> bool) k
    (d : list (string * A)) :
  dict_get k (map (fun kv => (fst kv, f (snd kv))) (List.filter (fun kv => sel (fst kv)) d))
  = if sel k then f <$> dict_get k d else None.
Proof.
  induction d as [|[k0 v0] d IH]; simpl; [by destruct (sel k)|].
  destruct (String.eqb k k0) eqn:E.
  - apply String.eqb_eq in E. subst k0. destruct (sel k) eqn:Es; simpl.
    + by rewrite eqb_refl_true.
    + exact IH.
  - destruct (sel k0); simpl; [rewrite E|]; exact IH.
Qed.

Section Reader.

Lemma open_h5_group_values group key :
  NoDup (dict_keys group) ->
  open_h5_group group key
  = update_values open_h5_value (List.filter (fun kv => key_selects key (fst kv)) group).
Proof.
  intros Hnd. unfold open_h5_group. rewrite fill_items_filter.
  rewrite fill_items_fresh by (by apply NoDup_keys_filter).
  by destruct (update_values _ _).
Qed.

Lemma open_h5_group_all group :
  NoDup (dict_keys group) ->
  open_h5_group group None = update_values open_h5_value group.
Proof.
  intros Hnd. unfold open_h5_group.
  change (key_selects None) with (fun _ : string => true).
  rewrite fill_items_fresh by done. by destruct (update_values _ _).
Qed.

Lemma open_h5_value_group links :
  open_h5_value (Group links) = VDict <$> open_h5_group links None.
Proof. reflexivity. Qed.

Lemma transform_on_open_decoded v gz :
  readable (Dataset v gz) = true -> transform_on_open v = Ok (decoded (Dataset v gz)).
Proof.
  destruct v; simpl; try done. intros Hv. unfold Text.decode. by rewrite Hv.
Qed.

(** A readable node reads as its value. *)
Lemma open_h5_value_decoded n :
  wf_node n -> readable n = true -> open_h5_value n = Ok (decoded n).
Proof.
  induction n as [n IH] using node_group_ind. intros Hwf Hr.
  destruct n as [links|v gz]; [|by apply transform_on_open_decoded].
  rewrite open_h5_value_group. apply wf_node_group in Hwf as [Hnd Hwf].
  rewrite open_h5_group_all by done.
  rewrite (update_values_map _ decoded); [done|].
  specialize (IH links eq_refl). apply readable_group in Hr.
  rewrite Forall_forall in *. intros kv Hin. apply IH; auto.
Qed.

Lemma key_selects_selected key k : key_selects key k = true <-> selected key k.
Proof.
  destruct key as [[s|l]|]; simpl.
  - apply String.eqb_eq.
  - rewrite existsb_exists. split.
    + intros (x & Hin & Hx). apply String.eqb_eq in Hx. subst. by apply list_elem_of_In.
    + intros Hin. exists k. split; [by apply list_elem_of_In|apply String.eqb_refl].
  - done.
Qed.

Lemma filter_all {A : Type} (l : list A) : List.filter (fun _ => true) l = l.
Proof. induction l as [|a l IH]; simpl; [done|]. by rewrite IH. Qed.

(** The loop of the reader on readable children with distinct names:
    the objects made are numbered from [next] on, one after the other. *)
Lemma fill_objects_fresh keep (links : list (string * node)) :
  NoDup (dict_keys links) ->
  Forall (fun kv => keep (fst kv) = true -> forall next, exists o,
            open_h5_object (snd kv) next = ((next + length (dict_numbers o))%nat, Ok o)
            /\ value_of o = decoded (snd kv)
            /\ dict_numbers o = seq next (length (dict_numbers o))) links ->
  forall data next,
    (forall k, k ∈ dict_keys links -> k ∉ dict_keys data) ->
    exists items,
      fill_objects keep open_h5_object links data next
      = ((next + length (flat_map (fun kv => dict_numbers (snd kv)) items))%nat,
         Ok (data ++ items))
      /\ map (fun kv => (fst kv, value_of (snd kv))) items
         = map (fun kv => (fst kv, decoded (snd kv)))
             (List.filter (fun kv => keep (fst kv)) links)
      /\ flat_map (fun kv => dict_numbers (snd kv)) items
         = seq next (length (flat_map (fun kv => dict_numbers (snd kv)) items)).
Proof.
  intros Hnd Hall. induction Hall as [|[k v] links Hv _ IH]; intros data next Hfresh.
  - exists []. simpl. by rewrite app_nil_r, Nat.add_0_r.
  - apply NoDup_cons in Hnd as [Hk Hnd]. specialize (IH Hnd). simpl in *.
    destruct (keep k) eqn:Ek.
    + destruct (Hv eq_refl next) as (o & Hrun & Hval & Hnum).
      rewrite Hrun. rewrite dict_set_fresh by (apply Hfresh; left).
      destruct (IH (data ++ [(k, o)]) (next + length (dict_numbers o))%nat)
        as (items & Hr & Hm & Hn).
      { intros k' Hk'. unfold dict_keys. rewrite map_app, elem_of_app. intros [H|H].
        - by apply (Hfresh k'); [right|].
        - simpl in H. apply list_elem_of_singleton in H. by subst. }
      exists ((k, o) :: items). simpl. rewrite Hr, length_app.
      split; [f_equal; [lia|by rewrite <- app_assoc]|].
      split; [by rewrite Hval, Hm|].
      rewrite seq_app. by rewrite <- Hnum, <- Hn.
    + destruct (IH data next) as (items & Hr & Hm & Hn); [intros; apply Hfresh; by right|].
      by exists items.
Qed.

(** A readable node is read as an object that holds its value and whose
    dicts are all new. *)
Lemma open_h5_object_fresh n :
  wf_node n -> readable n = true ->
  forall next, exists o,
    open_h5_object n next = ((next + length (dict_numbers o))%nat, Ok o)
    /\ value_of o = decoded n
    /\ dict_numbers o = seq next (length (dict_numbers o)).
Proof.
  induction n as [n IH] using node_group_ind. intros Hwf Hr next.
  destruct n as [links|v gz].
  - apply wf_node_group in Hwf as [Hnd Hwf]. apply readable_group in Hr.
    specialize (IH links eq_refl).
    destruct (fill_objects_fresh (key_selects None) links Hnd) with (data := @nil (string * object))
      (next := S next) as (items & Hrun & Hm & Hn).
    { rewrite Forall_forall in *. intros kv Hin _. apply IH; auto. }
    { intros k _. apply not_elem_of_nil. }
    exists (ODict next items). cbn [open_h5_object]. rewrite Hrun. simpl.
    split; [f_equal; lia|]. split.
    + f_equal. rewrite Hm. change (fun kv : string * node => key_selects None (fst kv))
        with (fun _ : string * node => true). by rewrite filter_all.
    + f_equal. exact Hn.
  - exists (OLeaf (decoded (Dataset v gz))). simpl.
    rewrite (transform_on_open_decoded v gz Hr). simpl. by rewrite Nat.add_0_r.
Qed.

Lemma map_dict_set {A B : Type} (f : A -> B) k x (d : list (string * A)) :
  map (fun kv => (fst kv, f (snd kv))) (dict_set k x d)
  = dict_set k (f x) (map (fun kv => (fst kv, f (snd kv))) d).
Proof.
  induction d as [|[k' v'] d IH]; simpl; [done|].
  destruct (String.eqb k k'); simpl; [done|by rewrite IH].
Qed.

Lemma fill_objects_values keep (links : list (string * node)) :
  Forall (fun kv => forall next,
            value_of <$> (open_h5_object (snd kv) next).2 = open_h5_value (snd kv)) links ->
  forall data next,
    map (fun kv => (fst kv, value_of (snd kv)))
      <$> (fill_objects keep open_h5_object links data next).2
    = fill_items keep open_h5_value links (map (fun kv => (fst kv, value_of (snd kv))) data).
Proof.
  induction 1 as [|[k v] links Hv _ IH]; intros data next; simpl; [done|].
  destruct (keep k); [|apply IH].
  specialize (Hv next). simpl in Hv.
  destruct (open_h5_object v next) as [next' [o|e]]; simpl in Hv; rewrite <- Hv; simpl.
  - rewrite IH. by rewrite map_dict_set.
  - done.
Qed.

(** The reader of objects and the reader of values agree on every node:
    they raise the same exception or the object holds the value. *)
Lemma open_h5_object_value n next :
  value_of <$> (open_h5_object n next).2 = open_h5_value n.
Proof.
  revert next. induction n as [n IH] using node_group_ind. intros next.
  destruct n as [links|v gz].
  - specialize (IH links eq_refl). cbn [open_h5_object open_h5_value].
    pose proof (fill_objects_values (key_selects None) links IH [] (S next)) as H.
    destruct (fill_objects (key_selects None) open_h5_object links [] (S next))
      as [next' [d|e]]; simpl in *; by rewrite <- H.
  - simpl. by destruct (transform_on_open v).
Qed.

(** C8: the key filter of the reader.  Where the nodes of the named keys
    are readable the read succeeds, whatever the other nodes hold.  The
    mapping returned holds, at each named top-level key (the string
    given, a member of the set given, or any key when no filter is
    given), the value of the node of that key, and nothing at any other
    key.  The value of a group is the mapping of the values of all its
    children (no filter applies inside), the value of a byte-string leaf
    is its text and the value of any other leaf is what the leaf holds.
    The mapping returned and every mapping within it are objects made by
    this call: they bear the numbers from [next] on, each once, and so
    none is one of the [next] objects that existed before. *)
Theorem read_filters_first_level (fs : gmap string fcontent) (fullpath : string)
    (root : list (string * node)) (key : option key_arg) :
  fs !! fullpath = Some (H5File root) ->
  wf_node (Group root) ->
  (forall k n, selected key k -> dict_get k root = Some n -> readable n = true) ->
  exists data,
    open_h5 fullpath key fs = Ok data
    /\ (forall k, selected key k -> dict_get k data = decoded <$> dict_get k root)
    /\ (forall k, ~ selected key k -> dict_get k data = None)
    /\ (forall k sub, selected key k -> dict_get k root = Some (Group sub) ->
          exists full, open_h5_group sub None = Ok full
                       /\ dict_keys full = dict_keys sub
                       /\ dict_get k data = Some (VDict full))
    /\ (forall k v gz, selected key k -> dict_get k root = Some (Dataset v gz) ->
          dict_get k data = Some (match v with VBytes b => VStr b | _ => v end))
    /\ (forall next, exists o items,
          open_h5_as_object fullpath key fs next
          = ((next + length (dict_numbers o))%nat, Ok o)
          /\ o = ODict next items
          /\ value_of o = VDict data
          /\ dict_numbers o = seq next (length (dict_numbers o))).
Proof.
  intros Hfile Hwf Hr. pose proof Hwf as Hwf'. apply wf_node_group in Hwf' as [Hnd Hch].
  assert (Hsel : forall kv, kv ∈ root -> key_selects key (fst kv) = true ->
                   wf_node (snd kv) /\ readable (snd kv) = true).
  { intros [k n] Hin Hk. rewrite Forall_forall in Hch. split; [by apply (Hch (k, n))|].
    apply (Hr k n); [by apply key_selects_selected|by apply dict_get_elem]. }
  assert (Hread : open_h5_group root key
    = Ok (map (fun kv => (fst kv, decoded (snd kv)))
            (List.filter (fun kv => key_selects key (fst kv)) root))).
  { rewrite open_h5_group_values by done. apply update_values_map.
    apply Forall_forall. intros kv Hin. apply list_elem_of_In, filter_In in Hin as [Hin Hk].
    apply list_elem_of_In in Hin. destruct (Hsel kv Hin Hk). by apply open_h5_value_decoded. }
  eexists. split; [unfold open_h5, with_File_r; rewrite Hfile; exact Hread|].
  assert (Hget : forall k,
    dict_get k (map (fun kv => (fst kv, decoded (snd kv)))
                  (List.filter (fun kv => key_selects key (fst kv)) root))
    = if key_selects key k then decoded <$> dict_get k root else None).
  { intros k. apply (dict_get_map_filter decoded (key_selects key)). }
  assert (Hon : forall k, selected key k -> key_selects key k = true)
    by (intros k; apply key_selects_selected).
  split; [intros k Hk; by rewrite Hget, (Hon k Hk)|]. split.
  { intros k Hk. rewrite Hget. destruct (key_selects key k) eqn:E; [|done].
    by apply key_selects_selected in E. }
  split; [|split].
  - intros k sub Hk Hsub. rewrite Hget, (Hon k Hk), Hsub. simpl.
    assert (Hin : (k, Group sub) ∈ root) by (by apply dict_get_Some_elem).
    destruct (Hsel _ Hin (Hon k Hk)) as [Hwfs Hrs]. simpl in Hwfs, Hrs.
    pose proof (open_h5_value_decoded (Group sub) Hwfs Hrs) as H.
    rewrite open_h5_value_group in H.
    destruct (open_h5_group sub None) as [full|e]; simpl in H; [|done].
    injection H as H. exists full. split; [done|]. split; [|by rewrite H].
    rewrite H. unfold dict_keys. by rewrite map_map.
  - intros k v gz Hk Hv. rewrite Hget, (Hon k Hk), Hv. simpl. by destruct v.
  - intros next. unfold open_h5_as_object, open_h5_group_object. rewrite Hfile.
    destruct (fill_objects_fresh (key_selects key) root Hnd) with
      (data := @nil (string * object)) (next := S next) as (items & Hrun & Hm & Hn).
    { apply Forall_forall. intros kv Hin Hk next'. destruct (Hsel kv Hin Hk).
      by apply open_h5_object_fresh. }
    { intros k _. apply not_elem_of_nil. }
    exists (ODict next items), items. rewrite Hrun. simpl.
    split; [f_equal; lia|]. split; [done|]. split; [by rewrite Hm|].
    f_equal. exact Hn.
Qed.
End Reader.

(** ** Writing, then reading *)

Lemma fold_add_link_perm (ns g : list (string * node)) :
  fold_left add_link (map (fun kn => (fst kn, Some (snd kn))) ns) g ≡ₚ g ++ ns.
Proof.
  revert g. induction ns as [|[k n] ns IH]; intros g; simpl.
  - by rewrite app_nil_r.
  - rewrite IH. rewrite (add_link_perm g k n). simpl. apply Permutation_middle.
Qed.

Lemma Forall2_dict_get {A B : Type} (Q : A -> B -> Prop)
    (ns : list (string * A)) (ws : list (string * B)) k :
  Forall2 (fun a b => fst a = fst b /\ Q (snd a) (snd b)) ns ws ->
  match dict_get k ns, dict_get k ws with
  | Some n, Some w => Q n w
  | None, None => True
  | _, _ => False
  end.
Proof.
  induction 1 as [|[k1 n] [k2 w] ns ws [Hk HQ] _ IH]; simpl; [done|].
  simpl in Hk, HQ. subst k2. destruct (String.eqb k k1); [done|exact IH].
Qed.

Section RoundTrip.
Variable h5_convert : pyval -> bool -> result pyval.

Abbreviation stored := (stored h5_convert).
Abbreviation coerced := (coerced h5_convert).

Lemma reads_back_items d :
  Forall (fun kv => reads_back h5_convert (snd kv)) d ->
  Forall (fun kv => wf_val (snd kv)) d ->
  forall ws, update_values coerced d = Ok ws ->
    exists ns,
      update_values stored d = Ok (map (fun kn => (fst kn, Some (snd kn))) ns)
      /\ dict_keys ns = dict_keys d
      /\ Forall2 (fun kn kw => fst kn = fst kw
                    /\ (wf_node (snd kn)
                        /\ exists r, open_h5_value (snd kn) = Ok r /\ py_eq r (snd kw)))
           ns ws.
Proof.
  induction 1 as [|[k v] d Hv _ IH]; intros Hwf ws Hws; simpl in *.
  - injection Hws as <-. exists []. repeat split; constructor.
  - inversion Hwf as [|? ? Hwv Hwd]; subst. simpl in Hwv.
    destruct (coerced v) as [w|e] eqn:Ew; simpl in Hws; [|done].
    destruct (update_values coerced d) as [ws'|e] eqn:Ews; simpl in Hws; [|done].
    injection Hws as <-.
    destruct (Hv w Hwv Ew) as (n & Hn & Hwn & r & Hr & Heq).
    destruct (IH Hwd ws' eq_refl) as (ns & Hns & Hkeys & Hall).
    exists ((k, n) :: ns). simpl. rewrite Hn, Hns. simpl.
    split; [done|]. split; [by rewrite Hkeys|].
    constructor; [|done]. simpl. eauto 10.
Qed.

Lemma reads_back_all v : reads_back h5_convert v.
Proof.
  induction v as [v IH] using pyval_dict_ind. intros w Hwf Hw.
  destruct v as [| | | | | | | | | | | | d |]; try done;
    try (simpl in Hw; rewrite stored_eq; simpl;
         destruct (h5_convert _ _) as [x|e]; simpl in *; [|done];
         eexists; split; [reflexivity|]; split; [done|];
         exists w; split; [exact Hw|constructor]).
  simpl in Hw. destruct (update_values coerced d) as [ws|e] eqn:Ews; simpl in Hw; [|done].
  injection Hw as <-.
  assert (Hwfd : Forall (fun kv => wf_val (snd kv)) d).
  { apply Forall_forall. intros kv Hin. by apply (wf_val_elem d). }
  destruct (reads_back_items d (IH d eq_refl) Hwfd ws Ews) as (ns & Hns & Hkeys & Hall).
  rewrite stored_eq. simpl. rewrite Hns. simpl.
  set (g := fold_left add_link (map (fun kn => (fst kn, Some (snd kn))) ns) []).
  assert (Hperm : g ≡ₚ ns) by apply fold_add_link_perm.
  assert (Hnd : NoDup (dict_keys g)).
  { rewrite (dict_keys_perm _ _ Hperm), Hkeys. by destruct Hwf. }
  assert (Hg : Forall (fun kn => wf_node (snd kn)
                         /\ exists r, open_h5_value (snd kn) = Ok r) g).
  { rewrite Hperm. clear -Hall. induction Hall as [|? ? ? ? (_ & ? & r & ? & _) _ IHa];
      constructor; eauto. }
  exists (Group g). split; [done|]. split.
  { apply wf_node_group. split; [done|]. eapply Forall_impl; [exact Hg|]. by intros ? [? _]. }
  rewrite open_h5_value_group. rewrite open_h5_group_all by done.
  destruct (update_values_total open_h5_value g) as [R HR].
  { eapply Forall_impl; [exact Hg|]. by intros ? [_ ?]. }
  rewrite HR. simpl. eexists. split; [reflexivity|].
  apply py_eq_dict. intros k.
  pose proof (update_values_get _ _ _ k HR) as Hget.
  rewrite (dict_get_perm k g ns Hnd Hperm) in Hget.
  pose proof (Forall2_dict_get
    (fun n w => wf_node n /\ exists r, open_h5_value n = Ok r /\ py_eq r w)
    ns ws k Hall) as Hrel.
  destruct (dict_get k ns) as [n|], (dict_get k ws) as [w|]; try done.
  - destruct Hget as (x & Hx & ->). destruct Hrel as (_ & r & Hr & Heq).
    rewrite Hx in Hr. injection Hr as ->. by constructor.
  - rewrite Hget. constructor.
Qed.

Lemma write_item_stored v :
  wf_val v ->
  forall group key on,
    stored v = Ok on -> key ∉ dict_keys group ->
    write_item h5_convert group v key = (add_link group (key, on), Ok tt).
Proof.
  intros Hwf group key on Hon Hk. pose proof Hk as Hm. apply dict_mem_false in Hm.
  cbv beta zeta. rewrite Hm. destruct v; try (by apply save_sub_dict_stored).
  simpl in Hon. by injection Hon as <-.
Qed.

(** C1: round trip.  A well-formed nested mapping [D] of supported
    shapes, written to a fresh path, is read back as a mapping equal to
    [D] up to the coercions of [coerced]: each leaf is the value h5py
    returns for it, byte strings decoded.  (The path is fresh: no file, no
    sentinel, a directory that [os.makedirs] accepts and a lock name
    different from the path.) *)
Theorem round_trip (fs : gmap string fcontent) (path : string)
    (D E : list (string * pyval)) :
  wf_val (VDict D) -> coerced (VDict D) = Ok (VDict E) ->
  makedirs (dirname path) fs = Ok tt ->
  fs !! path = None -> fs !! lock_filename path = None -> lock_filename path <> path ->
  exists fs', save_dict h5_convert path D fs = (fs', Ok tt)
    /\ exists R, open_h5 path None fs' = Ok R /\ py_eq (VDict R) (VDict E).
Proof.
  intros Hwf HE Hdir Hfile Hfree Hne.
  destruct (reads_back_all (VDict D) (VDict E) Hwf HE) as (n & Hn & Hwn & r & Hr & Heq).
  rewrite stored_eq in Hn. simpl in Hn.
  destruct (update_values stored D) as [children|e] eqn:Ech; simpl in Hn; [|done].
  injection Hn as <-.
  assert (Hroot : container path fs = Some []) by (unfold container; by rewrite Hfile).
  rewrite (save_dict_run h5_convert path D fs [] Hdir Hfree Hne Hroot).
  rewrite (for_items_stored h5_convert (write_item h5_convert) D) with (children := children).
  - simpl. eexists. split; [reflexivity|].
    unfold open_h5, with_File_r. rewrite lookup_insert_eq.
    rewrite open_h5_value_group in Hr.
    destruct (open_h5_group _ None) as [R|e]; simpl in Hr; [|done].
    injection Hr as <-. by exists R.
  - apply Forall_forall. intros kv Hin. apply write_item_stored. by apply (wf_val_elem D).
  - done.
  - simpl. by destruct Hwf.
Qed.

(** C2, amended: a non-[None] value written under a key replaces what
    the container held at that key by the node [stored] gives: the writer
    resolves [_asdict] and then [asarray] whatever the opaque marker says
    (the normalizer is not called), a mapping becomes a group holding the
    nodes of its values, and any other value a leaf, compressed when it is
    a list or an array. *)
Theorem write_stores_resolved (fs : gmap string fcontent) (filename key : string)
    (value : pyval) (root : list (string * node)) (on : option node) :
  makedirs (dirname filename) fs = Ok tt ->
  fs !! lock_filename filename = None -> lock_filename filename <> filename ->
  container filename fs = Some root ->
  wf_val value -> value <> VNone -> stored value = Ok on ->
  save_dict h5_convert filename [(key, value)] fs
    = (<[filename := H5File (add_link (dict_del key root) (key, on))]> fs, Ok tt)
  /\ (forall t m a b, a <> None \/ b <> None ->
        stored (VObj t m a b) = stored (VObj t None a b))
  /\ stored value
     = match via_asarray (via_asdict value) with
       | VDict d =>
           children ← update_values stored d;
           Ok (Some (Group (fold_left add_link children [])))
       | VNone => Ok None
       | (VArray _ _ | VList _) as data' =>
           v ← h5_convert data' true; Ok (Some (Dataset v true))
       | data' => v ← h5_convert data' false; Ok (Some (Dataset v false))
       end.
Proof.
  intros Hdir Hfree Hne Hroot Hwf Hval Hon.
  split; [|split; [|apply stored_eq]].
  2:{ intros t m [a|] [b|] Hcap; rewrite !stored_eq; try reflexivity.
      by destruct Hcap. }
  rewrite (save_dict_run h5_convert filename _ fs root Hdir Hfree Hne Hroot). simpl.
  assert (Hdel : (if dict_mem key root then dict_del key root else root) = dict_del key root).
  { destruct (dict_mem key root) eqn:E; [done|].
    apply dict_mem_false in E. by rewrite dict_del_fresh. }
  rewrite Hdel.
  assert (Hk : key ∉ dict_keys (dict_del key root)).
  { apply dict_get_None. rewrite dict_get_del. by rewrite eqb_refl_true. }
  destruct value; try done;
    rewrite (save_sub_dict_stored h5_convert _ Hwf _ key on Hon Hk); done.
Qed.
End RoundTrip.

(** * Instances *)

Ltac distinct_keys := refine (bool_decide_unpack _ _); vm_compute; exact I.

Lemma sample_data_wf : wf_val (VDict sample_data).
Proof. simpl. repeat split; distinct_keys. Defined.

Lemma summary_data_wf : wf_val (VDict summary_data).
Proof. simpl. repeat split; distinct_keys. Defined.

Lemma sample_root_wf : wf_node (Group sample_root).
Proof. simpl. repeat split; distinct_keys. Defined.

Lemma sample_lock_distinct : lock_filename sample_path <> sample_path.
Proof. intros H. vm_compute in H. discriminate H. Defined.

Lemma round_trip_witness :
  wf_val (VDict sample_data)
  /\ coerced Ref.h5_convert (VDict sample_data) = Ok (VDict sample_back)
  /\ exists fs', save_dict Ref.h5_convert sample_path sample_data ∅ = (fs', Ok tt)
       /\ exists R, open_h5 sample_path None fs' = Ok R
            /\ py_eq (VDict R) (VDict sample_back).
Proof.
  split; [exact sample_data_wf|]. split; [reflexivity|].
  apply (round_trip Ref.h5_convert ∅ sample_path sample_data sample_back).
  - exact sample_data_wf.
  - reflexivity.
  - reflexivity.
  - reflexivity.
  - reflexivity.
  - exact sample_lock_distinct.
Defined.

Lemma write_stores_resolved_witness :
  stored Ref.h5_convert opaque_point
    = Ok (Some (Group [("x", Dataset (VNpInt 1) false)]))
  /\ save_dict Ref.h5_convert sample_path [("s", opaque_point)] sample_fs
     = (<[sample_path :=
            H5File (add_link (dict_del "s" sample_root)
                      ("s", Some (Group [("x", Dataset (VNpInt 1) false)])))]> sample_fs,
        Ok tt).
Proof.
  split; [reflexivity|].
  apply (write_stores_resolved Ref.h5_convert sample_fs sample_path "s" opaque_point
           sample_root (Some (Group [("x", Dataset (VNpInt 1) false)]))).
  - reflexivity.
  - reflexivity.
  - exact sample_lock_distinct.
  - reflexivity.
  - simpl. repeat split; distinct_keys.
  - discriminate.
  - reflexivity.
Defined.

Lemma lock_exclusive_witness :
  makedirs (dirname sample_path) sample_fs = Ok tt
  /\ save_dict Ref.h5_convert sample_path sample_data
       (<[lock_filename sample_path := Sentinel]> sample_fs)
     = (<[lock_filename sample_path := Sentinel]> sample_fs, Raise FileLockedError)
  /\ (forall fs' r,
        save_dict Ref.h5_convert sample_path [("o", plain_object)] sample_fs = (fs', r) ->
        fs' !! lock_filename sample_path = None
        /\ LockFile_enter (lock_filename sample_path) fs'
           = (<[lock_filename sample_path := Sentinel]> fs', Ok tt))
  /\ (save_dict Ref.h5_convert sample_path [("o", plain_object)] sample_fs).2
     = Raise TypeError.
Proof.
  split; [reflexivity|]. split; [|split; [|reflexivity]].
  - apply (lock_exclusive Ref.h5_convert
             (<[lock_filename sample_path := Sentinel]> sample_fs) sample_path sample_data).
    + reflexivity.
    + exists Sentinel. reflexivity.
  - apply (lock_exclusive Ref.h5_convert sample_fs sample_path [("o", plain_object)]).
    + reflexivity.
    + reflexivity.
Defined.

Lemma delete_by_none_witness :
  container sample_path sample_fs = Some sample_root
  /\ exists root',
       save_dict Ref.h5_convert sample_path [("x", VNone)] sample_fs
         = (<[sample_path := H5File root']> sample_fs, Ok tt)
       /\ keys_h5 sample_path (<[sample_path := H5File root']> sample_fs)
          = Ok (dict_keys root')
       /\ ("x" ∉ dict_keys root')
       /\ (forall k', k' <> "x" -> dict_get k' root' = dict_get k' sample_root)
       /\ ("x" ∉ dict_keys sample_root -> root' = sample_root).
Proof.
  split; [reflexivity|].
  apply (delete_by_none Ref.h5_convert sample_fs sample_path "x" sample_root).
  - reflexivity.
  - reflexivity.
  - exact sample_lock_distinct.
  - reflexivity.
Defined.

Lemma summarize_collapse_witness :
  length summary_data = 6%nat
  /\ (exists s, get_dict_structure Ref.np_array summary_data default_level = Ok s
        /\ dict_keys s = dict_keys summary_data
        /\ forall k sub, dict_get k summary_data = Some (VDict sub) -> (5 < length sub)%nat ->
             dict_get k s = Some (SStr "variable of type dict"))
  /\ (exists s0, get_dict_structure Ref.np_array summary_data 0 = Ok s0
        /\ dict_keys s0 = dict_keys summary_data
        /\ forall k sub, dict_get k summary_data = Some (VDict sub) ->
             dict_get k s0 = Some (SStr "variable of type dict")).
Proof.
  split; [reflexivity|].
  apply (summarize_collapse Ref.np_array summary_data).
  - exact summary_data_wf.
  - reflexivity.
Defined.

Lemma summarize_empty_dict_witness :
  dict_get "k2" summary_data = Some (VDict [])
  /\ exists s, get_dict_structure Ref.np_array summary_data default_level = Ok s
       /\ dict_get "k2" s = Some (SStr "variable of type dict")
       /\ dict_get "k2" s <> Some (SStr "empty dict").
Proof.
  split; [reflexivity|].
  apply (summarize_empty_dict Ref.np_array summary_data "k2" default_level).
  - exact summary_data_wf.
  - reflexivity.
  - reflexivity.
Defined.

Lemma summarize_bool_witness :
  dict_get "k4" summary_data = Some (VBool true)
  /\ exists s, get_dict_structure Ref.np_array summary_data default_level = Ok s
       /\ exists str_value, Fmt.int_0f 1 = Ok str_value
       /\ dict_get "k4" s = Some (SStr (str_value +:+ " (type : bool)"))
       /\ (true = true -> dict_get "k4" s = Some (SStr "1 (type : bool)"))
       /\ dict_get "k4" s <> Some (SStr "variable of type bool").
Proof.
  split; [reflexivity|].
  apply (summarize_bool Ref.np_array summary_data "k4" true default_level).
  - exact summary_data_wf.
  - reflexivity.
  - reflexivity.
Defined.

Lemma summarize_float_witness :
  dict_get "k6" summary_data = Some (VFloat (-5))
  /\ float_rule (-5) = "-5.000e+00"
  /\ exists s, get_dict_structure Ref.np_array summary_data default_level = Ok s
       /\ dict_get "k6" s
          = Some (SStr (float_rule (-5) +:+ " (type : " +:+ type_name (VFloat (-5)) +:+ ")")).
Proof.
  split; [reflexivity|]. split; [reflexivity|].
  apply (summarize_float Ref.np_array summary_data "k6" (VFloat (-5)) (-5)%float default_level).
  - exact summary_data_wf.
  - reflexivity.
  - reflexivity.
  - left. reflexivity.
Defined.

(** C7, as stated, fails: -5.0 has a magnitude within [0.1, 100] and is
    described in scientific notation, and 1.2345 is described as "1.234",
    not as "1.235". *)
Lemma summarize_float_counterexample :
  describe Ref.np_array (VFloat (-5)) default_level
    = Ok (SStr "-5.000e+00 (type : float)")
  /\ float_rule_by_magnitude (-5) = "-5.000"
  /\ describe Ref.np_array (VFloat (-5)) default_level
     <> Ok (annotated (float_rule_by_magnitude (-5)) (VFloat (-5)))
  /\ get_dict_structure Ref.np_array [("v", VFloat 1.2345)] default_level
     = Ok [("v", SStr "1.234 (type : float)")]
  /\ get_dict_structure Ref.np_array [("v", VFloat 1.2345)] default_level
     <> Ok [("v", SStr "1.235 (type : float)")].
Proof.
  split; [reflexivity|]. split; [reflexivity|]. split; [|split; [reflexivity|]].
  - intros H. vm_compute in H. discriminate H.
  - intros H. vm_compute in H. discriminate H.
Qed.

Lemma read_filters_first_level_witness :
  (exists data,
     open_h5 sample_path (Some (KeyStr "sub")) sample_fs = Ok data
     /\ (forall k, selected (Some (KeyStr "sub")) k ->
           dict_get k data = decoded <$> dict_get k sample_root)
     /\ (forall k, ~ selected (Some (KeyStr "sub")) k -> dict_get k data = None)
     /\ (forall k sub, selected (Some (KeyStr "sub")) k ->
           dict_get k sample_root = Some (Group sub) ->
           exists full, open_h5_group sub None = Ok full
                        /\ dict_keys full = dict_keys sub
                        /\ dict_get k data = Some (VDict full))
     /\ (forall k v gz, selected (Some (KeyStr "sub")) k ->
           dict_get k sample_root = Some (Dataset v gz) ->
           dict_get k data = Some (match v with VBytes b => VStr b | _ => v end))
     /\ (forall next, exists o items,
           open_h5_as_object sample_path (Some (KeyStr "sub")) sample_fs next
           = ((next + length (dict_numbers o))%nat, Ok o)
           /\ o = ODict next items
           /\ value_of o = VDict data
           /\ dict_numbers o = seq next (length (dict_numbers o))))
  /\ open_h5 sample_path (Some (KeyStr "sub")) sample_fs
     = Ok [("sub", VDict [("f", VNpFloat 0.5); ("n", VNpInt 7)])]
  /\ open_h5 sample_path (Some (KeySet ["s"; "x"])) sample_fs
     = Ok [("s", VStr "abc"); ("x", VArray [3%nat] [VNpInt 1; VNpInt 2; VNpInt 3])]
  /\ open_h5_as_object sample_path (Some (KeyStr "sub")) sample_fs 5
     = (7%nat, Ok (ODict 5 [("sub", ODict 6 [("f", OLeaf (VNpFloat 0.5));
                                             ("n", OLeaf (VNpInt 7))])])).
Proof.
  split; [|repeat split; reflexivity].
  apply (read_filters_first_level sample_fs sample_path sample_root (Some (KeyStr "sub"))).
  - reflexivity.
  - exact sample_root_wf.
  - intros k n Hk Hn. simpl in Hk. subst k. vm_compute in Hn.
    injection Hn as <-. reflexivity.
Defined.

Lemma render_annotations_witness :
  exists structure out,
    get_dict_structure Ref.np_array [("a", VInt 1)] default_level = Ok structure
    /\ output_dict_structure Ref.np_array [("a", VInt 1)] (Some [("a", " # note")]) = Ok out
    /\ all_annotated [("a", " # note")] (dict_to_json_format_str structure) out.
Proof.
  apply (render_annotations Ref.np_array [("a", VInt 1)] (Some [("a", " # note")])).
  - simpl. repeat split; distinct_keys.
  - reflexivity.
Defined.

(** C9, as stated, fails: the annotation is put before the colon of the
    key, not after it. *)
Lemma render_counterexample :
  output_dict_structure Ref.np_array [("a", VInt 1)] (Some [("a", " # note")])
    = Ok ("{" +:+ Json.newline +:+ "    " +:+ Json.quote +:+ "a" +:+ Json.quote
          +:+ " # note" +:+ ": " +:+ Json.quote +:+ "1 (type : int)" +:+ Json.quote
          +:+ Json.newline +:+ "}")
  /\ output_dict_structure_after_colon Ref.np_array [("a", VInt 1)] [("a", " # note")]
    = Ok ("{" +:+ Json.newline +:+ "    " +:+ Json.quote +:+ "a" +:+ Json.quote
          +:+ ":" +:+ " # note" +:+ " " +:+ Json.quote +:+ "1 (type : int)" +:+ Json.quote
          +:+ Json.newline +:+ "}")
  /\ output_dict_structure Ref.np_array [("a", VInt 1)] (Some [("a", " # note")])
     <> output_dict_structure_after_colon Ref.np_array [("a", VInt 1)] [("a", " # note")].
Proof.
  split; [reflexivity|]. split; [reflexivity|].
  intros H. vm_compute in H. discriminate H.
Qed.

(** C2, as stated, fails: a value that declares itself opaque is left
    alone by the normalizer, but the writer decomposes it to a mapping
    and stores a group. *)
Lemma write_opaque_counterexample :
  should_not_be_converted opaque_point = true
  /\ transform_to_possible_formats Ref.np_array opaque_point = Ok opaque_point
  /\ save_dict Ref.h5_convert sample_path [("p", opaque_point)] ∅
     = ({[ sample_path := H5File [("p", Group [("x", Dataset (VNpInt 1) false)])] ]}, Ok tt)
  /\ stored Ref.h5_convert opaque_point <> stored_normalized Ref.h5_convert opaque_point.
Proof.
  split; [reflexivity|]. split; [reflexivity|]. split; [reflexivity|].
  intros H. vm_compute in H. discriminate H.
Qed.

(** * Further properties of the module *)

(** ** The sentinel lock *)

(** Acquiring the lock where no sentinel exists (and the directory of
    the sentinel does) and releasing it gives back the file system;
    releasing is idempotent and does nothing where no sentinel exists. *)
Theorem lock_enter_exit (fs : gmap string fcontent) (lock : string) :
  directory_known (dirname lock) fs ->
  fs !! lock = None ->
  LockFile_exit lock (LockFile_enter lock fs).1 = fs
  /\ (LockFile_enter lock fs).2 = Ok tt
  /\ LockFile_exit lock fs = fs
  /\ forall fs0 : gmap string fcontent,
       LockFile_exit lock (LockFile_exit lock fs0) = LockFile_exit lock fs0.
Proof.
  intros _ Hfree. pose proof Hfree as Hp. apply path_exists_false in Hp.
  unfold LockFile_enter, LockFile_exit. rewrite Hp. simpl.
  assert (Hex : path_exists lock (<[lock := Sentinel]> fs) = true).
  { apply path_exists_true. rewrite lookup_insert_eq. eauto. }
  rewrite Hex. split; [|split; [done|split; [done|]]].
  - apply map_eq. intros i. destruct (decide (i = lock)) as [->|Hi].
    + by rewrite lookup_delete_eq.
    + rewrite lookup_delete_ne by done. by rewrite lookup_insert_ne.
  - intros fs0. destruct (path_exists lock fs0) eqn:E; [|by rewrite E].
    assert (Hd : path_exists lock (delete lock fs0) = false).
    { apply path_exists_false. apply lookup_delete_eq. }
    by rewrite Hd.
Qed.

Lemma lock_enter_exit_witness :
  sample_fs !! lock_filename sample_path = None
  /\ LockFile_exit (lock_filename sample_path)
       (LockFile_enter (lock_filename sample_path) sample_fs).1 = sample_fs.
Proof.
  split; [reflexivity|].
  apply (lock_enter_exit sample_fs (lock_filename sample_path)).
  - right. exists sample_path. split; [by exists (H5File sample_root)|reflexivity].
  - reflexivity.
Defined.

(** ** Writing several keys *)

Section Upsert.
Variable h5_convert : pyval -> bool -> result pyval.

Lemma dict_del_not_in {A : Type} k (d : list (string * A)) : k ∉ dict_keys (dict_del k d).
Proof. apply dict_get_None. rewrite dict_get_del. by rewrite eqb_refl_true. Qed.

Lemma popped_eq k (file : list (string * node)) :
  (if dict_mem k file then dict_del k file else file) = dict_del k file.
Proof.
  destruct (dict_mem k file) eqn:E; [done|].
  apply dict_mem_false in E. by rewrite dict_del_fresh.
Qed.

(** One turn of the loop of [save_dict]: the old node of the key is
    removed and the node of the value, if any, takes its place. *)
Lemma write_item_replaces v :
  wf_val v ->
  forall file key on,
    stored h5_convert v = Ok on ->
    write_item h5_convert file v key = (add_link (dict_del key file) (key, on), Ok tt).
Proof.
  intros Hwf file key on Hon. cbv beta zeta. rewrite popped_eq.
  destruct v; try (apply save_sub_dict_stored; [done|done|apply dict_del_not_in]).
  simpl in Hon. by injection Hon as <-.
Qed.

Lemma for_items_replaces data :
  Forall (fun kv => wf_val (snd kv)) data ->
  forall root children,
    update_values (stored h5_convert) data = Ok children ->
    for_items (write_item h5_convert) data root
    = (fold_left replace_link children root, Ok tt).
Proof.
  induction 1 as [|[k v] data Hv _ IH]; intros root children Hch; simpl in Hch.
  - by injection Hch as <-.
  - destruct (stored h5_convert v) as [on|e] eqn:Eon; simpl in Hch; [|done].
    destruct (update_values (stored h5_convert) data) as [ch|e] eqn:Ech; simpl in Hch; [|done].
    injection Hch as <-. cbn [for_items].
    pose proof (write_item_replaces v Hv root k on Eon) as Hw.
    cbv beta zeta in Hw |- *. rewrite Hw. cbn [fold_left]. by apply IH.
Qed.

Lemma dict_get_replace_link g k kn :
  dict_get k (replace_link g kn)
  = if String.eqb k (fst kn) then snd kn else dict_get k g.
Proof.
  destruct kn as [k' [n|]]; unfold replace_link, add_link; simpl.
  - rewrite dict_get_insert_sorted by apply dict_del_not_in.
    rewrite dict_get_del. by destruct (String.eqb k k').
  - rewrite dict_get_del. by destruct (String.eqb k k').
Qed.

Lemma dict_get_fold_replace children :
  NoDup (dict_keys children) ->
  forall g k,
    dict_get k (fold_left replace_link children g)
    = match dict_get k children with
      | Some on => on
      | None => dict_get k g
      end.
Proof.
  induction children as [|[k0 on0] children IH]; intros Hnd g k; simpl; [done|].
  apply NoDup_cons in Hnd as [Hk0 Hnd]. simpl in Hk0. rewrite (IH Hnd).
  rewrite dict_get_replace_link. simpl.
  destruct (String.eqb k k0) eqn:E; [|done].
  apply String.eqb_eq in E. subst k0. apply dict_get_None in Hk0. by rewrite Hk0.
Qed.

(** [save_dict] is an update by top-level key: after a write that
    stores every value, a key of the data holds the node of its value (no
    node when nothing is stored for the value, as for [None]), and every
    other key holds what it held before. *)
Theorem save_dict_updates_by_key (fs : gmap string fcontent) (filename : string)
    (data : list (string * pyval)) (root : list (string * node))
    (children : list (string * option node)) :
  makedirs (dirname filename) fs = Ok tt ->
  fs !! lock_filename filename = None -> lock_filename filename <> filename ->
  container filename fs = Some root ->
  wf_val (VDict data) ->
  update_values (stored h5_convert) data = Ok children ->
  exists root',
    save_dict h5_convert filename data fs = (<[filename := H5File root']> fs, Ok tt)
    /\ forall k,
         match dict_get k data with
         | Some v => stored h5_convert v = Ok (dict_get k root')
         | None => dict_get k root' = dict_get k root
         end.
Proof.
  intros Hdir Hfree Hne Hroot Hwf Hch.
  assert (Hwfd : Forall (fun kv => wf_val (snd kv)) data).
  { apply Forall_forall. intros kv Hin. by apply (wf_val_elem data). }
  exists (fold_left replace_link children root).
  rewrite (save_dict_run h5_convert filename data fs root Hdir Hfree Hne Hroot).
  rewrite (for_items_replaces data Hwfd root children Hch). split; [done|].
  intros k. rewrite dict_get_fold_replace.
  2:{ rewrite (update_values_keys _ _ _ Hch). by destruct Hwf. }
  pose proof (update_values_get _ _ _ k Hch) as Hget.
  destruct (dict_get k data) as [v|].
  - destruct Hget as (on & Hon & ->). exact Hon.
  - by rewrite Hget.
Qed.

(** A write that h5py refuses: when h5py rejects a value that is
    neither a mapping nor [None] and has no capability, its exception is
    the outcome of [save_dict]; the sentinel is released and every other
    key of the container holds what it held.  (The old node of the key
    itself was removed before the value was tried.) *)
Theorem save_dict_refused_value (fs : gmap string fcontent) (filename key : string)
    (value : pyval) (root : list (string * node)) (e : exn) :
  makedirs (dirname filename) fs = Ok tt ->
  fs !! lock_filename filename = None -> lock_filename filename <> filename ->
  container filename fs = Some root ->
  via_asarray (via_asdict value) = value ->
  (forall d, value <> VDict d) -> value <> VNone ->
  h5_convert value (match value with VArray _ _ | VList _ => true | _ => false end) = Raise e ->
  exists root',
    save_dict h5_convert filename [(key, value)] fs
      = (<[filename := H5File root']> fs, Raise e)
    /\ (<[filename := H5File root']> fs) !! lock_filename filename = None
    /\ forall k, k <> key -> dict_get k root' = dict_get k root.
Proof.
  intros Hdir Hfree Hne Hroot Hvia Hnd Hnn He.
  exists (dict_del key root). split; [|split].
  - rewrite (save_dict_run h5_convert filename _ fs root Hdir Hfree Hne Hroot).
    cbn [for_items]. cbv beta zeta. rewrite popped_eq.
    assert (Hs : save_sub_dict h5_convert (dict_del key root) value key
                 = (dict_del key root, Raise e)).
    { rewrite save_sub_dict_eq, Hvia. unfold create_dataset.
      destruct value; try (by rewrite He); try done. by destruct (Hnd d). }
    destruct value; try done; by rewrite Hs.
  - by rewrite lookup_insert_ne.
  - intros k Hk. rewrite dict_get_del. by rewrite (eqb_false_ne _ _ Hk).
Qed.
End Upsert.

Lemma save_dict_updates_by_key_witness :
  exists root',
    save_dict Ref.h5_convert sample_path [("s", VInt 3); ("x", VNone)] sample_fs
      = (<[sample_path := H5File root']> sample_fs, Ok tt)
    /\ forall k,
         match dict_get k [("s", VInt 3); ("x", VNone)] with
         | Some v => stored Ref.h5_convert v = Ok (dict_get k root')
         | None => dict_get k root' = dict_get k sample_root
         end.
Proof.
  apply (save_dict_updates_by_key Ref.h5_convert sample_fs sample_path
           [("s", VInt 3); ("x", VNone)] sample_root
           [("s", Some (Dataset (VNpInt 3) false)); ("x", None)]).
  - reflexivity.
  - reflexivity.
  - exact sample_lock_distinct.
  - reflexivity.
  - simpl. repeat split; distinct_keys.
  - reflexivity.
Defined.

Lemma save_dict_refused_value_witness :
  exists root',
    save_dict Ref.h5_convert sample_path [("s", plain_object)] sample_fs
      = (<[sample_path := H5File root']> sample_fs, Raise TypeError)
    /\ (<[sample_path := H5File root']> sample_fs) !! lock_filename sample_path = None
    /\ forall k, k <> "s" -> dict_get k root' = dict_get k sample_root.
Proof.
  apply (save_dict_refused_value Ref.h5_convert sample_fs sample_path "s"
           plain_object sample_root TypeError).
  - reflexivity.
  - reflexivity.
  - exact sample_lock_distinct.
  - reflexivity.
  - reflexivity.
  - discriminate.
  - discriminate.
  - reflexivity.
Defined.

(** ** Deleting a key *)

Lemma locked_append_run {A : Type} filename
    (body : list (string * node) -> list (string * node) * result A)
    (fs : gmap string fcontent) root :
  fs !! lock_filename filename = None ->
  lock_filename filename <> filename ->
  container filename fs = Some root ->
  with_LockFile filename (with_File_a filename body) fs
  = (<[filename := H5File (body root).1]> fs, (body root).2).
Proof.
  intros Hfree Hne Hroot. unfold with_LockFile, LockFile_enter.
  pose proof Hfree as Hp. apply path_exists_false in Hp. rewrite Hp.
  unfold with_File_a. rewrite lookup_insert_ne by done.
  unfold container in Hroot.
  assert (Hrel : forall root',
    LockFile_exit (lock_filename filename)
      (<[filename := H5File root']> (<[lock_filename filename := Sentinel]> fs))
    = <[filename := H5File root']> fs).
  { intros root'. unfold LockFile_exit.
    assert (Hex : path_exists (lock_filename filename)
              (<[filename := H5File root']> (<[lock_filename filename := Sentinel]> fs)) = true).
    { apply path_exists_true. rewrite lookup_insert_ne by done.
      rewrite lookup_insert_eq. eauto. }
    rewrite Hex. apply map_eq. intros i.
    destruct (decide (i = lock_filename filename)) as [->|Hi].
    - rewrite lookup_delete_eq. rewrite lookup_insert_ne by done. by rewrite Hfree.
    - rewrite lookup_delete_ne by done.
      destruct (decide (i = filename)) as [->|Hi'].
      + by rewrite !lookup_insert_eq.
      + rewrite !lookup_insert_ne by done. done. }
  destruct (fs !! filename) as [[|root0]|] eqn:Ef;
    injection Hroot as ->; destruct (body root) as [root' r]; simpl; by rewrite Hrel.
Qed.

Lemma del_dict_run filename key (fs : gmap string fcontent) root :
  fs !! lock_filename filename = None ->
  lock_filename filename <> filename ->
  container filename fs = Some root ->
  del_dict filename key fs
  = if dict_mem key root
    then (<[filename := H5File (dict_del key root)]> fs, Ok tt)
    else (<[filename := H5File root]> fs, Raise KeyError).
Proof.
  intros Hfree Hne Hroot. unfold del_dict.
  rewrite (locked_append_run filename _ fs root Hfree Hne Hroot).
  unfold h5_pop. by destruct (dict_mem key root).
Qed.

Lemma dict_mem_true {A : Type} k (d : list (string * A)) :
  dict_mem k d = true <-> is_Some (dict_get k d).
Proof.
  unfold dict_mem. destruct (dict_get k d); split; try done; try eauto; by intros [? ?].
Qed.

(** Deleting an existing key removes the node of that key and nothing
    else, and leaves no sentinel. *)
Theorem del_dict_removes (fs : gmap string fcontent) (filename key : string)
    (root : list (string * node)) (n : node) :
  fs !! lock_filename filename = None ->
  fs !! filename = Some (H5File root) ->
  dict_get key root = Some n ->
  del_dict filename key fs = (<[filename := H5File (dict_del key root)]> fs, Ok tt)
  /\ (<[filename := H5File (dict_del key root)]> fs) !! lock_filename filename = None
  /\ keys_h5 filename (<[filename := H5File (dict_del key root)]> fs)
     = Ok (List.filter (fun k => negb (String.eqb k key)) (dict_keys root))
  /\ forall k, dict_get k (dict_del key root)
               = if String.eqb k key then None else dict_get k root.
Proof.
  intros Hfree Hfile Hk.
  assert (Hne : lock_filename filename <> filename) by (intros E; congruence).
  assert (Hroot : container filename fs = Some root) by (unfold container; by rewrite Hfile).
  rewrite (del_dict_run filename key fs root Hfree Hne Hroot).
  assert (Hm : dict_mem key root = true) by (apply dict_mem_true; eauto).
  rewrite Hm. split; [done|]. split; [by rewrite lookup_insert_ne|]. split.
  - unfold keys_h5, with_File_r. rewrite lookup_insert_eq. f_equal.
    clear. induction root as [|[k0 v0] root IH]; simpl; [done|].
    rewrite (String.eqb_sym k0 key).
    destruct (String.eqb key k0); simpl; [exact IH|by rewrite IH].
  - intros k. apply dict_get_del.
Qed.

(** Deleting a key the container does not have raises [KeyError] and
    changes no node; a container file that did not exist, in a directory
    that does, has nevertheless been created, empty.  No sentinel is
    left. *)
Theorem del_dict_missing_key (fs : gmap string fcontent) (filename key : string)
    (root : list (string * node)) :
  directory_known (dirname filename) fs ->
  directory_known (dirname (lock_filename filename)) fs ->
  fs !! lock_filename filename = None ->
  lock_filename filename <> filename ->
  container filename fs = Some root ->
  dict_get key root = None ->
  del_dict filename key fs = (<[filename := H5File root]> fs, Raise KeyError)
  /\ (<[filename := H5File root]> fs) !! lock_filename filename = None
  /\ (fs !! filename = Some (H5File root) -> <[filename := H5File root]> fs = fs)
  /\ (fs !! filename = None ->
      root = [] /\ keys_h5 filename (<[filename := H5File root]> fs) = Ok []).
Proof.
  intros _ _ Hfree Hne Hroot Hk.
  rewrite (del_dict_run filename key fs root Hfree Hne Hroot).
  assert (Hm : dict_mem key root = false) by (unfold dict_mem; by rewrite Hk).
  rewrite Hm. split; [done|]. split; [by rewrite lookup_insert_ne|]. split.
  - intros Hfile. by apply insert_id.
  - intros Hfile. unfold container in Hroot. rewrite Hfile in Hroot.
    injection Hroot as <-. split; [done|].
    unfold keys_h5, with_File_r. by rewrite lookup_insert_eq.
Qed.

(** While the sentinel exists [del_dict] raises [FileLockedError] and
    changes nothing. *)
Theorem del_dict_locked (fs : gmap string fcontent) (filename key : string) :
  is_Some (fs !! lock_filename filename) ->
  del_dict filename key fs = (fs, Raise FileLockedError).
Proof.
  intros Hheld. unfold del_dict, with_LockFile, LockFile_enter.
  apply path_exists_true in Hheld. by rewrite Hheld.
Qed.

Section DeleteAndWrite.
Variable h5_convert : pyval -> bool -> result pyval.

(** Where the directory of the path exists, writing [None] under a key
    and deleting the key leave the same file system; they differ in the
    outcome when the key is missing, which only [del_dict] reports. *)
Theorem delete_by_none_agrees_with_del_dict (fs : gmap string fcontent)
    (filename key : string) (root : list (string * node)) :
  directory_known (dirname filename) fs ->
  directory_known (dirname (lock_filename filename)) fs ->
  makedirs (dirname filename) fs = Ok tt ->
  fs !! lock_filename filename = None ->
  lock_filename filename <> filename ->
  container filename fs = Some root ->
  (save_dict h5_convert filename [(key, VNone)] fs).1 = (del_dict filename key fs).1
  /\ (save_dict h5_convert filename [(key, VNone)] fs).2 = Ok tt
  /\ (del_dict filename key fs).2
     = if dict_mem key root then Ok tt else Raise KeyError.
Proof.
  intros _ _ Hdir Hfree Hne Hroot.
  rewrite (save_dict_run h5_convert filename _ fs root Hdir Hfree Hne Hroot).
  rewrite (del_dict_run filename key fs root Hfree Hne Hroot).
  cbn [for_items]. cbv beta zeta. rewrite popped_eq.
  destruct (dict_mem key root) eqn:E; simpl; [done|].
  apply dict_mem_false in E. by rewrite dict_del_fresh.
Qed.

Lemma dict_del_insert_sorted {A : Type} k (n : A) (g : list (string * A)) :
  k ∉ dict_keys g -> dict_del k (insert_sorted (k, n) g) = g.
Proof.
  induction g as [|[k0 n0] g IH]; simpl; intros Hk.
  - by rewrite eqb_refl_true.
  - apply not_elem_of_cons in Hk as [Hne Hk].
    destruct (String.leb k k0); simpl.
    + rewrite eqb_refl_true, (eqb_false_ne _ _ Hne). by rewrite dict_del_fresh.
    + rewrite (eqb_false_ne _ _ Hne). by rewrite (IH Hk).
Qed.

(** The run of a write of one value that is stored. *)
Lemma save_dict_single (fs : gmap string fcontent) (filename key : string)
    (value : pyval) (root : list (string * node)) (on : option node) :
  makedirs (dirname filename) fs = Ok tt ->
  fs !! lock_filename filename = None -> lock_filename filename <> filename ->
  container filename fs = Some root ->
  wf_val value -> value <> VNone -> stored h5_convert value = Ok on ->
  save_dict h5_convert filename [(key, value)] fs
    = (<[filename := H5File (add_link (dict_del key root) (key, on))]> fs, Ok tt).
Proof.
  intros Hdir Hfree Hne Hroot Hwf Hval Hon.
  rewrite (save_dict_run h5_convert filename _ fs root Hdir Hfree Hne Hroot). simpl.
  assert (Hdel : (if dict_mem key root then dict_del key root else root) = dict_del key root).
  { destruct (dict_mem key root) eqn:E; [done|].
    apply dict_mem_false in E. by rewrite dict_del_fresh. }
  rewrite Hdel.
  assert (Hk : key ∉ dict_keys (dict_del key root)).
  { apply dict_get_None. rewrite dict_get_del. by rewrite eqb_refl_true. }
  destruct value; try done;
    rewrite (save_sub_dict_stored h5_convert _ Hwf _ key on Hon Hk); done.
Qed.

(** Writing a value under a new key and then deleting that key gives
    back the file system as it was; in between, the keys of the container
    are the new key and the old ones. *)
Theorem write_then_delete_restores (fs : gmap string fcontent) (filename key : string)
    (value : pyval) (root : list (string * node)) (n : node) :
  makedirs (dirname filename) fs = Ok tt ->
  fs !! lock_filename filename = None ->
  fs !! filename = Some (H5File root) ->
  dict_get key root = None ->
  wf_val value -> value <> VNone -> stored h5_convert value = Ok (Some n) ->
  exists fs1,
    save_dict h5_convert filename [(key, value)] fs = (fs1, Ok tt)
    /\ (exists ks, keys_h5 filename fs1 = Ok ks
                   /\ forall k, k ∈ ks <-> k = key \/ k ∈ dict_keys root)
    /\ del_dict filename key fs1 = (fs, Ok tt).
Proof.
  intros Hdir Hfree Hfile Hk Hwf Hnn Hn.
  assert (Hne : lock_filename filename <> filename) by (intros E; congruence).
  assert (Hroot : container filename fs = Some root) by (unfold container; by rewrite Hfile).
  pose proof (save_dict_single fs filename key value root (Some n)
                Hdir Hfree Hne Hroot Hwf Hnn Hn) as Hsave.
  apply dict_get_None in Hk. rewrite (dict_del_fresh _ _ Hk) in Hsave.
  unfold add_link in Hsave. simpl in Hsave.
  eexists. split; [exact Hsave|]. split.
  { eexists. split; [unfold keys_h5, with_File_r; by rewrite lookup_insert_eq|].
    intros k. rewrite dict_keys_insert_sorted. apply elem_of_cons. }
  rewrite (del_dict_run filename key _ (insert_sorted (key, n) root)).
  - assert (Hm : dict_mem key (insert_sorted (key, n) root) = true).
    { apply dict_mem_true. rewrite dict_get_insert_sorted by done.
      rewrite eqb_refl_true. eauto. }
    rewrite Hm. rewrite dict_del_insert_sorted by done.
    rewrite insert_insert_eq. by rewrite insert_id.
  - by rewrite lookup_insert_ne.
  - done.
  - unfold container. by rewrite lookup_insert_eq.
Qed.
End DeleteAndWrite.

Lemma del_dict_removes_witness :
  del_dict sample_path "x" sample_fs
    = (<[sample_path := H5File (dict_del "x" sample_root)]> sample_fs, Ok tt)
  /\ (<[sample_path := H5File (dict_del "x" sample_root)]> sample_fs)
       !! lock_filename sample_path = None
  /\ keys_h5 sample_path (<[sample_path := H5File (dict_del "x" sample_root)]> sample_fs)
     = Ok (List.filter (fun k => negb (String.eqb k "x")) (dict_keys sample_root))
  /\ forall k, dict_get k (dict_del "x" sample_root)
               = if String.eqb k "x" then None else dict_get k sample_root.
Proof.
  apply (del_dict_removes sample_fs sample_path "x" sample_root
           (Dataset (VArray [3%nat] [VNpInt 1; VNpInt 2; VNpInt 3]) true)).
  - reflexivity.
  - reflexivity.
  - reflexivity.
Defined.

Lemma del_dict_missing_key_witness :
  del_dict sample_path "nothing" sibling_fs
    = (<[sample_path := H5File []]> sibling_fs, Raise KeyError)
  /\ (<[sample_path := H5File []]> sibling_fs) !! lock_filename sample_path = None
  /\ (sibling_fs !! sample_path = Some (H5File []) ->
      <[sample_path := H5File []]> sibling_fs = sibling_fs)
  /\ (sibling_fs !! sample_path = None ->
      @nil (string * node) = []
      /\ keys_h5 sample_path (<[sample_path := H5File []]> sibling_fs) = Ok []).
Proof.
  apply (del_dict_missing_key sibling_fs sample_path "nothing" []).
  - right. exists "tmp/other.h5". split; [by exists (H5File [])|reflexivity].
  - right. exists "tmp/other.h5". split; [by exists (H5File [])|reflexivity].
  - reflexivity.
  - exact sample_lock_distinct.
  - reflexivity.
  - reflexivity.
Defined.

Lemma del_dict_locked_witness :
  del_dict sample_path "x" (<[lock_filename sample_path := Sentinel]> sample_fs)
  = (<[lock_filename sample_path := Sentinel]> sample_fs, Raise FileLockedError).
Proof.
  apply (del_dict_locked (<[lock_filename sample_path := Sentinel]> sample_fs) sample_path "x").
  exists Sentinel. reflexivity.
Defined.

Lemma delete_by_none_agrees_with_del_dict_witness :
  (save_dict Ref.h5_convert sample_path [("x", VNone)] sample_fs).1
  = (del_dict sample_path "x" sample_fs).1
  /\ (save_dict Ref.h5_convert sample_path [("x", VNone)] sample_fs).2 = Ok tt
  /\ (del_dict sample_path "x" sample_fs).2
     = if dict_mem "x" sample_root then Ok tt else Raise KeyError.
Proof.
  apply (delete_by_none_agrees_with_del_dict Ref.h5_convert sample_fs sample_path "x"
           sample_root).
  - right. exists sample_path. split; [by exists (H5File sample_root)|reflexivity].
  - right. exists sample_path. split; [by exists (H5File sample_root)|reflexivity].
  - reflexivity.
  - reflexivity.
  - exact sample_lock_distinct.
  - reflexivity.
Defined.

Lemma write_then_delete_restores_witness :
  exists fs1,
    save_dict Ref.h5_convert sample_path [("new", VInt 5)] sample_fs = (fs1, Ok tt)
    /\ (exists ks, keys_h5 sample_path fs1 = Ok ks
                   /\ forall k, k ∈ ks <-> k = "new" \/ k ∈ dict_keys sample_root)
    /\ del_dict sample_path "new" fs1 = (sample_fs, Ok tt).
Proof.
  apply (write_then_delete_restores Ref.h5_convert sample_fs sample_path "new" (VInt 5)
           sample_root (Dataset (VNpInt 5) false)).
  - reflexivity.
  - reflexivity.
  - reflexivity.
  - reflexivity.
  - exact I.
  - discriminate.
  - reflexivity.
Defined.

(** ** Reading *)

Lemma no_bytes_dict d : no_bytes (VDict d) <-> Forall (fun kv => no_bytes (snd kv)) d.
Proof.
  simpl. induction d as [|kv d IH]; simpl.
  - split; [constructor|done].
  - rewrite IH. split.
    + intros [H1 H2]. by constructor.
    + intros H. inversion H. auto.
Qed.

Lemma decoded_no_bytes n :
  leaves_hold_no_mapping n = true -> no_bytes (decoded n).
Proof.
  induction n as [n IH] using node_group_ind. intros Hl.
  destruct n as [links|v gz].
  - simpl decoded. apply no_bytes_dict. apply Forall_forall. intros kv Hin.
    apply list_elem_of_In, in_map_iff in Hin as (kn & <- & Hin). simpl.
    apply list_elem_of_In in Hin. specialize (IH links eq_refl).
    rewrite Forall_forall in IH. apply IH; [done|].
    simpl in Hl. rewrite forallb_forall in Hl. apply Hl. by apply list_elem_of_In.
  - destruct v; simpl in *; done.
Qed.

(** An unfiltered read of a readable container returns one entry for
    each member of [keys_h5] and for nothing else, and no [bytes] object
    at any depth. *)
Theorem read_all_keys_and_text (fs : gmap string fcontent) (fullpath : string)
    (root : list (string * node)) :
  fs !! fullpath = Some (H5File root) ->
  wf_node (Group root) -> readable (Group root) = true ->
  leaves_hold_no_mapping (Group root) = true ->
  exists data,
    open_h5 fullpath None fs = Ok data
    /\ (exists ks, keys_h5 fullpath fs = Ok ks
                   /\ forall k, k ∈ ks <-> is_Some (dict_get k data))
    /\ NoDup (dict_keys data)
    /\ no_bytes (VDict data).
Proof.
  intros Hfile Hwf Hr Hl.
  pose proof (open_h5_value_decoded (Group root) Hwf Hr) as Hv.
  rewrite open_h5_value_group in Hv.
  destruct (open_h5_group root None) as [data|e] eqn:Ed; simpl in Hv; [|done].
  injection Hv as Hdata. exists data.
  assert (Hkeys : dict_keys data = dict_keys root).
  { rewrite Hdata. unfold dict_keys. rewrite map_map. done. }
  split; [unfold open_h5, with_File_r; by rewrite Hfile|]. split.
  { eexists. split; [unfold keys_h5, with_File_r; by rewrite Hfile|].
    intros k. rewrite <- Hkeys. split.
    - intros Hin. destruct (dict_get k data) eqn:E; [eauto|].
      by apply dict_get_None in E.
    - intros [v Hv]. destruct (decide (k ∈ dict_keys data)) as [|Hn]; [done|].
      apply dict_get_None in Hn. congruence. }
  split.
  { rewrite Hkeys. by apply wf_node_group in Hwf as [? _]. }
  pose proof (decoded_no_bytes (Group root) Hl) as Hnb. simpl decoded in Hnb.
  by rewrite <- Hdata in Hnb.
Qed.

Lemma fill_items_skipped {A B : Type} (keep : string -> bool) (body : A -> result B)
    (items : list (string * A)) data :
  (forall k, k ∈ dict_keys items -> keep k = false) ->
  fill_items keep body items data = Ok data.
Proof.
  induction items as [|[k v] items IH]; intros Hskip; simpl; [done|].
  rewrite (Hskip k) by (simpl; left). apply IH. intros k' Hk'. apply Hskip. by right.
Qed.

(** A filter that names no key of the container gives the empty
    mapping, not an error: nothing is read, whatever the container
    holds. *)
Theorem read_unknown_key_is_empty (fs : gmap string fcontent) (fullpath : string)
    (root : list (string * node)) (key : key_arg) :
  fs !! fullpath = Some (H5File root) ->
  (forall k, k ∈ dict_keys root -> key_selects (Some key) k = false) ->
  open_h5 fullpath (Some key) fs = Ok [].
Proof.
  intros Hfile Hskip. unfold open_h5, with_File_r. rewrite Hfile.
  unfold open_h5_group. by apply fill_items_skipped.
Qed.

Lemma open_h5_value_raises n e : open_h5_value n = Raise e -> e = UnicodeDecodeError.
Proof.
  induction n as [n IH] using node_group_ind.
  destruct n as [links|v gz].
  - specialize (IH links eq_refl). simpl.
    generalize (@nil (string * pyval)).
    induction links as [|[k c] links IHl]; intros acc; cbn [fill_items]; [done|].
    inversion IH as [|? ? Hc Hrest]; subst. cbn [key_selects].
    destruct (open_h5_value c) as [x|e'] eqn:Ec; simpl.
    + apply IHl. exact Hrest.
    + intros [= <-]. by apply Hc.
  - destruct v; simpl; try done. unfold Text.decode.
    destruct (Text.utf8_valid s); simpl; [done|]. by intros [= <-].
Qed.

Lemma fill_items_raises {A B : Type} (keep : string -> bool) (body : A -> result B)
    (items : list (string * A)) data k v e0 :
  (k, v) ∈ items -> keep k = true -> body v = Raise e0 ->
  exists e, fill_items keep body items data = Raise e
            /\ exists k' v', (k', v') ∈ items /\ body v' = Raise e.
Proof.
  revert data. induction items as [|[k1 v1] items IH]; intros data Hin Hkeep Hbody.
  - by apply elem_of_nil in Hin.
  - cbn [fill_items]. apply elem_of_cons in Hin as [[= <- <-]|Hin].
    + rewrite Hkeep, Hbody. simpl. exists e0. split; [done|]. exists k, v. split; [left|done].
    + destruct (keep k1); [destruct (body v1) as [x|e1] eqn:E1; simpl|].
      * destruct (IH (dict_set k1 x data) Hin Hkeep Hbody) as (e & He & k' & v' & Hin' & Hb').
        exists e. split; [done|]. exists k', v'. split; [by right|done].
      * exists e1. split; [done|]. exists k1, v1. split; [left|done].
      * destruct (IH data Hin Hkeep Hbody) as (e & He & k' & v' & Hin' & Hb').
        exists e. split; [done|]. exists k', v'. split; [by right|done].
Qed.

(** A selected byte-string leaf that is not valid UTF-8 makes the whole
    read raise [UnicodeDecodeError]. *)
Theorem read_invalid_text_raises (fs : gmap string fcontent) (fullpath : string)
    (root : list (string * node)) (key : option key_arg) (k b : string) (gz : bool) :
  fs !! fullpath = Some (H5File root) ->
  (k, Dataset (VBytes b) gz) ∈ root -> key_selects key k = true ->
  Text.utf8_valid b = false ->
  open_h5 fullpath key fs = Raise UnicodeDecodeError.
Proof.
  intros Hfile Hin Hsel Hb. unfold open_h5, with_File_r. rewrite Hfile.
  unfold open_h5_group.
  destruct (fill_items_raises (key_selects key) open_h5_value root [] k
              (Dataset (VBytes b) gz) UnicodeDecodeError Hin Hsel)
    as (e & He & k' & v' & _ & Hv').
  { simpl. unfold Text.decode. by rewrite Hb. }
  rewrite He. f_equal. by apply (open_h5_value_raises v').
Qed.

Lemma read_all_keys_and_text_witness :
  exists data,
    open_h5 sample_path None sample_fs = Ok data
    /\ (exists ks, keys_h5 sample_path sample_fs = Ok ks
                   /\ forall k, k ∈ ks <-> is_Some (dict_get k data))
    /\ NoDup (dict_keys data)
    /\ no_bytes (VDict data).
Proof.
  apply (read_all_keys_and_text sample_fs sample_path sample_root).
  - reflexivity.
  - exact sample_root_wf.
  - reflexivity.
  - reflexivity.
Defined.

Lemma read_unknown_key_is_empty_witness :
  open_h5 sample_path (Some (KeySet ["a"; "b"])) sample_fs = Ok [].
Proof.
  apply (read_unknown_key_is_empty sample_fs sample_path sample_root (KeySet ["a"; "b"])).
  - reflexivity.
  - intros k Hk. simpl in Hk.
    repeat (apply elem_of_cons in Hk as [->|Hk]; [reflexivity|]).
    by apply elem_of_nil in Hk.
Defined.

Lemma read_invalid_text_raises_witness :
  open_h5 sample_path None broken_fs = Raise UnicodeDecodeError
  /\ open_h5 sample_path (Some (KeyStr "good")) broken_fs = Ok [("good", VNpInt 1)].
Proof.
  split; [|reflexivity].
  apply (read_invalid_text_raises broken_fs sample_path broken_root None "bad"
           (String (Text.chr 255) "") false).
  - reflexivity.
  - left.
  - reflexivity.
  - reflexivity.
Defined.

(** ** The normalizer *)

Section Normalizer.
Variable np_array : list pyval -> result (list nat * list pyval).

Abbreviation transform := (transform_to_possible_formats np_array).

Lemma transform_eq data :
  transform data =
  if should_not_be_converted data then Ok data
  else
    match via_asarray (via_asdict data) with
    | VDict d => VDict <$> update_values transform d
    | VTuple l | VSet l | VList l => a ← np_array l; Ok (VArray (fst a) (snd a))
    | data' => Ok data'
    end.
Proof. destruct data; reflexivity. Qed.

Lemma normal_dict d : normal (VDict d) <-> Forall (fun kv => normal (snd kv)) d.
Proof.
  simpl. induction d as [|kv d IH]; simpl.
  - split; [constructor|done].
  - rewrite IH. split.
    + intros [H1 H2]. by constructor.
    + intros H. inversion H. auto.
Qed.

Lemma opaque_is_object data :
  should_not_be_converted data = true -> exists n m a b, data = VObj n m a b.
Proof. destruct data; try done. eauto. Qed.

(** What the normalizer returns holds no list, tuple or set, at the top
    or at any key of a mapping: sequences have become arrays. *)
Theorem transform_gives_normal (data r : pyval) :
  transform data = Ok r -> normal r.
Proof.
  revert r. induction data as [data IH] using pyval_resolve_ind. intros r.
  rewrite transform_eq. destruct (should_not_be_converted data) eqn:Eo.
  - intros [= <-]. by destruct (opaque_is_object data Eo) as (n & m & a & b & ->).
  - destruct (via_asarray (via_asdict data)) as [| | | | | | | | | | | | d |] eqn:Ev;
      try (by intros [= <-]);
      try (destruct (np_array l); simpl; [by intros [= <-]|done]).
    destruct (update_values transform d) as [d'|e] eqn:Ed; simpl; [|done].
    intros [= <-]. apply normal_dict. specialize (IH d eq_refl).
    apply update_values_Forall2 in Ed. clear Ev.
    induction Ed as [|kv kx d d' [_ Hb] _ IHd]; [constructor|].
    inversion IH; subst. constructor; [eauto|auto].
Qed.

(** A mapping stays a mapping with the same keys in the same order, and
    each value is normalized on its own; a value that declares itself
    opaque is found unchanged under its key. *)
Theorem transform_mapping (d : list (string * pyval)) (r : pyval) :
  transform (VDict d) = Ok r ->
  exists d', r = VDict d'
    /\ dict_keys d' = dict_keys d
    /\ (forall k v, dict_get k d = Some v ->
          exists v', transform v = Ok v' /\ dict_get k d' = Some v')
    /\ (forall k v, dict_get k d = Some v -> should_not_be_converted v = true ->
          dict_get k d' = Some v).
Proof.
  rewrite transform_eq. simpl.
  destruct (update_values transform d) as [d'|e] eqn:Ed; simpl; [|done].
  intros [= <-]. exists d'. split; [done|]. split; [by apply update_values_keys in Ed|].
  assert (Hget : forall k v, dict_get k d = Some v ->
            exists v', transform v = Ok v' /\ dict_get k d' = Some v').
  { intros k v Hk. pose proof (update_values_get _ _ _ k Ed) as H. by rewrite Hk in H. }
  split; [exact Hget|].
  intros k v Hk Ho. destruct (Hget k v Hk) as (v' & Hv' & ->).
  rewrite transform_eq, Ho in Hv'. by injection Hv' as <-.
Qed.

Lemma settled_elem d kv : settled (VDict d) = true -> kv ∈ d -> settled (snd kv) = true.
Proof.
  simpl. rewrite forallb_forall. intros H Hin. apply H. by apply list_elem_of_In.
Qed.

Lemma settled_via v :
  settled v = true -> should_not_be_converted v = false -> via_asarray (via_asdict v) = v.
Proof.
  destruct v as [| | | | | | | | | | | | |n m [a|] [b|]]; simpl; try done;
    intros H1 H2; congruence.
Qed.

(** Normalizing is idempotent on values whose instances of other
    classes are opaque or without capability: what the normalizer
    returned is returned again unchanged. *)
Theorem transform_idempotent (data r : pyval) :
  settled data = true -> transform data = Ok r -> transform r = Ok r.
Proof.
  revert r. induction data as [data IH] using pyval_dict_ind. intros r Hs.
  rewrite (transform_eq data). destruct (should_not_be_converted data) eqn:Eo.
  - intros [= <-]. rewrite transform_eq. by rewrite Eo.
  - rewrite (settled_via data Hs Eo).
    destruct data as [| | | | | | | | | | | | d |];
      try (by intros [= <-]);
      try (destruct (np_array l); simpl; [by intros [= <-]|done]).
    + destruct (update_values transform d) as [d'|e] eqn:Ed; simpl; [|done].
      intros [= <-]. rewrite transform_eq. simpl.
      assert (Hfix : update_values transform d' = Ok d'); [|by rewrite Hfix].
      specialize (IH d eq_refl).
      assert (Hsd : Forall (fun kv => settled (snd kv) = true) d).
      { apply Forall_forall. intros kv Hin. by apply (settled_elem d). }
      apply update_values_Forall2 in Ed. apply update_values_Forall2.
      clear Hs Eo. induction Ed as [|[k v] [k' v'] d d' [Hk Hb] _ IHd]; [constructor|].
      inversion IH; subst. inversion Hsd; subst. simpl in *.
      constructor; [|auto]. split; [done|]. simpl. eauto.
    + intros [= <-]. rewrite transform_eq, Eo. by rewrite (settled_via _ Hs Eo).
Qed.
End Normalizer.

Lemma transform_gives_normal_witness :
  transform_to_possible_formats Ref.np_array
    (VDict [("a", VTuple [VInt 1; VInt 2]); ("b", VDict [("c", VList [])])])
  = Ok (VDict [("a", VArray [2%nat] [VNpInt 1; VNpInt 2]);
               ("b", VDict [("c", VArray [0%nat] [])])])
  /\ normal (VDict [("a", VArray [2%nat] [VNpInt 1; VNpInt 2]);
                   ("b", VDict [("c", VArray [0%nat] [])])]).
Proof.
  split; [reflexivity|].
  apply (transform_gives_normal Ref.np_array
           (VDict [("a", VTuple [VInt 1; VInt 2]); ("b", VDict [("c", VList [])])])).
  reflexivity.
Defined.

Lemma transform_mapping_witness :
  exists d',
    VDict [("p", opaque_point); ("l", VArray [1%nat] [VNpInt 1])] = VDict d'
    /\ dict_keys d' = dict_keys [("p", opaque_point); ("l", VList [VInt 1])]
    /\ (forall k v, dict_get k [("p", opaque_point); ("l", VList [VInt 1])] = Some v ->
          exists v', transform_to_possible_formats Ref.np_array v = Ok v'
                     /\ dict_get k d' = Some v')
    /\ (forall k v, dict_get k [("p", opaque_point); ("l", VList [VInt 1])] = Some v ->
          should_not_be_converted v = true -> dict_get k d' = Some v).
Proof.
  apply (transform_mapping Ref.np_array [("p", opaque_point); ("l", VList [VInt 1])]).
  reflexivity.
Defined.

Lemma transform_idempotent_witness :
  transform_to_possible_formats Ref.np_array
    (VDict [("a", VArray [1%nat] [VNpInt 1]); ("p", opaque_point)])
  = Ok (VDict [("a", VArray [1%nat] [VNpInt 1]); ("p", opaque_point)]).
Proof.
  apply (transform_idempotent Ref.np_array
           (VDict [("a", VList [VInt 1]); ("p", opaque_point)])).
  - reflexivity.
  - reflexivity.
Defined.

(** ** Bounds of a summary *)

Section FillFacts.
Context {A B : Type}.

Lemma dict_set_Forall (P : B -> Prop) k x (d : list (string * B)) :
  P x -> Forall (fun kv => P (snd kv)) d -> Forall (fun kv => P (snd kv)) (dict_set k x d).
Proof.
  intros Hx. induction 1 as [|[k' v'] d Hv Hd IH]; simpl.
  - by constructor.
  - destruct (String.eqb k k'); constructor; simpl; auto.
Qed.

Lemma dict_set_length k (x : B) (d : list (string * B)) :
  (length d <= length (dict_set k x d))%nat /\ (0 < length (dict_set k x d))%nat.
Proof.
  induction d as [|[k' v'] d IH]; simpl; [lia|].
  destruct (String.eqb k k'); simpl; lia.
Qed.

(** Every value of the mapping a loop fills was returned by its body. *)
Lemma fill_items_Forall (P : B -> Prop) keep (body : A -> result B) items data s :
  Forall (fun kv => forall x, body (snd kv) = Ok x -> P x) items ->
  Forall (fun kv => P (snd kv)) data ->
  fill_items keep body items data = Ok s ->
  Forall (fun kv => P (snd kv)) s.
Proof.
  intros Hitems. revert data.
  induction Hitems as [|[k v] items Hv _ IH]; intros data Hdata; simpl.
  - by intros [= <-].
  - destruct (keep k); [|by apply IH].
    destruct (body v) as [x|e] eqn:Ev; simpl; [|done].
    apply IH. apply dict_set_Forall; auto.
Qed.

Lemma fill_items_length keep (body : A -> result B) items data s :
  fill_items keep body items data = Ok s -> (length data <= length s)%nat.
Proof.
  revert data. induction items as [|[k v] items IH]; intros data; simpl.
  - by intros [= <-].
  - destruct (keep k); [|by apply IH].
    destruct (body v) as [x|e]; simpl; [|done].
    intros H. apply IH in H. pose proof (dict_set_length k x data). lia.
Qed.

Lemma fill_items_nonempty (body : A -> result B) kv items s :
  fill_items (fun _ => true) body (kv :: items) [] = Ok s -> (0 < length s)%nat.
Proof.
  destruct kv as [k v]. simpl. destruct (body v) as [x|e]; simpl; [|done].
  intros H. apply fill_items_length in H. simpl in H. lia.
Qed.

(** A loop that returns has run its body on every kept item. *)
Lemma fill_items_Ok_all keep (body : A -> result B) items data s kv :
  fill_items keep body items data = Ok s -> kv ∈ items -> keep (fst kv) = true ->
  exists x, body (snd kv) = Ok x.
Proof.
  revert data. induction items as [|[k v] items IH]; intros data Hs Hin Hkeep.
  - by apply elem_of_nil in Hin.
  - simpl in Hs. apply elem_of_cons in Hin as [->|Hin].
    + simpl in Hkeep. rewrite Hkeep in Hs. simpl.
      destruct (body v) as [x|e]; [eauto|done].
    + destruct (keep k); [|by eapply IH].
      destruct (body v) as [x|e]; simpl in Hs; [|done]. by eapply IH.
Qed.
End FillFacts.

Section SummaryBounds.
Variable np_array : list pyval -> result (list nat * list pyval).

Lemma summary_depth_nonneg s : 0 <= summary_depth s.
Proof.
  destruct s as [t|d]; simpl; [lia|].
  assert (0 <= fold_right (fun kv m => Z.max (summary_depth (snd kv)) m) 0 d); [|lia].
  induction d as [|kv d IH]; simpl; lia.
Qed.

Lemma summary_depth_dict d m :
  0 <= m -> Forall (fun kv => summary_depth (snd kv) <= m) d ->
  summary_depth (SDict d) <= 1 + m.
Proof.
  intros Hm H. simpl.
  assert (fold_right (fun kv m => Z.max (summary_depth (snd kv)) m) 0 d <= m); [|lia].
  induction H as [|kv d Hkv _ IH]; simpl; lia.
Qed.

Lemma compact_dict d :
  compact (SDict d) <-> (0 < length d <= 5)%nat /\ Forall (fun kv => compact (snd kv)) d.
Proof.
  simpl. assert (H : fold_right (fun kv P => compact (snd kv) /\ P) True d
                     <-> Forall (fun kv => compact (snd kv)) d).
  { induction d as [|kv d IH]; simpl.
    - split; [constructor|done].
    - rewrite IH. split.
      + intros [H1 H2]. by constructor.
      + intros H. inversion H. auto. }
  by rewrite H.
Qed.

Lemma describe_bounds v :
  forall level x,
    describe np_array v level = Ok x ->
    compact x /\ (0 <= level -> summary_depth x <= level).
Proof.
  induction v as [v IH] using pyval_dict_ind. intros level x.
  destruct v as [| | | | | | | | | | | | d |];
    try (simpl; intros [= <-]; simpl; split; [done|lia]);
    try (simpl; unfold Fmt.int_0f;
         destruct (Fmt.int_to_float _); simpl; [|done]; intros [= <-];
         simpl; split; [done|lia]);
    try (simpl; destruct (np_array l); simpl; [|done]; intros [= <-];
         simpl; split; [done|lia]).
  rewrite describe_dict. destruct (level =? 0) eqn:El.
  { intros [= <-]. simpl. split; [done|lia]. }
  apply Z.eqb_neq in El.
  destruct d as [|kv d].
  { simpl. intros [= <-]. simpl. split; [done|lia]. }
  destruct (get_dict_structure np_array (kv :: d) (level - 1)) as [s|e] eqn:Es; simpl; [|done].
  destruct (5 <? Z.of_nat (length s)) eqn:E5; intros [= <-].
  { simpl. split; [done|lia]. }
  apply Z.ltb_ge in E5. specialize (IH _ eq_refl).
  pose proof (fill_items_nonempty _ _ _ _ Es) as Hpos.
  assert (Hall : Forall (fun kx => compact (snd kx)
                           /\ (0 <= level - 1 -> summary_depth (snd kx) <= level - 1)) s).
  { unfold get_dict_structure in Es.
    eapply (fill_items_Forall
              (fun x => compact x /\ (0 <= level - 1 -> summary_depth x <= level - 1)));
      [|constructor|exact Es].
    eapply Forall_impl; [exact IH|]. intros kv' H x. apply H. }
  split.
  + apply compact_dict. split; [lia|]. eapply Forall_impl; [exact Hall|]. by intros ? [? _].
  + intros Hl. assert (Hd : summary_depth (SDict s) <= 1 + (level - 1)); [|lia].
    apply summary_depth_dict; [lia|].
    eapply Forall_impl; [exact Hall|]. intros ? [_ H]. apply H. lia.
Qed.

(** The depth argument bounds the nesting of every description, and the
    collapse threshold bounds its width: under each key of a summary made
    with a depth [level >= 0] the description nests at most [level]
    mappings, and every mapping in it has between one and five entries. *)
Theorem summary_is_bounded (data : list (string * pyval)) (level : Z)
    (s : list (string * summary)) (k : string) (x : summary) :
  get_dict_structure np_array data level = Ok s ->
  dict_get k s = Some x ->
  compact x /\ (0 <= level -> summary_depth x <= level).
Proof.
  intros Hs Hk. unfold get_dict_structure in Hs.
  assert (Hall : Forall (fun kx => compact (snd kx)
                           /\ (0 <= level -> summary_depth (snd kx) <= level)) s).
  { eapply (fill_items_Forall
              (fun x => compact x /\ (0 <= level -> summary_depth x <= level)));
      [|constructor|exact Hs].
    apply Forall_forall. intros kv _ y. apply describe_bounds. }
  apply dict_get_Some_elem in Hk. rewrite Forall_forall in Hall. apply (Hall _ Hk).
Qed.

(** A nested mapping with one to five keys, met at a depth other than
    0, is kept: it is described by the summary of its own entries, made
    with the depth reduced by one, under the same keys. *)
Theorem summarize_small_mapping_kept (data : list (string * pyval)) (k : string)
    (sub : list (string * pyval)) (level : Z) :
  wf_val (VDict data) -> describable np_array (VDict data) = true ->
  dict_get k data = Some (VDict sub) ->
  (0 < length sub <= 5)%nat -> level <> 0 ->
  exists s s',
    get_dict_structure np_array data level = Ok s
    /\ get_dict_structure np_array sub (level - 1) = Ok s'
    /\ dict_get k s = Some (SDict s')
    /\ dict_keys s' = dict_keys sub.
Proof.
  intros Hwf Hd Hk Hlen Hlevel. pose proof (wf_val_keys _ Hwf) as Hok.
  destruct (get_dict_structure_total np_array data level Hwf Hd) as [s Hs].
  destruct (get_dict_structure_at _ _ _ _ _ _ Hok Hs Hk) as (x & Hx & Hkx).
  assert (Hin : (k, VDict sub) ∈ data) by (by apply dict_get_Some_elem).
  pose proof (wf_val_elem data _ Hwf Hin) as Hwfs.
  pose proof (describable_elem np_array data _ Hd Hin) as Hds.
  destruct (get_dict_structure_total np_array sub (level - 1) Hwfs Hds) as [s' Hs'].
  exists s, s'. split; [done|]. split; [done|].
  pose proof (get_dict_structure_keys np_array sub _ _ (wf_val_keys _ Hwfs) Hs') as Hkeys.
  split; [|done]. rewrite Hkx. f_equal.
  rewrite describe_dict in Hx. apply Z.eqb_neq in Hlevel. rewrite Hlevel in Hx.
  destruct sub as [|kv sub]; [simpl in Hlen; lia|].
  rewrite Hs' in Hx. simpl in Hx.
  assert (Hl : length s' = length (kv :: sub)) by (by rewrite <- !dict_keys_length, Hkeys).
  assert (H5 : (5 <? Z.of_nat (length s')) = false) by (apply Z.ltb_ge; lia).
  rewrite H5 in Hx. by injection Hx as <-.
Qed.
End SummaryBounds.

Lemma summary_is_bounded_witness :
  get_dict_structure Ref.np_array
    [("a", VDict [("b", VDict [("c", VDict [("d", VInt 1)])])])] 2
  = Ok [("a", SDict [("b", SDict [("c", SStr "variable of type dict")])])]
  /\ compact (SDict [("b", SDict [("c", SStr "variable of type dict")])])
  /\ (0 <= 2 ->
      summary_depth (SDict [("b", SDict [("c", SStr "variable of type dict")])]) <= 2).
Proof.
  split; [reflexivity|].
  apply (summary_is_bounded Ref.np_array
           [("a", VDict [("b", VDict [("c", VDict [("d", VInt 1)])])])] 2
           [("a", SDict [("b", SDict [("c", SStr "variable of type dict")])])] "a").
  - reflexivity.
  - reflexivity.
Defined.

Lemma summarize_small_mapping_kept_witness :
  exists s s',
    get_dict_structure Ref.np_array summary_data default_level = Ok s
    /\ get_dict_structure Ref.np_array [("u", VInt 7)] (default_level - 1) = Ok s'
    /\ dict_get "k5" s = Some (SDict s')
    /\ dict_keys s' = dict_keys [("u", VInt 7)].
Proof.
  apply (summarize_small_mapping_kept Ref.np_array summary_data "k5" [("u", VInt 7)]
           default_level).
  - exact summary_data_wf.
  - reflexivity.
  - reflexivity.
  - simpl. lia.
  - discriminate.
Defined.

(** ** Integers in a summary *)

Lemma pow2_53_lt_1024 : 2 ^ 53 < 2 ^ 1024.
Proof. apply Z.pow_lt_mono_r; lia. Qed.

Lemma int_to_float_exact z : Z.abs z <= 2 ^ 53 -> Fmt.int_to_float z = Ok z.
Proof.
  intros Ha. pose proof pow2_53_lt_1024 as Hbig. unfold Fmt.int_to_float.
  assert (Hv : (if Z.log2 (Z.abs z) - 52 <=? 0 then Z.abs z
                else Fmt.round_half_even (Z.abs z) (2 ^ (Z.log2 (Z.abs z) - 52))
                     * 2 ^ (Z.log2 (Z.abs z) - 52)) = Z.abs z).
  { destruct (Z.eq_dec (Z.abs z) (2 ^ 53)) as [E|E].
    - rewrite E. vm_compute. reflexivity.
    - destruct (Z.eq_dec (Z.abs z) 0) as [E0|E0].
      + rewrite E0. reflexivity.
      + assert (Hl : Z.log2 (Z.abs z) < 53) by (apply Z.log2_lt_pow2; lia).
        assert (Hs : (Z.log2 (Z.abs z) - 52 <=? 0) = true) by (apply Z.leb_le; lia).
        by rewrite Hs. }
  rewrite Hv.
  assert (Hc : (2 ^ 1024 <=? Z.abs z) = false) by (apply Z.leb_gt; lia).
  rewrite Hc. f_equal. lia.
Qed.

Lemma round_half_even_ge num den : num / den <= Fmt.round_half_even num den.
Proof. unfold Fmt.round_half_even. destruct (_ || _); lia. Qed.

Lemma int_to_float_overflow z : 2 ^ 1024 <= Z.abs z -> Fmt.int_to_float z = Raise OverflowError.
Proof.
  intros Ha. unfold Fmt.int_to_float.
  set (a := Z.abs z) in *. set (L := Z.log2 a).
  assert (H1024 : 0 < 2 ^ 1024) by (apply Z.pow_pos_nonneg; lia).
  assert (Hpos : 0 < a) by lia.
  assert (HL : 1024 <= L).
  { unfold L. rewrite <- (Z.log2_pow2 1024) by lia. by apply Z.log2_le_mono. }
  pose proof (Z.log2_spec a Hpos) as [Hlo _]. fold L in Hlo.
  assert (Hs : (L - 52 <=? 0) = false) by (apply Z.leb_gt; lia).
  rewrite Hs.
  assert (Hden : 0 < 2 ^ (L - 52)) by (apply Z.pow_pos_nonneg; lia).
  assert (Hsplit : 2 ^ L = 2 ^ 52 * 2 ^ (L - 52)).
  { rewrite <- Z.pow_add_r by lia. f_equal. lia. }
  assert (Hq : 2 ^ 52 <= a / 2 ^ (L - 52)).
  { apply Z.div_le_lower_bound; [done|]. rewrite Z.mul_comm. lia. }
  pose proof (round_half_even_ge a (2 ^ (L - 52))) as Hr.
  assert (Hv : 2 ^ 1024 <= Fmt.round_half_even a (2 ^ (L - 52)) * 2 ^ (L - 52)).
  { assert (2 ^ L <= Fmt.round_half_even a (2 ^ (L - 52)) * 2 ^ (L - 52)).
    { rewrite Hsplit. apply Z.mul_le_mono_nonneg_r; lia. }
    assert (2 ^ 1024 <= 2 ^ L) by (apply Z.pow_le_mono_r; lia). lia. }
  apply Z.leb_le in Hv. by rewrite Hv.
Qed.

Section IntegerSummary.
Variable np_array : list pyval -> result (list nat * list pyval).

(** An integer of magnitude at most 2^53 is described by its exact
    decimal digits, followed by its type. *)
Theorem summarize_int_exact (data : list (string * pyval)) (k : string) (z : Z)
    (level : Z) :
  wf_val (VDict data) -> describable np_array (VDict data) = true ->
  dict_get k data = Some (VInt z) -> Z.abs z <= 2 ^ 53 ->
  exists s, get_dict_structure np_array data level = Ok s
    /\ dict_get k s = Some (SStr (Text.show_Z z +:+ " (type : int)")).
Proof.
  intros Hwf Hd Hk Hz. pose proof (wf_val_keys _ Hwf) as Hok.
  destruct (get_dict_structure_total np_array data level Hwf Hd) as [s Hs].
  exists s. split; [done|].
  destruct (get_dict_structure_at _ _ _ _ _ _ Hok Hs Hk) as (x & Hx & ->).
  cbn [describe] in Hx. unfold Fmt.int_0f in Hx.
  rewrite (int_to_float_exact z Hz) in Hx. simpl in Hx. by injection Hx as <-.
Qed.

(** An integer of magnitude 2^1024 or more cannot be converted to a
    float: its description raises [OverflowError], and no summary is
    returned for a mapping that holds it. *)
Theorem summarize_huge_int_fails (data : list (string * pyval)) (k : string) (z : Z)
    (level : Z) :
  (k, VInt z) ∈ data -> 2 ^ 1024 <= Z.abs z ->
  describe np_array (VInt z) level = Raise OverflowError
  /\ exists e, get_dict_structure np_array data level = Raise e.
Proof.
  intros Hin Hz.
  assert (Hd : describe np_array (VInt z) level = Raise OverflowError).
  { cbn [describe]. unfold Fmt.int_0f. by rewrite (int_to_float_overflow z Hz). }
  split; [done|].
  destruct (get_dict_structure np_array data level) as [s|e] eqn:Es; [|eauto].
  unfold get_dict_structure in Es.
  destruct (fill_items_Ok_all _ _ _ _ _ _ Es Hin eq_refl) as [x Hx].
  cbn [snd] in Hx. rewrite Hd in Hx. discriminate Hx.
Qed.
End IntegerSummary.

Lemma summarize_int_exact_witness :
  exists s, get_dict_structure Ref.np_array [("n", VInt (-9007199254740992))] default_level = Ok s
    /\ dict_get "n" s
       = Some (SStr (Text.show_Z (-9007199254740992) +:+ " (type : int)")).
Proof.
  apply (summarize_int_exact Ref.np_array [("n", VInt (-9007199254740992))] "n"
           (-9007199254740992) default_level).
  - simpl. repeat split; distinct_keys.
  - reflexivity.
  - reflexivity.
  - vm_compute. discriminate.
Defined.

Lemma summarize_huge_int_fails_witness :
  describe Ref.np_array (VInt (2 ^ 1024)) default_level = Raise OverflowError
  /\ exists e, get_dict_structure Ref.np_array
                 [("a", VInt 1); ("n", VInt (2 ^ 1024))] default_level = Raise e.
Proof.
  apply (summarize_huge_int_fails Ref.np_array [("a", VInt 1); ("n", VInt (2 ^ 1024))]
           "n" (2 ^ 1024) default_level).
  - right. left.
  - vm_compute. discriminate.
Defined.

(** ** Annotations that match nothing *)

Lemma occurs_cons old a s : occurs old s -> occurs old (String a s).
Proof. intros (pre & post & ->). exists (String a pre), post. reflexivity. Qed.

Lemma startswith_occurs old s : Text.startswith old s = true -> occurs old s.
Proof. intros H. destruct (startswith_app _ _ H) as [rest ->]. by exists "", rest. Qed.

Lemma replace_go_absent old new s :
  ~ occurs old s -> Text.replace_go old new 0 s = s.
Proof.
  induction s as [|a s IH]; intros Hno; [done|].
  cbn [Text.replace_go]. destruct (Text.startswith old (String a s)) eqn:E.
  - exfalso. by apply Hno, startswith_occurs.
  - f_equal. apply IH. intros Ho. by apply Hno, occurs_cons.
Qed.

Section AbsentAnnotation.
Variable np_array : list pyval -> result (list nat * list pyval).

(** An annotation whose quoted key followed by a colon occurs nowhere
    in the rendered text changes nothing: the rendering is the one
    obtained without annotations. *)
Theorem render_unmatched_annotation (data : list (string * pyval))
    (structure : list (string * summary)) (key value : string) :
  get_dict_structure np_array data default_level = Ok structure ->
  ~ occurs (Json.quote +:+ key +:+ Json.quote +:+ ":") (dict_to_json_format_str structure) ->
  output_dict_structure np_array data (Some [(key, value)])
  = output_dict_structure np_array data None
  /\ output_dict_structure np_array data None = Ok (dict_to_json_format_str structure).
Proof.
  intros Hs Hno. unfold output_dict_structure. rewrite Hs. simpl. split; [|done].
  f_equal. unfold Text.replace.
  change (Json.quote +:+ key +:+ Json.quote +:+ ":")
    with (String (Text.chr 34) (key +:+ Json.quote +:+ ":")) in *.
  by apply replace_go_absent.
Qed.
End AbsentAnnotation.

Lemma occursb_complete old s : occurs old s -> occursb old s = true.
Proof.
  intros (pre & post & ->). induction pre as [|a pre IH].
  - change ("" +:+ old +:+ post) with (old +:+ post).
    assert (H : Text.startswith old (old +:+ post) = true).
    { clear. induction old as [|b old IH]; [done|].
      rewrite app_cons. simpl. by rewrite Ascii.eqb_refl. }
    destruct (old +:+ post); simpl; by rewrite H.
  - rewrite app_cons. cbn [occursb]. rewrite IH. apply orb_true_r.
Qed.

Lemma render_unmatched_annotation_witness :
  output_dict_structure Ref.np_array [("a", VInt 1)] (Some [("b", " # note")])
  = output_dict_structure Ref.np_array [("a", VInt 1)] None
  /\ output_dict_structure Ref.np_array [("a", VInt 1)] None
     = Ok (dict_to_json_format_str [("a", SStr "1 (type : int)")]).
Proof.
  apply (render_unmatched_annotation Ref.np_array [("a", VInt 1)]
           [("a", SStr "1 (type : int)")] "b" " # note").
  - reflexivity.
  - intros H. apply occursb_complete in H. vm_compute in H. discriminate H.
Defined.

(** ** Name order *)

Lemma ascii_compare_N a b : Ascii.compare a b = N.compare (N_of_ascii a) (N_of_ascii b).
Proof. reflexivity. Qed.

Lemma string_compare_cons a s b t :
  String.compare (String a s) (String b t)
  = match N.compare (N_of_ascii a) (N_of_ascii b) with
    | Eq => String.compare s t
    | ne => ne
    end.
Proof. reflexivity. Qed.

Lemma string_compare_le_trans s1 :
  forall s2 s3,
    String.compare s1 s2 <> Gt -> String.compare s2 s3 <> Gt -> String.compare s1 s3 <> Gt.
Proof.
  induction s1 as [|a s1 IH]; intros [|b s2] [|c s3]; try done.
  rewrite !string_compare_cons.
  destruct (N.compare_spec (N_of_ascii a) (N_of_ascii b)) as [Hab|Hab|Hab];
    destruct (N.compare_spec (N_of_ascii b) (N_of_ascii c)) as [Hbc|Hbc|Hbc];
    destruct (N.compare_spec (N_of_ascii a) (N_of_ascii c)) as [Hac|Hac|Hac];
    try done; try lia.
  apply IH.
Qed.

Lemma leb_trans s1 s2 s3 :
  String.leb s1 s2 = true -> String.leb s2 s3 = true -> String.leb s1 s3 = true.
Proof.
  unfold String.leb. intros H1 H2.
  pose proof (string_compare_le_trans s1 s2 s3) as H.
  destruct (String.compare s1 s2), (String.compare s2 s3), (String.compare s1 s3);
    try done; exfalso; by apply H.
Qed.

Lemma leb_false_flip s1 s2 : String.leb s1 s2 = false -> String.leb s2 s1 = true.
Proof. intros H. destruct (String.leb_total s1 s2) as [H'|H']; congruence. Qed.

Section OrderFacts.
Context {A : Type}.
Implicit Types (g : list (string * A)) (k : string).

Lemma name_sorted_insert k (n : A) g :
  name_sorted (dict_keys g) -> name_sorted (dict_keys (insert_sorted (k, n) g)).
Proof.
  induction g as [|[k0 n0] g IH]; simpl; intros Hs.
  - split; [constructor|done].
  - destruct Hs as [Hall Hs]. destruct (String.leb k k0) eqn:E; simpl.
    + split; [|by split]. constructor; [done|].
      eapply Forall_impl; [exact Hall|]. intros k' Hk'. simpl in Hk'. by eapply leb_trans.
    + split; [|by apply IH].
      apply Forall_forall. intros k' Hin.
      fold (dict_keys (insert_sorted (k, n) g)) in Hin.
      rewrite dict_keys_insert_sorted in Hin. apply elem_of_cons in Hin as [->|Hin].
      * by apply leb_false_flip.
      * rewrite Forall_forall in Hall. by apply Hall.
Qed.

Lemma name_sorted_del k g :
  name_sorted (dict_keys g) -> name_sorted (dict_keys (dict_del k g)).
Proof.
  induction g as [|[k0 n0] g IH]; simpl; intros Hs; [done|].
  destruct Hs as [Hall Hs]. destruct (String.eqb k k0); simpl; [by apply IH|].
  split; [|by apply IH].
  apply Forall_forall. intros k' Hin. fold (dict_keys (dict_del k g)) in Hin.
  rewrite dict_keys_del in Hin. apply list_elem_of_filter in Hin as [_ Hin].
  rewrite Forall_forall in Hall. by apply Hall.
Qed.

Lemma NoDup_keys_del k g : NoDup (dict_keys g) -> NoDup (dict_keys (dict_del k g)).
Proof. intros H. rewrite dict_keys_del. by apply NoDup_filter. Qed.

(** Two mappings with distinct keys in name order that agree at every
    key are equal. *)
Lemma sorted_lookup_eq g g' :
  NoDup (dict_keys g) -> NoDup (dict_keys g') ->
  name_sorted (dict_keys g) -> name_sorted (dict_keys g') ->
  (forall k, dict_get k g = dict_get k g') -> g = g'.
Proof.
  revert g'. induction g as [|[k n] g IH]; intros [|[k' n'] g'] Hnd Hnd' Hs Hs' Hget.
  - done.
  - specialize (Hget k'). simpl in Hget. by rewrite eqb_refl_true in Hget.
  - specialize (Hget k). simpl in Hget. by rewrite eqb_refl_true in Hget.
  - simpl in *. apply NoDup_cons in Hnd as [Hk Hnd]. apply NoDup_cons in Hnd' as [Hk' Hnd'].
    destruct Hs as [Hall Hs]. destruct Hs' as [Hall' Hs'].
    assert (Hkk : k = k').
    { pose proof (Hget k) as H1. pose proof (Hget k') as H2.
      rewrite !eqb_refl_true in *.
      destruct (String.eqb k k') eqn:E; [by apply String.eqb_eq|].
      rewrite String.eqb_sym, E in H2.
      symmetry in H1. apply dict_get_Some_elem in H1. apply dict_get_Some_elem in H2.
      apply String.leb_antisym.
      - rewrite Forall_forall in Hall. apply Hall.
        change k' with (fst (k', n')). by apply list_elem_of_fmap_2.
      - rewrite Forall_forall in Hall'. apply Hall'.
        change k with (fst (k, n)). by apply list_elem_of_fmap_2. }
    subst k'. pose proof (Hget k) as Hn. rewrite eqb_refl_true in Hn. injection Hn as <-.
    f_equal. apply IH; try done.
    intros k0. specialize (Hget k0). destruct (String.eqb k0 k) eqn:E; [|done].
    apply String.eqb_eq in E. subst k0.
    apply dict_get_None in Hk. apply dict_get_None in Hk'. congruence.
Qed.

Lemma name_sorted_sort_items (l : list (string * A)) : name_sorted (dict_keys (sort_items l)).
Proof.
  induction l as [|[k n] l IH]; simpl; [done|]. by apply name_sorted_insert.
Qed.

Lemma sort_items_perm (l : list (string * A)) : sort_items l ≡ₚ l.
Proof.
  induction l as [|x l IH]; simpl; [done|]. rewrite insert_sorted_perm. by rewrite IH.
Qed.
End OrderFacts.

(** ** Invariants of the container *)

Lemma ordered_group links :
  ordered (Group links)
  <-> name_sorted (dict_keys links) /\ Forall (fun kv => ordered (snd kv)) links.
Proof.
  simpl. assert (H : fold_right (fun kv P => ordered (snd kv) /\ P) True links
                     <-> Forall (fun kv => ordered (snd kv)) links).
  { induction links as [|kv links IH]; simpl.
    - split; [constructor|done].
    - rewrite IH. split.
      + intros [H1 H2]. by constructor.
      + intros H. inversion H. auto. }
  by rewrite H.
Qed.

Lemma tidy_group links :
  tidy (Group links)
  <-> NoDup (dict_keys links) /\ name_sorted (dict_keys links)
      /\ Forall (fun kv => tidy (snd kv)) links.
Proof.
  unfold tidy. rewrite wf_node_group, ordered_group. split.
  - intros [[Hnd Hwf] [Hs Ho]]. split; [done|]. split; [done|].
    rewrite Forall_forall in *. intros kv Hin. split; auto.
  - intros (Hnd & Hs & Ht). repeat split; try done;
      eapply Forall_impl; try exact Ht; by intros ? [? ?].
Qed.

Lemma Forall_dict_del {A : Type} (P : string * A -> Prop) k (g : list (string * A)) :
  Forall P g -> Forall P (dict_del k g).
Proof.
  induction 1 as [|[k0 n0] g H0 _ IH]; simpl; [constructor|].
  destruct (String.eqb k k0); [done|by constructor].
Qed.

(** Good order is kept by the two steps of the writer on a group. *)
Lemma add_link_tidy g k on :
  k ∉ dict_keys g -> tidy (Group g) ->
  match on with Some n => tidy n | None => True end ->
  tidy (Group (add_link g (k, on))).
Proof.
  intros Hk Hg Hn. destruct on as [n|]; unfold add_link; simpl snd; cbn match; [|done].
  apply tidy_group in Hg as (Hnd & Hs & Ht). apply tidy_group. split; [|split].
  - rewrite dict_keys_insert_sorted. by apply NoDup_cons.
  - by apply name_sorted_insert.
  - rewrite insert_sorted_perm. by constructor.
Qed.

Lemma replace_link_tidy g kn :
  tidy (Group g) ->
  match snd kn with Some n => tidy n | None => True end ->
  tidy (Group (replace_link g kn)).
Proof.
  intros Hg Hn. destruct kn as [k on]. unfold replace_link. simpl fst.
  apply add_link_tidy; [apply dict_del_not_in| |done].
  apply tidy_group in Hg as (Hnd & Hs & Ht). apply tidy_group. split; [|split].
  - by apply NoDup_keys_del.
  - by apply name_sorted_del.
  - by apply Forall_dict_del.
Qed.

Lemma fold_add_link_tidy children :
  Forall (fun kn => match snd kn with Some n => tidy n | None => True end) children ->
  forall g, NoDup (dict_keys g ++ dict_keys children) -> tidy (Group g) ->
    tidy (Group (fold_left add_link children g)).
Proof.
  induction 1 as [|[k on] children Hn _ IH]; intros g Hnd Hg; simpl; [done|].
  destruct (NoDup_keys_head _ _ _ Hnd) as [Hk Hgd].
  apply IH.
  - eapply NoDup_keys_step; [exact Hnd| |].
    + by apply add_link_NoDup.
    + intros x. apply add_link_keys.
  - by apply add_link_tidy.
Qed.

Lemma fold_replace_link_tidy children :
  Forall (fun kn => match snd kn with Some n => tidy n | None => True end) children ->
  forall g, tidy (Group g) -> tidy (Group (fold_left replace_link children g)).
Proof.
  induction 1 as [|kn children Hn _ IH]; intros g Hg; simpl; [done|].
  apply IH. by apply replace_link_tidy.
Qed.

Section Invariants.
Variable h5_convert : pyval -> bool -> result pyval.

Lemma stored_children_tidy d children :
  Forall (fun kv => wf_val (snd kv) ->
            forall on, stored h5_convert (snd kv) = Ok on ->
              match on with Some n => tidy n | None => True end) d ->
  Forall (fun kv => wf_val (snd kv)) d ->
  update_values (stored h5_convert) d = Ok children ->
  Forall (fun kn => match snd kn with Some n => tidy n | None => True end) children.
Proof.
  intros HP Hwf Hch. apply update_values_Forall2 in Hch.
  induction Hch as [|[k v] [k' on] d children [_ Hb] _ IH]; [constructor|].
  inversion HP as [|? ? Hv HP']; subst. inversion Hwf as [|? ? Hw Hwf']; subst.
  simpl in *. constructor; [|by apply IH]. simpl. by apply Hv.
Qed.

(** The node the writer creates is in good order. *)
Lemma stored_tidy data :
  wf_val data -> forall on, stored h5_convert data = Ok on ->
    match on with Some n => tidy n | None => True end.
Proof.
  induction data as [data IH] using pyval_resolve_ind.
  intros Hwf on Hon. apply (wf_val_via h5_convert) in Hwf. rewrite stored_eq in Hon.
  destruct (via_asarray (via_asdict data)) as [| | | | | | | | | | | | d |] eqn:Hw;
    try (match type of Hon with
         | context [h5_convert ?a ?b] => destruct (h5_convert a b) as [v|e]
         end; simpl in Hon; [|done]; injection Hon as <-; by split).
  - by injection Hon as <-.
  - destruct (update_values (stored h5_convert) d) as [children|e] eqn:Ech;
      simpl in Hon; [|done].
    injection Hon as <-.
    assert (Hwfd : Forall (fun kv => wf_val (snd kv)) d).
    { apply Forall_forall. intros kv Hin. by apply (wf_val_elem d). }
    apply fold_add_link_tidy.
    + by apply (stored_children_tidy d children (IH d eq_refl) Hwfd).
    + simpl. rewrite (update_values_keys _ _ _ Ech). by destruct Hwf.
    + apply tidy_group. repeat split; constructor.
Qed.

Lemma stored_all_tidy data children :
  wf_val (VDict data) ->
  update_values (stored h5_convert) data = Ok children ->
  Forall (fun kn => match snd kn with Some n => tidy n | None => True end) children.
Proof.
  intros Hwf Hch.
  assert (Hwfd : Forall (fun kv => wf_val (snd kv)) data).
  { apply Forall_forall. intros kv Hin. by apply (wf_val_elem data). }
  apply (stored_children_tidy data children); [|done|done].
  apply Forall_forall. intros kv _ Hw on. by apply stored_tidy.
Qed.

(** A write that stores every value keeps the container in good order:
    in every group the link names stay pairwise distinct and in name
    order. *)
Theorem save_dict_keeps_good_order (fs : gmap string fcontent) (filename : string)
    (data : list (string * pyval)) (root : list (string * node))
    (children : list (string * option node)) :
  makedirs (dirname filename) fs = Ok tt ->
  fs !! lock_filename filename = None -> lock_filename filename <> filename ->
  container filename fs = Some root -> tidy (Group root) ->
  wf_val (VDict data) ->
  update_values (stored h5_convert) data = Ok children ->
  exists root',
    save_dict h5_convert filename data fs = (<[filename := H5File root']> fs, Ok tt)
    /\ wf_node (Group root') /\ ordered (Group root').
Proof.
  intros Hdir Hfree Hne Hroot Htidy Hwf Hch.
  assert (Hwfd : Forall (fun kv => wf_val (snd kv)) data).
  { apply Forall_forall. intros kv Hin. by apply (wf_val_elem data). }
  exists (fold_left replace_link children root).
  rewrite (save_dict_run h5_convert filename data fs root Hdir Hfree Hne Hroot).
  rewrite (for_items_replaces h5_convert data Hwfd root children Hch). split; [done|].
  apply fold_replace_link_tidy; [|done]. by apply (stored_all_tidy data).
Qed.

Lemma update_values_perm {A B : Type} (body : A -> result B) items items' s :
  items ≡ₚ items' -> update_values body items = Ok s ->
  exists s', update_values body items' = Ok s' /\ s ≡ₚ s'.
Proof.
  intros Hp. revert s. induction Hp as [|[k v] l l' Hp IH|[k1 v1] [k2 v2] l|l1 l2 l3 _ IH1 _ IH2];
    intros s Hs; simpl in *.
  - injection Hs as <-. by exists [].
  - destruct (body v) as [x|e]; simpl in *; [|done].
    destruct (update_values body l) as [r|e] eqn:Er; simpl in Hs; [|done].
    injection Hs as <-. destruct (IH r eq_refl) as (r' & -> & Hr).
    simpl. eexists. split; [done|]. by constructor.
  - destruct (body v2) as [x2|e]; simpl in *; [|done].
    destruct (body v1) as [x1|e]; simpl in *; [|done].
    destruct (update_values body l) as [r|e]; simpl in *; [|done].
    injection Hs as <-. eexists. split; [done|]. apply Permutation_swap.
  - destruct (IH1 s Hs) as (s2 & Hs2 & Hp2). destruct (IH2 s2 Hs2) as (s3 & Hs3 & Hp3).
    exists s3. split; [done|]. by etrans.
Qed.

(** The container does not depend on the order of the keys in the data:
    two mappings with the same items written to the same container leave
    the same file system. *)
Theorem save_dict_order_independent (fs : gmap string fcontent) (filename : string)
    (data data' : list (string * pyval)) (root : list (string * node))
    (children : list (string * option node)) :
  makedirs (dirname filename) fs = Ok tt ->
  fs !! lock_filename filename = None -> lock_filename filename <> filename ->
  container filename fs = Some root -> tidy (Group root) ->
  wf_val (VDict data) -> data ≡ₚ data' ->
  update_values (stored h5_convert) data = Ok children ->
  save_dict h5_convert filename data' fs = save_dict h5_convert filename data fs
  /\ (save_dict h5_convert filename data fs).2 = Ok tt.
Proof.
  intros Hdir Hfree Hne Hroot Htidy Hwf Hp Hch.
  assert (Hwfd : Forall (fun kv => wf_val (snd kv)) data).
  { apply Forall_forall. intros kv Hin. by apply (wf_val_elem data). }
  assert (Hwfd' : Forall (fun kv => wf_val (snd kv)) data') by (by rewrite <- Hp).
  destruct (update_values_perm _ _ _ _ Hp Hch) as (children' & Hch' & Hpc).
  rewrite !(save_dict_run h5_convert filename _ fs root Hdir Hfree Hne Hroot).
  rewrite (for_items_replaces h5_convert data Hwfd root children Hch).
  rewrite (for_items_replaces h5_convert data' Hwfd' root children' Hch').
  simpl. split; [|done]. do 3 f_equal.
  pose proof (stored_all_tidy data children Hwf Hch) as Ht.
  assert (Ht' : Forall (fun kn => match snd kn with Some n => tidy n | None => True end)
                  children') by (by rewrite <- Hpc).
  pose proof (fold_replace_link_tidy children Ht root Htidy) as H1.
  pose proof (fold_replace_link_tidy children' Ht' root Htidy) as H2.
  apply tidy_group in H1 as (Hnd1 & Hs1 & _). apply tidy_group in H2 as (Hnd2 & Hs2 & _).
  assert (Hndc : NoDup (dict_keys children)).
  { rewrite (update_values_keys _ _ _ Hch). by destruct Hwf. }
  assert (Hndc' : NoDup (dict_keys children')) by (by rewrite <- (dict_keys_perm _ _ Hpc)).
  apply sorted_lookup_eq; try done.
  intros k. rewrite !dict_get_fold_replace by done.
  by rewrite (dict_get_perm k children children' Hndc Hpc).
Qed.

(** Writing the same data twice is writing it once: the second write
    leaves the file system the first one made. *)
Theorem save_dict_idempotent (fs : gmap string fcontent) (filename : string)
    (data : list (string * pyval)) (root : list (string * node))
    (children : list (string * option node)) :
  makedirs (dirname filename) fs = Ok tt -> dirname filename <> filename ->
  fs !! lock_filename filename = None -> lock_filename filename <> filename ->
  container filename fs = Some root -> tidy (Group root) ->
  wf_val (VDict data) ->
  update_values (stored h5_convert) data = Ok children ->
  exists fs1,
    save_dict h5_convert filename data fs = (fs1, Ok tt)
    /\ save_dict h5_convert filename data fs1 = (fs1, Ok tt).
Proof.
  intros Hdir Hdn Hfree Hne Hroot Htidy Hwf Hch.
  assert (Hwfd : Forall (fun kv => wf_val (snd kv)) data).
  { apply Forall_forall. intros kv Hin. by apply (wf_val_elem data). }
  set (root1 := fold_left replace_link children root).
  exists (<[filename := H5File root1]> fs). split.
  { rewrite (save_dict_run h5_convert filename data fs root Hdir Hfree Hne Hroot).
    by rewrite (for_items_replaces h5_convert data Hwfd root children Hch). }
  assert (Hdir1 : makedirs (dirname filename) (<[filename := H5File root1]> fs) = Ok tt).
  { unfold makedirs, path_exists in *. destruct (String.eqb (dirname filename) ""); [done|].
    by rewrite lookup_insert_ne. }
  assert (Hfree1 : (<[filename := H5File root1]> fs) !! lock_filename filename = None)
    by (by rewrite lookup_insert_ne).
  assert (Hroot1 : container filename (<[filename := H5File root1]> fs) = Some root1)
    by (unfold container; by rewrite lookup_insert_eq).
  rewrite (save_dict_run h5_convert filename data _ root1 Hdir1 Hfree1 Hne Hroot1).
  rewrite (for_items_replaces h5_convert data Hwfd root1 children Hch). simpl.
  rewrite insert_insert_eq. do 3 f_equal.
  pose proof (stored_all_tidy data children Hwf Hch) as Ht.
  pose proof (fold_replace_link_tidy children Ht root Htidy) as H1. fold root1 in H1.
  pose proof (fold_replace_link_tidy children Ht root1 H1) as H2.
  apply tidy_group in H1 as (Hnd1 & Hs1 & _). apply tidy_group in H2 as (Hnd2 & Hs2 & _).
  assert (Hndc : NoDup (dict_keys children)).
  { rewrite (update_values_keys _ _ _ Hch). by destruct Hwf. }
  apply sorted_lookup_eq; try done.
  intros k. rewrite dict_get_fold_replace by done. unfold root1.
  rewrite dict_get_fold_replace by done. by destruct (dict_get k children).
Qed.
End Invariants.

Lemma sample_root_tidy : tidy (Group sample_root).
Proof.
  split; [exact sample_root_wf|].
  simpl. repeat split; repeat constructor.
Defined.

Lemma save_dict_keeps_good_order_witness :
  exists root',
    save_dict Ref.h5_convert sample_path [("m", VDict [("z", VInt 1); ("a", VInt 2)])]
      sample_fs
    = (<[sample_path := H5File root']> sample_fs, Ok tt)
    /\ wf_node (Group root') /\ ordered (Group root').
Proof.
  apply (save_dict_keeps_good_order Ref.h5_convert sample_fs sample_path
           [("m", VDict [("z", VInt 1); ("a", VInt 2)])] sample_root
           [("m", Some (Group [("a", Dataset (VNpInt 2) false);
                               ("z", Dataset (VNpInt 1) false)]))]).
  - reflexivity.
  - reflexivity.
  - exact sample_lock_distinct.
  - reflexivity.
  - exact sample_root_tidy.
  - simpl. repeat split; distinct_keys.
  - reflexivity.
Defined.

Lemma save_dict_order_independent_witness :
  save_dict Ref.h5_convert sample_path [("a", VInt 2); ("b", VInt 1)] sample_fs
  = save_dict Ref.h5_convert sample_path [("b", VInt 1); ("a", VInt 2)] sample_fs
  /\ (save_dict Ref.h5_convert sample_path [("b", VInt 1); ("a", VInt 2)] sample_fs).2
     = Ok tt.
Proof.
  apply (save_dict_order_independent Ref.h5_convert sample_fs sample_path
           [("b", VInt 1); ("a", VInt 2)] [("a", VInt 2); ("b", VInt 1)] sample_root
           [("b", Some (Dataset (VNpInt 1) false)); ("a", Some (Dataset (VNpInt 2) false))]).
  - reflexivity.
  - reflexivity.
  - exact sample_lock_distinct.
  - reflexivity.
  - exact sample_root_tidy.
  - simpl. repeat split; distinct_keys.
  - apply Permutation_swap.
  - reflexivity.
Defined.

Lemma sample_dirname_distinct : dirname sample_path <> sample_path.
Proof. intros H. vm_compute in H. discriminate H. Defined.

Lemma save_dict_idempotent_witness :
  exists fs1,
    save_dict Ref.h5_convert sample_path sample_data ∅ = (fs1, Ok tt)
    /\ save_dict Ref.h5_convert sample_path sample_data fs1 = (fs1, Ok tt).
Proof.
  apply (save_dict_idempotent Ref.h5_convert ∅ sample_path sample_data []
           [("x", Some (Dataset (VArray [3%nat] [VNpInt 1; VNpInt 2; VNpInt 3]) true));
            ("s", Some (Dataset (VBytes "abc") false));
            ("sub", Some (Group [("f", Dataset (VNpFloat 0.5) false);
                                 ("n", Dataset (VNpInt 7) false)]))]).
  - reflexivity.
  - exact sample_dirname_distinct.
  - reflexivity.
  - exact sample_lock_distinct.
  - reflexivity.
  - split; simpl; repeat split; constructor.
  - exact sample_data_wf.
  - reflexivity.
Defined.

(** ** Rendering equal mappings *)

Lemma summary_size_elem d kv : kv ∈ d -> (summary_size (snd kv) < summary_size (SDict d))%nat.
Proof.
  simpl. induction d as [|kv' d IH]; intros H.
  - by apply elem_of_nil in H.
  - apply elem_of_cons in H as [->|H]; simpl; [lia|]. specialize (IH H). lia.
Qed.

Lemma wf_summary_dict d :
  wf_summary (SDict d) <-> NoDup (dict_keys d) /\ Forall (fun kv => wf_summary (snd kv)) d.
Proof.
  simpl. assert (H : fold_right (fun kv P => wf_summary (snd kv) /\ P) True d
                     <-> Forall (fun kv => wf_summary (snd kv)) d).
  { induction d as [|kv d IH]; simpl.
    - split; [constructor|done].
    - rewrite IH. split.
      + intros [H1 H2]. by constructor.
      + intros H. inversion H. auto. }
  by rewrite H.
Qed.

Lemma dict_keys_map_values {A B : Type} (f : string * A -> B) (d : list (string * A)) :
  dict_keys (map (fun kv => (fst kv, f kv)) d) = dict_keys d.
Proof. unfold dict_keys. rewrite map_map. done. Qed.

Lemma dict_get_map_values {A B : Type} (f : A -> B) k (d : list (string * A)) :
  dict_get k (map (fun kv => (fst kv, f (snd kv))) d) = f <$> dict_get k d.
Proof.
  induction d as [|[k0 v0] d IH]; simpl; [done|].
  by destruct (String.eqb k k0).
Qed.

Lemma encode_dict kv d level :
  Json.encode (SDict (kv :: d)) level
  = "{" +:+ Json.newline_indent (S level)
      +:+ Json.join ("," +:+ Json.newline_indent (S level))
            (map (fun kx => Json.encode_str (fst kx) +:+ ": " +:+ snd kx)
               (sort_items (map (fun kx => (fst kx, Json.encode (snd kx) (S level)))
                              (kv :: d))))
      +:+ Json.newline_indent level +:+ "}".
Proof. reflexivity. Qed.

(** Descriptions that are equal as Python mappings are rendered as the
    same text: the order in which the keys were inserted, at any depth,
    does not show. *)
Theorem render_ignores_insertion_order (s1 s2 : summary) (level : nat) :
  wf_summary s1 -> wf_summary s2 -> summary_eq s1 s2 ->
  Json.encode s1 level = Json.encode s2 level.
Proof.
  remember (summary_size s1) as m eqn:Em. revert s1 s2 level Em.
  induction m as [m IH] using lt_wf_ind. intros s1 s2 level -> Hw1 Hw2 Heq.
  destruct Heq as [s|d1 d2 Hget]; [done|].
  apply wf_summary_dict in Hw1 as [Hnd1 Hw1]. apply wf_summary_dict in Hw2 as [Hnd2 Hw2].
  destruct d1 as [|kv1 d1], d2 as [|kv2 d2].
  - done.
  - specialize (Hget (fst kv2)). destruct kv2 as [k2 v2]. simpl in Hget.
    rewrite eqb_refl_true in Hget. inversion Hget.
  - specialize (Hget (fst kv1)). destruct kv1 as [k1 v1]. simpl in Hget.
    rewrite eqb_refl_true in Hget. inversion Hget.
  - rewrite !encode_dict. do 3 f_equal.
    set (f := fun kx : string * summary => (fst kx, Json.encode (snd kx) (S level))).
    assert (Hitems : sort_items (map f (kv1 :: d1)) = sort_items (map f (kv2 :: d2)));
      [|by rewrite Hitems].
    apply sorted_lookup_eq.
    + rewrite (dict_keys_perm _ _ (sort_items_perm _)).
      by rewrite (dict_keys_map_values (fun kx => Json.encode (snd kx) (S level))).
    + rewrite (dict_keys_perm _ _ (sort_items_perm _)).
      by rewrite (dict_keys_map_values (fun kx => Json.encode (snd kx) (S level))).
    + apply name_sorted_sort_items.
    + apply name_sorted_sort_items.
    + intros k.
      assert (Hl : forall d, NoDup (dict_keys d) ->
                dict_get k (sort_items (map f d))
                = (fun v => Json.encode v (S level)) <$> dict_get k d).
      { intros d Hd. rewrite (dict_get_perm k _ (map f d)).
        - apply (dict_get_map_values (fun v => Json.encode v (S level))).
        - rewrite (dict_keys_perm _ _ (sort_items_perm _)).
          by rewrite (dict_keys_map_values (fun kx => Json.encode (snd kx) (S level))).
        - apply sort_items_perm. }
      rewrite !Hl by done. specialize (Hget k).
      destruct (dict_get k (kv1 :: d1)) as [v1|] eqn:E1,
               (dict_get k (kv2 :: d2)) as [v2|] eqn:E2; inversion Hget; subst; [|done].
      simpl. f_equal.
      apply dict_get_Some_elem in E1. apply dict_get_Some_elem in E2.
      eapply IH; [|reflexivity| | |done].
      * apply (summary_size_elem (kv1 :: d1) (k, v1) E1).
      * rewrite Forall_forall in Hw1. apply (Hw1 _ E1).
      * rewrite Forall_forall in Hw2. apply (Hw2 _ E2).
Qed.

Lemma render_ignores_insertion_order_witness :
  dict_to_json_format_str [("b", SStr "x"); ("a", SDict [("d", SStr "y"); ("c", SStr "z")])]
  = dict_to_json_format_str [("a", SDict [("c", SStr "z"); ("d", SStr "y")]); ("b", SStr "x")].
Proof.
  apply (render_ignores_insertion_order
           (SDict [("b", SStr "x"); ("a", SDict [("d", SStr "y"); ("c", SStr "z")])])
           (SDict [("a", SDict [("c", SStr "z"); ("d", SStr "y")]); ("b", SStr "x")]) 0).
  - simpl. repeat split; distinct_keys.
  - simpl. repeat split; distinct_keys.
  - constructor. intros k.
    destruct (String.eqb_spec k "b") as [->|Hb]; [repeat constructor|].
    destruct (String.eqb_spec k "a") as [->|Ha].
    + simpl. constructor. constructor. intros k'.
      destruct (String.eqb_spec k' "c") as [->|Hc]; [repeat constructor|].
      destruct (String.eqb_spec k' "d") as [->|Hd]; [repeat constructor|].
      apply String.eqb_neq in Hc, Hd. simpl. rewrite Hc, Hd. constructor.
    + apply String.eqb_neq in Ha, Hb. simpl. rewrite Ha, Hb. constructor.
Defined.

(** ** The viewer *)

Lemma string_app_assoc (s1 s2 s3 : string) : (s1 +:+ s2) +:+ s3 = s1 +:+ s2 +:+ s3.
Proof. induction s1 as [|a s1 IH]; [done|]. rewrite !app_cons. by rewrite IH. Qed.

Lemma string_app_nil_r (s : string) : s +:+ "" = s.
Proof. induction s as [|a s IH]; [done|]. rewrite app_cons. by rewrite IH. Qed.

Lemma slash_path_cons k ks : slash_path (k :: ks) = "/" +:+ k +:+ slash_path ks.
Proof. unfold slash_path. simpl. by rewrite string_app_assoc. Qed.

(** The search appends, to the items it was given, one item per
    dataset below [obj], in the order of the links. *)
Lemma depth_first_search_leaves obj :
  forall key items,
    depth_first_search key obj (Some items)
    = items ++ map (fun pl => (lstrip "/" (key +:+ slash_path (fst pl)), snd pl)) (leaves obj).
Proof.
  induction obj as [obj IH] using node_group_ind. intros key items.
  destruct obj as [links|v gz].
  - specialize (IH links eq_refl). cbn [depth_first_search leaves].
    revert items. induction links as [|[k c] links IHl]; intros items; simpl.
    + by rewrite app_nil_r.
    + inversion IH as [|? ? Hc Hrest]; subst. simpl in Hc.
      rewrite (IHl Hrest). rewrite Hc. rewrite map_app, <- app_assoc. do 2 f_equal.
      rewrite map_map. apply map_ext. intros [ks x]. simpl.
      by rewrite slash_path_cons, !string_app_assoc.
  - simpl. unfold slash_path. simpl. by rewrite string_app_nil_r.
Qed.

Lemma depth_first_search_none key obj :
  depth_first_search key obj None = depth_first_search key obj (Some []).
Proof. destruct obj; reflexivity. Qed.

(** Items collected before the call are kept, in their order, and the
    items found are put after them: a search with a list is the list
    followed by the result of the search without one. *)
Theorem depth_first_search_appends (key : string) (obj : node)
    (items : list (string * node)) :
  depth_first_search key obj (Some items) = items ++ depth_first_search key obj None.
Proof.
  rewrite depth_first_search_none, !depth_first_search_leaves. done.
Qed.

Lemma leaves_are_datasets n :
  Forall (fun pl => exists v gz, snd pl = Dataset v gz) (leaves n).
Proof.
  induction n as [n IH] using node_group_ind. destruct n as [links|v gz].
  - specialize (IH links eq_refl). simpl.
    induction IH as [|[k c] links Hc _ IHl]; simpl; [constructor|].
    apply Forall_app. split; [|done].
    apply Forall_forall. intros pl Hin.
    apply list_elem_of_In, in_map_iff in Hin as (pl' & <- & Hin). simpl.
    rewrite Forall_forall in Hc. apply Hc. by apply list_elem_of_In.
  - repeat constructor. simpl. eauto.
Qed.

Lemma leaves_first_name links pl :
  pl ∈ leaves (Group links) -> exists k ks, fst pl = k :: ks /\ k ∈ dict_keys links.
Proof.
  simpl. induction links as [|[k c] links IH]; simpl; intros Hin.
  - by apply elem_of_nil in Hin.
  - apply elem_of_app in Hin as [Hin|Hin].
    + apply list_elem_of_In, in_map_iff in Hin as (pl' & <- & _). simpl.
      exists k, (fst pl'). split; [done|]. left.
    + destruct (IH Hin) as (k' & ks & Hpl & Hk'). exists k', ks. split; [done|]. by right.
Qed.

Lemma join_slash k ks : Json.join "/" (k :: ks) = k +:+ slash_path ks.
Proof.
  revert k. induction ks as [|k' ks IH]; intros k.
  - simpl. unfold slash_path. simpl. by rewrite string_app_nil_r.
  - change (Json.join "/" (k :: k' :: ks)) with (k +:+ "/" +:+ Json.join "/" (k' :: ks)).
    rewrite IH. by rewrite slash_path_cons.
Qed.

Lemma lstrip_plain k rest :
  plain_name k = true -> lstrip "/" ("" +:+ "/" +:+ k +:+ rest) = k +:+ rest.
Proof.
  destruct k as [|a k]; [done|]. simpl. intros Ha.
  change ("" +:+ "/" +:+ String a k +:+ rest) with (String "/" (String a (k +:+ rest))).
  simpl. destruct (Ascii.eqb a "/"); [done|]. done.
Qed.

(** The search from the root of a container lists each dataset once,
    under the names of the links that lead to it joined by slashes, in
    the order of the links; groups are not listed, so an empty group
    leaves no trace.  (The top-level names are not empty and do not begin
    with a slash, as HDF5 names are.) *)
Theorem depth_first_search_lists_datasets (root : list (string * node)) :
  Forall (fun k => plain_name k = true) (dict_keys root) ->
  depth_first_search "" (Group root) None
  = map (fun pl => (Json.join "/" (fst pl), snd pl)) (leaves (Group root))
  /\ Forall (fun item => exists v gz, snd item = Dataset v gz)
       (depth_first_search "" (Group root) None)
  /\ length (depth_first_search "" (Group root) None) = length (leaves (Group root)).
Proof.
  intros Hnames.
  assert (Heq : depth_first_search "" (Group root) None
                = map (fun pl => (Json.join "/" (fst pl), snd pl)) (leaves (Group root))).
  { rewrite depth_first_search_none, depth_first_search_leaves. cbn [app].
    apply map_ext_in. intros pl Hin. apply list_elem_of_In in Hin.
    destruct (leaves_first_name root pl Hin) as (k & ks & Hpl & Hk).
    rewrite Hpl. rewrite slash_path_cons, join_slash. f_equal.
    apply lstrip_plain. rewrite Forall_forall in Hnames. by apply Hnames. }
  split; [exact Heq|]. split.
  - rewrite Heq. apply Forall_forall. intros item Hin.
    apply list_elem_of_In, in_map_iff in Hin as (pl & <- & Hin). simpl.
    pose proof (leaves_are_datasets (Group root)) as Hd. rewrite Forall_forall in Hd.
    apply Hd. by apply list_elem_of_In.
  - rewrite Heq. apply length_map.
Qed.

Lemma depth_first_search_lists_datasets_witness :
  depth_first_search "" (Group (("empty", Group []) :: sample_root)) None
  = map (fun pl => (Json.join "/" (fst pl), snd pl))
      (leaves (Group (("empty", Group []) :: sample_root)))
  /\ Forall (fun item => exists v gz, snd item = Dataset v gz)
       (depth_first_search "" (Group (("empty", Group []) :: sample_root)) None)
  /\ length (depth_first_search "" (Group (("empty", Group []) :: sample_root)) None)
     = length (leaves (Group (("empty", Group []) :: sample_root))).
Proof.
  apply (depth_first_search_lists_datasets (("empty", Group []) :: sample_root)).
  simpl. repeat constructor.
Defined.

(** *** Lines *)

Lemma split_on_nonempty c s : split_on c s <> [].
Proof.
  destruct s as [|a s]; simpl; [done|].
  destruct (Ascii.eqb a c); [done|]. by destruct (split_on c s).
Qed.

Lemma join_cons_cons sep s s' l :
  Json.join sep (s :: s' :: l) = s +:+ sep +:+ Json.join sep (s' :: l).
Proof. reflexivity. Qed.

(** Joining the lines of a text gives the text back. *)
Lemma join_split_on c s : Json.join (String c "") (split_on c s) = s.
Proof.
  induction s as [|a s IH]; [done|]. simpl.
  destruct (Ascii.eqb a c) eqn:E.
  - apply Ascii.eqb_eq in E. subst a.
    pose proof (split_on_nonempty c s) as Hne.
    destruct (split_on c s) as [|h t]; [done|].
    rewrite join_cons_cons. rewrite IH. reflexivity.
  - pose proof (split_on_nonempty c s) as Hne.
    destruct (split_on c s) as [|h [|h' t]]; [done| |].
    + simpl in *. by rewrite IH.
    + rewrite join_cons_cons in *. rewrite app_cons. by rewrite IH.
Qed.

Lemma split_on_no_sep c s : contains_char c s = false -> split_on c s = [s].
Proof.
  induction s as [|a s IH]; [done|]. simpl. intros H.
  apply orb_false_elim in H as [Ha Hs]. rewrite Ha. by rewrite (IH Hs).
Qed.

Lemma split_on_app c s rest :
  contains_char c s = false ->
  split_on c (s +:+ String c rest) = s :: split_on c rest.
Proof.
  induction s as [|a s IH]; intros H.
  - change ("" +:+ String c rest) with (String c rest). simpl. by rewrite Ascii.eqb_refl.
  - simpl in H. apply orb_false_elim in H as [Ha Hs].
    rewrite app_cons. simpl. rewrite Ha. by rewrite (IH Hs).
Qed.

(** Splitting the join of lines that hold no separator gives the lines
    back. *)
Lemma split_on_join c l :
  l <> [] -> Forall (fun s => contains_char c s = false) l ->
  split_on c (Json.join (String c "") l) = l.
Proof.
  intros Hne H. induction H as [|s l Hs Hl IH]; [done|].
  destruct l as [|s' l].
  - simpl. by apply split_on_no_sep.
  - rewrite join_cons_cons.
    change (s +:+ String c "" +:+ Json.join (String c "") (s' :: l))
      with (s +:+ String c (Json.join (String c "") (s' :: l))).
    rewrite split_on_app by done. f_equal. by apply IH.
Qed.

Lemma split_on_lines c s : Forall (fun l => contains_char c l = false) (split_on c s).
Proof.
  induction s as [|a s IH]; simpl; [by repeat constructor|].
  destruct (Ascii.eqb a c) eqn:E; [by constructor|].
  pose proof (split_on_nonempty c s) as Hne.
  destruct (split_on c s) as [|h t]; [done|].
  inversion IH; subst. constructor; [|done]. simpl. by rewrite E.
Qed.

Lemma contains_char_app c s1 s2 :
  contains_char c (s1 +:+ s2) = contains_char c s1 || contains_char c s2.
Proof.
  induction s1 as [|a s1 IH]; [done|]. rewrite app_cons. simpl. rewrite IH.
  by rewrite orb_assoc.
Qed.

Lemma startswith_self_app p s : Text.startswith p (p +:+ s) = true.
Proof.
  induction p as [|a p IH]; [done|]. rewrite app_cons. simpl. by rewrite Ascii.eqb_refl.
Qed.

Section ViewerFacts.
Variable os_path_split : string -> string * string.

Abbreviation replace_statement := (replace_analysis_cell_statement os_path_split).

Lemma map_result_id {A : Type} (f : A -> result A) (l : list A) :
  Forall (fun a => f a = Ok a) l -> map_result f l = Ok l.
Proof.
  induction 1 as [|a l Ha _ IH]; simpl; [done|]. rewrite Ha. simpl. by rewrite IH.
Qed.

Lemma map_result_map {A B : Type} (f : A -> result B) (g : A -> B) (l : list A) :
  Forall (fun a => f a = Ok (g a)) l -> map_result f l = Ok (map g l).
Proof.
  induction 1 as [|a l Ha _ IH]; simpl; [done|]. rewrite Ha. simpl. by rewrite IH.
Qed.

(** A text without a line that begins with [aqm.analysis_cell(] is
    returned as it is, whether or not a file is open. *)
Theorem replace_statement_no_match (file_path : option string) (value : string) :
  Forall (fun line => Text.startswith analysis_cell_prefix line = false)
    (split_on (Text.chr 10) value) ->
  replace_statement file_path value = Ok value.
Proof.
  intros H. unfold replace_analysis_cell_statement.
  rewrite map_result_id.
  - simpl. f_equal. apply (join_split_on (Text.chr 10)).
  - eapply Forall_impl; [exact H|]. intros line Hl. cbv beta in Hl |- *. by rewrite Hl.
Qed.

(** Without an open file, a text with a line that begins with
    [aqm.analysis_cell(] raises [ValueError]. *)
Theorem replace_statement_without_file (value line : string) :
  line ∈ split_on (Text.chr 10) value ->
  Text.startswith analysis_cell_prefix line = true ->
  replace_statement None value = Raise ValueError.
Proof.
  intros Hin Hl. unfold replace_analysis_cell_statement.
  assert (H : map_result
                (fun line =>
                   if negb (Text.startswith analysis_cell_prefix line) then Ok line
                   else
                     filename ← EditorWindow_filename os_path_split None;
                     Ok (analysis_cell_prefix +:+ Json.quote +:+ filename
                         +:+ Json.quote +:+ ")"))
                (split_on (Text.chr 10) value) = Raise ValueError); [|by rewrite H].
  induction (split_on (Text.chr 10) value) as [|l ls IH]; [by apply elem_of_nil in Hin|].
  cbn [map_result]. apply elem_of_cons in Hin as [<-|Hin].
  - rewrite Hl. reflexivity.
  - rewrite (IH Hin). by destruct (Text.startswith analysis_cell_prefix l).
Qed.

(** With an open file whose name holds no newline, replacing is
    idempotent: the text it returns is returned unchanged when given
    again, and it has as many lines as the text given. *)
Theorem replace_statement_idempotent (p value : string) :
  contains_char (Text.chr 10) (snd (os_path_split p)) = false ->
  exists r,
    replace_statement (Some p) value = Ok r
    /\ replace_statement (Some p) r = Ok r
    /\ length (split_on (Text.chr 10) r) = length (split_on (Text.chr 10) value).
Proof.
  intros Hfn. unfold replace_analysis_cell_statement. simpl.
  set (stmt := analysis_cell_prefix +:+ Json.quote +:+ snd (os_path_split p)
               +:+ Json.quote +:+ ")").
  set (g := fun line : string =>
              if negb (Text.startswith analysis_cell_prefix line) then line else stmt).
  set (f := fun line : string =>
              if negb (Text.startswith analysis_cell_prefix line) then Ok line
              else Ok stmt).
  assert (Hfg : forall l, map_result f l = Ok (map g l)).
  { intros l. apply map_result_map. apply Forall_forall. intros line _.
    unfold f, g. by destruct (negb _). }
  assert (Hstmt : contains_char (Text.chr 10) stmt = false).
  { unfold stmt. rewrite !contains_char_app, Hfn. reflexivity. }
  assert (Hgg : forall line, g (g line) = g line).
  { intros line. unfold g at 2 3.
    destruct (Text.startswith analysis_cell_prefix line) eqn:E; simpl.
    - unfold g. unfold stmt at 1. by rewrite startswith_self_app.
    - unfold g. by rewrite E. }
  set (lines := split_on (Text.chr 10) value).
  assert (Hsplit : split_on (Text.chr 10) (Json.join Json.newline (map g lines))
                   = map g lines).
  { apply (split_on_join (Text.chr 10)).
    - pose proof (split_on_nonempty (Text.chr 10) value) as Hne. fold lines in Hne.
      by destruct lines.
    - apply Forall_forall. intros l Hin.
      apply list_elem_of_In, in_map_iff in Hin as (l0 & <- & Hin).
      unfold g. destruct (negb _); [|done].
      pose proof (split_on_lines (Text.chr 10) value) as Hl.
      rewrite Forall_forall in Hl. apply Hl. by apply list_elem_of_In. }
  exists (Json.join Json.newline (map g lines)).
  change (map_result _ lines) with (map_result f lines). rewrite Hfg. simpl.
  split; [done|]. rewrite Hsplit. split; [|by rewrite length_map].
  change (map_result _ (map g lines)) with (map_result f (map g lines)).
  rewrite Hfg. simpl. do 2 f_equal. rewrite map_map. apply map_ext. exact Hgg.
Qed.
End ViewerFacts.

Lemma replace_statement_no_match_witness :
  replace_analysis_cell_statement (fun p => ("", p)) None "x = 1" = Ok "x = 1".
Proof.
  apply (replace_statement_no_match (fun p => ("", p)) None "x = 1").
  repeat constructor.
Defined.

Lemma replace_statement_without_file_witness :
  replace_analysis_cell_statement (fun p => ("", p)) None "aqm.analysis_cell()"
  = Raise ValueError.
Proof.
  apply (replace_statement_without_file (fun p => ("", p)) "aqm.analysis_cell()"
           "aqm.analysis_cell()").
  - left.
  - reflexivity.
Defined.

Lemma replace_statement_idempotent_witness :
  exists r,
    replace_analysis_cell_statement (fun p => ("", p)) (Some "f.h5") "aqm.analysis_cell()"
      = Ok r
    /\ replace_analysis_cell_statement (fun p => ("", p)) (Some "f.h5") r = Ok r
    /\ length (split_on (Text.chr 10) r)
       = length (split_on (Text.chr 10) "aqm.analysis_cell()").
Proof.
  apply (replace_statement_idempotent (fun p => ("", p)) "f.h5" "aqm.analysis_cell()").
  reflexivity.
Defined.
